(** * The workflow state machine of the browser agent

    A shallow embedding of [agent/llm.py] (the lenient JSON decoder and the
    reasoning call with its retries), [agent/graph.py] (the five phases,
    the router and the graph), [browser/utils.py] (the element list) and
    [main.py] (the initial state and the job around the graph).

    Python values decoded from model output are dynamically typed, so they
    are kept as [json] values and every operation the code applies to them
    ([len], [in], [.get], [>=], iteration, truth value) is written with the
    cases in which Python raises.  Text is a [string] whose characters are
    read as code points below 256. *)

From Stdlib Require Import ZArith List String Ascii Bool Lia QArith.
From Stdlib Require Import Decimal DecimalString DecimalPos DecimalZ FinFun.
Import ListNotations.
Local Open Scope string_scope.
Local Open Scope Z_scope.
#[local] Set Warnings "-register-all".

(** ** Exceptions and results *)

Inductive exn_class :=
| ValueError | TypeError | KeyError | IndexError | AttributeError
| JSONDecodeError | PlaywrightTimeoutError | OtherException.

(** [exn_text] is what [str(e)] gives. *)
Record exn := mk_exn { exn_kind : exn_class; exn_text : string }.

Inductive result (A : Type) :=
| Returned (a : A)
| Raised (e : exn).
Arguments Returned {A} a.
Arguments Raised {A} e.

Definition is_json_decode_error (e : exn) : bool :=
  match exn_kind e with JSONDecodeError => true | _ => false end.

(** ** Decoded JSON values *)

Inductive pyfloat :=
| FNaN
| FInf (negative : bool)
| FFinite (q : Q).

Inductive json :=
| JNull
| JBool (b : bool)
| JInt (n : Z)
| JFloat (f : pyfloat)
| JStr (s : string)
| JArr (items : list json)
| JObj (fields : list (string * json)).

Definition nl : string := String (ascii_of_nat 10) "".

Fixpoint assoc (k : string) (fields : list (string * json)) : option json :=
  match fields with
  | [] => None
  | (k', v) :: rest => if String.eqb k k' then Some v else assoc k rest
  end.

(** [v == s] for a string literal [s]. *)
Definition str_eq (v : json) (s : string) : bool :=
  match v with JStr t => String.eqb t s | _ => false end.

(** [bool(v)] *)
Definition truthy (v : json) : bool :=
  match v with
  | JNull => false
  | JBool b => b
  | JInt n => negb (n =? 0)
  | JFloat (FFinite q) => negb (Qeq_bool q 0)
  | JFloat _ => true
  | JStr s => negb (String.eqb s "")
  | JArr l => match l with [] => false | _ => true end
  | JObj m => match m with [] => false | _ => true end
  end.

Fixpoint contains (needle s : string) : bool :=
  if String.prefix needle s then true
  else match s with
       | EmptyString => false
       | String _ r => contains needle r
       end.

(** [type(v).__name__], as the messages of the exceptions show it. *)
Definition py_type_name (v : json) : string :=
  match v with
  | JNull => "NoneType"
  | JBool _ => "bool"
  | JInt _ => "int"
  | JFloat _ => "float"
  | JStr _ => "str"
  | JArr _ => "list"
  | JObj _ => "dict"
  end.

(** [key in v] for a string [key]. *)
Definition py_in (key : string) (v : json) : result bool :=
  match v with
  | JObj m => Returned (match assoc key m with Some _ => true | None => false end)
  | JArr l => Returned (existsb (fun x => str_eq x key) l)
  | JStr s => Returned (contains key s)
  | _ => Raised (mk_exn TypeError ("argument of type '" ++ py_type_name v
                                   ++ "' is not iterable"))
  end.

(** [v.get(key)]: [None] stands for Python's [None] of an absent key. *)
Definition py_get (v : json) (key : string) : result (option json) :=
  match v with
  | JObj m => Returned (assoc key m)
  | _ => Raised (mk_exn AttributeError ("'" ++ py_type_name v
                                        ++ "' object has no attribute 'get'"))
  end.

Definition py_get_default (v : json) (key : string) (d : json) : result json :=
  match py_get v key with
  | Returned (Some x) => Returned x
  | Returned None => Returned d
  | Raised e => Raised e
  end.

(** [v[key]] for a string [key]. *)
Definition py_getitem_str (v : json) (key : string) : result json :=
  match v with
  | JObj m => match assoc key m with
              | Some x => Returned x
              | None => Raised (mk_exn KeyError ("'" ++ key ++ "'"))
              end
  | JArr _ => Raised (mk_exn TypeError "list indices must be integers or slices, not str")
  | JStr _ => Raised (mk_exn TypeError "string indices must be integers, not 'str'")
  | _ => Raised (mk_exn TypeError ("'" ++ py_type_name v
                                   ++ "' object is not subscriptable"))
  end.

(** [len(v)] *)
Definition py_len (v : json) : result Z :=
  match v with
  | JArr l => Returned (Z.of_nat (List.length l))
  | JStr s => Returned (Z.of_nat (String.length s))
  | JObj m => Returned (Z.of_nat (List.length m))
  | _ => Raised (mk_exn TypeError ("object of type '" ++ py_type_name v
                                   ++ "' has no len()"))
  end.

Fixpoint chars (s : string) : list json :=
  match s with
  | EmptyString => []
  | String c r => JStr (String c "") :: chars r
  end.

(** The elements [for x in v] runs over. *)
Definition py_iter (v : json) : result (list json) :=
  match v with
  | JArr l => Returned l
  | JStr s => Returned (chars s)
  | JObj m => Returned (map (fun kv => JStr (fst kv)) m)
  | _ => Raised (mk_exn TypeError ("'" ++ py_type_name v
                                   ++ "' object is not iterable"))
  end.

(** [v[i]] for an integer [i]; a negative index counts from the end. *)
Definition py_getitem_int (v : json) (i : Z) : result json :=
  match v with
  | JArr l =>
      let j := if i <? 0 then i + Z.of_nat (List.length l) else i in
      if j <? 0 then Raised (mk_exn IndexError "list index out of range")
      else match nth_error l (Z.to_nat j) with
           | Some x => Returned x
           | None => Raised (mk_exn IndexError "list index out of range")
           end
  | JStr s =>
      let j := if i <? 0 then i + Z.of_nat (String.length s) else i in
      if j <? 0 then Raised (mk_exn IndexError "string index out of range")
      else match String.get (Z.to_nat j) s with
           | Some c => Returned (JStr (String c ""))
           | None => Raised (mk_exn IndexError "string index out of range")
           end
  | JObj _ => Raised (mk_exn KeyError (NilZero.string_of_int (Z.to_int i)))
  | _ => Raised (mk_exn TypeError ("'" ++ py_type_name v
                                   ++ "' object is not subscriptable"))
  end.

(** [n >= v] for an integer [n]; [bool] is a subclass of [int]. *)
Definition int_ge (n : Z) (v : json) : result bool :=
  match v with
  | JInt t => Returned (t <=? n)
  | JBool b => Returned ((if b then 1 else 0) <=? n)
  | JFloat FNaN => Returned false
  | JFloat (FInf negative) => Returned negative
  | JFloat (FFinite q) => Returned (Qle_bool q (inject_Z n))
  | _ => Raised (mk_exn TypeError
                   ("'>=' not supported between instances of 'int' and '"
                    ++ py_type_name v ++ "'"))
  end.

(** [float('inf')] *)
Definition float_inf : json := JFloat (FInf false).

(** ** Text helpers *)

Definition str_of_Z (n : Z) : string := NilZero.string_of_int (Z.to_int n).

(** [f"{n:02d}"] *)
Definition format_02d (n : Z) : string :=
  let s := str_of_Z n in
  if (String.length s <? 2)%nat then "0" ++ s else s.

Fixpoint join (sep : string) (l : list string) : string :=
  match l with
  | [] => ""
  | [x] => x
  | x :: rest => x ++ sep ++ join sep rest
  end.

Fixpoint find_from (c : ascii) (s : string) (i : Z) : Z :=
  match s with
  | EmptyString => -1
  | String d r => if Ascii.eqb d c then i else find_from c r (i + 1)
  end.

(** [s.find(c)] *)
Definition py_find (s : string) (c : ascii) : Z := find_from c s 0.

Fixpoint rfind_from (c : ascii) (s : string) (i : Z) (last : Z) : Z :=
  match s with
  | EmptyString => last
  | String d r => rfind_from c r (i + 1) (if Ascii.eqb d c then i else last)
  end.

(** [s.rfind(c)] *)
Definition py_rfind (s : string) (c : ascii) : Z := rfind_from c s 0 (-1).

(** [c in s] *)
Fixpoint has_char (c : ascii) (s : string) : bool :=
  match s with
  | EmptyString => false
  | String d r => Ascii.eqb d c || has_char c r
  end.

(** [s[a:]] and [s[a:b]] for [0 <= a] and [0 <= b]. *)
Definition slice_from (s : string) (a : Z) : string :=
  substring (Z.to_nat a) (String.length s) s.

Definition slice (s : string) (a b : Z) : string :=
  substring (Z.to_nat a) (Z.to_nat b - Z.to_nat a) s.

Fixpoint count_char (c : ascii) (s : string) : Z :=
  match s with
  | EmptyString => 0
  | String d r => (if Ascii.eqb d c then 1 else 0) + count_char c r
  end.

Fixpoint repeat_char (c : ascii) (n : nat) : string :=
  match n with
  | O => ""
  | S k => String c (repeat_char c k)
  end.

(** [\s] of a [str] pattern, on code points below 256. *)
Definition is_space (c : ascii) : bool :=
  let n := nat_of_ascii c in
  ((9 <=? n) && (n <=? 13) || (28 <=? n) && (n <=? 32)
   || (n =? 133) || (n =? 160))%nat.

Definition is_closer (c : ascii) : bool :=
  Ascii.eqb c "}" || Ascii.eqb c "]".

(** The tail [\s*([\}\]])] of the pattern, anchored at the head of [s]:
    the closer of group 1 and the text after the match. *)
Fixpoint match_closer (s : string) : option (ascii * string) :=
  match s with
  | EmptyString => None
  | String c r =>
      if is_closer c then Some (c, r)
      else if is_space c then match_closer r
      else None
  end.

(** [re.sub(r',\s*([\}\]])', r'\1', s)]: matches are taken leftmost and do
    not overlap; [fuel] bounds the number of scanning steps. *)
Fixpoint strip_trailing_commas_fuel (fuel : nat) (s : string) : string :=
  match fuel with
  | O => s
  | S f =>
      match s with
      | EmptyString => EmptyString
      | String c r =>
          if Ascii.eqb c "," then
            match match_closer r with
            | Some (d, r') => String d (strip_trailing_commas_fuel f r')
            | None => String c (strip_trailing_commas_fuel f r)
            end
          else String c (strip_trailing_commas_fuel f r)
      end
  end.

Definition strip_trailing_commas (s : string) : string :=
  strip_trailing_commas_fuel (String.length s) s.

(** The line boundaries of [str.splitlines], on code points below 256. *)
Definition is_line_break (c : ascii) : bool :=
  let n := nat_of_ascii c in
  ((10 <=? n) && (n <=? 13) || (28 <=? n) && (n <=? 30) || (n =? 133))%nat.

Fixpoint until_line_break (s : string) : string :=
  match s with
  | EmptyString => EmptyString
  | String c r => if is_line_break c then EmptyString else String c (until_line_break r)
  end.

(** [s.splitlines()[0]]: the empty text has no line. *)
Definition first_line (s : string) : result string :=
  match s with
  | EmptyString => Raised (mk_exn IndexError "list index out of range")
  | _ => Returned (until_line_break s)
  end.

(** ** agent/state.py: the job state

    One record per job.  Values that come out of decoded model output
    ([plan_details], [current_task], [last_action], the items of [results])
    stay [json]; the paths are kept as text. *)

Record AgentState := mkAgentState {
  job_id : string;
  query : string;
  url : string;
  provider : string;
  plan_details : json;
  current_task : json;
  page_content : string;
  modified_html_for_action : string;
  results : list json;
  generated_credentials : list (string * string);
  screenshots : list string;
  job_artifacts_dir : string;
  step : Z;
  max_steps : Z;
  history : list string;
  execution_summary : list string;
  last_action : json;
  last_action_outcome : string;
  retry_count : Z;
  last_error : string;
  research_summary : string
}.

(** [state[key] = v], one function per key that a phase assigns. *)

Definition set_url (v : string) (s : AgentState) : AgentState :=
  {| job_id := job_id s; query := query s; url := v;
     provider := provider s; plan_details := plan_details s;
     current_task := current_task s; page_content := page_content s;
     modified_html_for_action := modified_html_for_action s;
     results := results s; generated_credentials := generated_credentials s;
     screenshots := screenshots s; job_artifacts_dir := job_artifacts_dir s;
     step := step s; max_steps := max_steps s; history := history s;
     execution_summary := execution_summary s; last_action := last_action s;
     last_action_outcome := last_action_outcome s;
     retry_count := retry_count s; last_error := last_error s;
     research_summary := research_summary s |}.

Definition set_plan_details (v : json) (s : AgentState) : AgentState :=
  {| job_id := job_id s; query := query s; url := url s;
     provider := provider s; plan_details := v;
     current_task := current_task s; page_content := page_content s;
     modified_html_for_action := modified_html_for_action s;
     results := results s; generated_credentials := generated_credentials s;
     screenshots := screenshots s; job_artifacts_dir := job_artifacts_dir s;
     step := step s; max_steps := max_steps s; history := history s;
     execution_summary := execution_summary s; last_action := last_action s;
     last_action_outcome := last_action_outcome s;
     retry_count := retry_count s; last_error := last_error s;
     research_summary := research_summary s |}.

Definition set_current_task (v : json) (s : AgentState) : AgentState :=
  {| job_id := job_id s; query := query s; url := url s;
     provider := provider s; plan_details := plan_details s;
     current_task := v; page_content := page_content s;
     modified_html_for_action := modified_html_for_action s;
     results := results s; generated_credentials := generated_credentials s;
     screenshots := screenshots s; job_artifacts_dir := job_artifacts_dir s;
     step := step s; max_steps := max_steps s; history := history s;
     execution_summary := execution_summary s; last_action := last_action s;
     last_action_outcome := last_action_outcome s;
     retry_count := retry_count s; last_error := last_error s;
     research_summary := research_summary s |}.

Definition set_page_content (v : string) (s : AgentState) : AgentState :=
  {| job_id := job_id s; query := query s; url := url s;
     provider := provider s; plan_details := plan_details s;
     current_task := current_task s; page_content := v;
     modified_html_for_action := modified_html_for_action s;
     results := results s; generated_credentials := generated_credentials s;
     screenshots := screenshots s; job_artifacts_dir := job_artifacts_dir s;
     step := step s; max_steps := max_steps s; history := history s;
     execution_summary := execution_summary s; last_action := last_action s;
     last_action_outcome := last_action_outcome s;
     retry_count := retry_count s; last_error := last_error s;
     research_summary := research_summary s |}.

Definition set_modified_html_for_action (v : string) (s : AgentState) : AgentState :=
  {| job_id := job_id s; query := query s; url := url s;
     provider := provider s; plan_details := plan_details s;
     current_task := current_task s; page_content := page_content s;
     modified_html_for_action := v; results := results s;
     generated_credentials := generated_credentials s;
     screenshots := screenshots s; job_artifacts_dir := job_artifacts_dir s;
     step := step s; max_steps := max_steps s; history := history s;
     execution_summary := execution_summary s; last_action := last_action s;
     last_action_outcome := last_action_outcome s;
     retry_count := retry_count s; last_error := last_error s;
     research_summary := research_summary s |}.

Definition set_results (v : list json) (s : AgentState) : AgentState :=
  {| job_id := job_id s; query := query s; url := url s;
     provider := provider s; plan_details := plan_details s;
     current_task := current_task s; page_content := page_content s;
     modified_html_for_action := modified_html_for_action s; results := v;
     generated_credentials := generated_credentials s;
     screenshots := screenshots s; job_artifacts_dir := job_artifacts_dir s;
     step := step s; max_steps := max_steps s; history := history s;
     execution_summary := execution_summary s; last_action := last_action s;
     last_action_outcome := last_action_outcome s;
     retry_count := retry_count s; last_error := last_error s;
     research_summary := research_summary s |}.

Definition set_screenshots (v : list string) (s : AgentState) : AgentState :=
  {| job_id := job_id s; query := query s; url := url s;
     provider := provider s; plan_details := plan_details s;
     current_task := current_task s; page_content := page_content s;
     modified_html_for_action := modified_html_for_action s;
     results := results s; generated_credentials := generated_credentials s;
     screenshots := v; job_artifacts_dir := job_artifacts_dir s;
     step := step s; max_steps := max_steps s; history := history s;
     execution_summary := execution_summary s; last_action := last_action s;
     last_action_outcome := last_action_outcome s;
     retry_count := retry_count s; last_error := last_error s;
     research_summary := research_summary s |}.

Definition set_step (v : Z) (s : AgentState) : AgentState :=
  {| job_id := job_id s; query := query s; url := url s;
     provider := provider s; plan_details := plan_details s;
     current_task := current_task s; page_content := page_content s;
     modified_html_for_action := modified_html_for_action s;
     results := results s; generated_credentials := generated_credentials s;
     screenshots := screenshots s; job_artifacts_dir := job_artifacts_dir s;
     step := v; max_steps := max_steps s; history := history s;
     execution_summary := execution_summary s; last_action := last_action s;
     last_action_outcome := last_action_outcome s;
     retry_count := retry_count s; last_error := last_error s;
     research_summary := research_summary s |}.

Definition set_history (v : list string) (s : AgentState) : AgentState :=
  {| job_id := job_id s; query := query s; url := url s;
     provider := provider s; plan_details := plan_details s;
     current_task := current_task s; page_content := page_content s;
     modified_html_for_action := modified_html_for_action s;
     results := results s; generated_credentials := generated_credentials s;
     screenshots := screenshots s; job_artifacts_dir := job_artifacts_dir s;
     step := step s; max_steps := max_steps s; history := v;
     execution_summary := execution_summary s; last_action := last_action s;
     last_action_outcome := last_action_outcome s;
     retry_count := retry_count s; last_error := last_error s;
     research_summary := research_summary s |}.

Definition set_execution_summary (v : list string) (s : AgentState) : AgentState :=
  {| job_id := job_id s; query := query s; url := url s;
     provider := provider s; plan_details := plan_details s;
     current_task := current_task s; page_content := page_content s;
     modified_html_for_action := modified_html_for_action s;
     results := results s; generated_credentials := generated_credentials s;
     screenshots := screenshots s; job_artifacts_dir := job_artifacts_dir s;
     step := step s; max_steps := max_steps s; history := history s;
     execution_summary := v; last_action := last_action s;
     last_action_outcome := last_action_outcome s;
     retry_count := retry_count s; last_error := last_error s;
     research_summary := research_summary s |}.

Definition set_last_action (v : json) (s : AgentState) : AgentState :=
  {| job_id := job_id s; query := query s; url := url s;
     provider := provider s; plan_details := plan_details s;
     current_task := current_task s; page_content := page_content s;
     modified_html_for_action := modified_html_for_action s;
     results := results s; generated_credentials := generated_credentials s;
     screenshots := screenshots s; job_artifacts_dir := job_artifacts_dir s;
     step := step s; max_steps := max_steps s; history := history s;
     execution_summary := execution_summary s; last_action := v;
     last_action_outcome := last_action_outcome s;
     retry_count := retry_count s; last_error := last_error s;
     research_summary := research_summary s |}.

Definition set_last_action_outcome (v : string) (s : AgentState) : AgentState :=
  {| job_id := job_id s; query := query s; url := url s;
     provider := provider s; plan_details := plan_details s;
     current_task := current_task s; page_content := page_content s;
     modified_html_for_action := modified_html_for_action s;
     results := results s; generated_credentials := generated_credentials s;
     screenshots := screenshots s; job_artifacts_dir := job_artifacts_dir s;
     step := step s; max_steps := max_steps s; history := history s;
     execution_summary := execution_summary s; last_action := last_action s;
     last_action_outcome := v; retry_count := retry_count s;
     last_error := last_error s; research_summary := research_summary s |}.

Definition set_retry_count (v : Z) (s : AgentState) : AgentState :=
  {| job_id := job_id s; query := query s; url := url s;
     provider := provider s; plan_details := plan_details s;
     current_task := current_task s; page_content := page_content s;
     modified_html_for_action := modified_html_for_action s;
     results := results s; generated_credentials := generated_credentials s;
     screenshots := screenshots s; job_artifacts_dir := job_artifacts_dir s;
     step := step s; max_steps := max_steps s; history := history s;
     execution_summary := execution_summary s; last_action := last_action s;
     last_action_outcome := last_action_outcome s; retry_count := v;
     last_error := last_error s; research_summary := research_summary s |}.

Definition set_last_error (v : string) (s : AgentState) : AgentState :=
  {| job_id := job_id s; query := query s; url := url s;
     provider := provider s; plan_details := plan_details s;
     current_task := current_task s; page_content := page_content s;
     modified_html_for_action := modified_html_for_action s;
     results := results s; generated_credentials := generated_credentials s;
     screenshots := screenshots s; job_artifacts_dir := job_artifacts_dir s;
     step := step s; max_steps := max_steps s; history := history s;
     execution_summary := execution_summary s; last_action := last_action s;
     last_action_outcome := last_action_outcome s;
     retry_count := retry_count s; last_error := v;
     research_summary := research_summary s |}.

Definition set_research_summary (v : string) (s : AgentState) : AgentState :=
  {| job_id := job_id s; query := query s; url := url s;
     provider := provider s; plan_details := plan_details s;
     current_task := current_task s; page_content := page_content s;
     modified_html_for_action := modified_html_for_action s;
     results := results s; generated_credentials := generated_credentials s;
     screenshots := screenshots s; job_artifacts_dir := job_artifacts_dir s;
     step := step s; max_steps := max_steps s; history := history s;
     execution_summary := execution_summary s; last_action := last_action s;
     last_action_outcome := last_action_outcome s;
     retry_count := retry_count s; last_error := last_error s;
     research_summary := v |}.

(** The state [main.py] hands to the graph. *)
Definition initial_state (job query_text start_url llm_provider artifacts : string)
  : AgentState :=
  {| job_id := job; query := query_text; url := start_url;
     provider := llm_provider; plan_details := JObj []; current_task := JStr "";
     page_content := ""; modified_html_for_action := ""; results := [];
     generated_credentials := []; screenshots := [];
     job_artifacts_dir := artifacts; step := 1; max_steps := 40; history := [];
     execution_summary := []; last_action := JObj [];
     last_action_outcome := ""; retry_count := 0; last_error := "";
     research_summary := "" |}.

(** [recursion_limit] of the configuration [main.py] passes to the graph. *)
Definition recursion_limit : nat := 100.

(** ** Status events and the world a phase runs in

    A call [push_status_update(job_id, msg, details)] is recorded in the
    order it is made.  The sink of [main.py] only queues the entry and
    swallows a full queue, so a call returns normally. *)

Record status_event := mk_event {
  ev_job : string;
  ev_msg : string;
  ev_details : option json
}.

Record World := mk_world {
  state : AgentState;
  events : list status_event
}.

(** A phase mutates the state in place and may raise: the world it leaves
    behind is kept in both cases. *)
Definition M (A : Type) : Type := World -> World * result A.

Definition ret {A} (a : A) : M A := fun w => (w, Returned a).

Definition bind {A B} (m : M A) (k : A -> M B) : M B :=
  fun w => match m w with
           | (w', Returned a) => k a w'
           | (w', Raised e) => (w', Raised e)
           end.

Definition lift {A} (r : result A) : M A := fun w => (w, r).

Definition get : M AgentState := fun w => (w, Returned (state w)).

Definition modify (f : AgentState -> AgentState) : M unit :=
  fun w => (mk_world (f (state w)) (events w), Returned tt).

(** [try: body  except Exception as e: handler(e)] *)
Definition try_except {A} (body : M A) (handler : exn -> M A) : M A :=
  fun w => match body w with
           | (w', Raised e) => handler e w'
           | r => r
           end.

Definition when (b : bool) (m : M unit) : M unit := if b then m else ret tt.

Declare Scope monad_scope.
Delimit Scope monad_scope with monad.
Notation "x <- m ;; k" := (bind m (fun x => k))
  (at level 61, m at next level, right associativity) : monad_scope.
Notation "m ;; k" := (bind m (fun _ => k))
  (at level 61, right associativity) : monad_scope.

(** ** The browser and the services a phase calls *)

(** The calls of the Executor on the page; [id] and [text] are the values
    the action carries ([id] is spliced into the selector
    [[agent-id='...']]). *)
Inductive page_call :=
| WaitForVisible (id : json)
| Click (id : json)
| PressEnter (id : json)
| WaitForLoadState
| Fill (id : json) (text : json)
| Evaluate (script : string)
| WaitForTimeout (ms : Z).

(** What the outside answers during one phase: [None] or [Returned] is a
    call that comes back, [Some e] or [Raised e] one that raises [e]. *)
Record Env := mk_env {
  page_url : string;
  page_screenshot : option exn;
  page_content_of : result string;
  page_set_content : option exn;
  page_do : page_call -> option exn;
  llm_response : result string;
  search_response : result json
}.

Definition call (r : option exn) : M unit :=
  lift (match r with None => Returned tt | Some e => Raised e end).

(** The router's answer: ["continue"], ["retry"] and ["__end__"]. *)
Inductive decision := Continue | Retry | End_.

Inductive node :=
| Planner | Reasoner | Executor | Researcher | PlanUpdater
| Finished
| Crashed (e : exn).


(** ** Sample data

    Concrete answers of the outside and concrete states, on which the
    phases below are run. *)

(** A decoder that finds every document malformed. *)
Definition reject_all (doc : string) : result json :=
  Raised (mk_exn JSONDecodeError "Expecting value: line 1 column 1 (char 0)").

(** Printers that show a scalar and abbreviate a container. *)
Definition brief_repr (v : json) : string :=
  match v with
  | JNull => "None"
  | JBool true => "True"
  | JBool false => "False"
  | JInt n => str_of_Z n
  | JFloat _ => "<float>"
  | JStr s => "'" ++ s ++ "'"
  | JArr _ => "[...]"
  | JObj _ => "{...}"
  end.

Definition brief_dumps (v : json) : string :=
  match v with
  | JNull => "null"
  | JBool true => "true"
  | JBool false => "false"
  | JInt n => str_of_Z n
  | JFloat _ => "<float>"
  | JStr s => s
  | JArr _ => "[...]"
  | JObj _ => "{...}"
  end.

(** A page simplifier that lists one input and leaves the page as it is. *)
Definition keep_page (html : string) : string * string :=
  ("[1] <input> search", html).

Definition shop_plan_fields : list (string * json) :=
  [("objective", JStr "Find phones");
   ("intent", JStr "search");
   ("plan", JArr [JStr "Fill the search bar with 'phones'";
                  JStr "Click the search button";
                  JStr "Extract the top 5 products"])].

Definition fill_action : json :=
  JObj [("type", JStr "fill"); ("id", JStr "1"); ("text", JStr "phones")].

Definition hover_action : json :=
  JObj [("type", JStr "hover"); ("id", JStr "3")].

Definition extract_fields : list (string * json) :=
  [("type", JStr "extract");
   ("items", JArr [JObj [("name", JStr "Phone A")];
                   JObj [("name", JStr "Phone B")]])].

(** A decoder that knows the two documents of the sample jobs. *)
Definition shop_loads (doc : string) : result json :=
  if String.eqb doc "{plan}" then Returned (JObj shop_plan_fields)
  else if String.eqb doc "{fill}" then
    Returned (JObj [("thought", JStr "The search bar is element 1.");
                    ("action", fill_action)])
  else Raised (mk_exn JSONDecodeError "Expecting value").

Definition page_ok (c : page_call) : option exn := None.

(** A page on which no element ever becomes visible. *)
Definition page_hidden (c : page_call) : option exn :=
  match c with
  | WaitForVisible _ =>
      Some (mk_exn PlaywrightTimeoutError "Timeout 30000ms exceeded.")
  | _ => None
  end.

(** A page whose settle pause fails. *)
Definition page_closed (c : page_call) : option exn :=
  match c with
  | WaitForTimeout 5000 =>
      Some (mk_exn OtherException "Target page, context or browser has been closed")
  | _ => None
  end.

Definition answer (page : page_call -> option exn) (text : string) : Env :=
  {| page_url := "https://shop.example/";
     page_screenshot := None;
     page_content_of := Returned "<html></html>";
     page_set_content := None;
     page_do := page;
     llm_response := Returned text;
     search_response := Returned (JObj [("results", JArr [])]) |}.

(** A job in which the model first answers with the plan and then with the
    same action at every step, on a page where every action works. *)
Definition shop_script (n : nat) : Env :=
  match n with
  | O => answer page_ok "Here is the plan: {plan}"
  | _ => answer page_ok "{fill}"
  end.

(** The same job on the page where nothing becomes visible: every fourth
    answer, from the first on, is the plan. *)
Definition stuck_script (n : nat) : Env :=
  if (n mod 4 =? 0)%nat then answer page_hidden "{plan}"
  else answer page_hidden "{fill}".

Definition shop_job : AgentState :=
  initial_state "job-1" "Find phones" "https://shop.example/" "anthropic"
    "screenshots/job-1".

(** The state after the third successful pass under the plan above. *)
Definition third_pass_done : World :=
  mk_world
    (set_step 4
       (set_last_action_outcome "Success"
          (set_last_action fill_action
             (set_plan_details (JObj shop_plan_fields) shop_job))))
    [].

(** A state whose last outcome is FAILED after one retry. *)
Definition failed_once : World :=
  mk_world (set_retry_count 1 (set_last_action_outcome "FAILED" shop_job)) [].

Definition hovering : World :=
  mk_world (set_last_action hover_action shop_job) [].

Definition extracting : World :=
  mk_world (set_last_action (JObj extract_fields) shop_job) [].

Section Workflow.

Local Open Scope monad_scope.

(** [json.loads] and [json.dumps] of the Python standard library, and
    [repr] on a decoded value. *)
Variable json_loads : string -> result json.
Variable json_dumps : json -> string.
Variable py_repr : json -> string.

(** [simplify_page_for_llm] of [browser/utils.py] (an HTML parser): the
    element list and the page with its elements tagged. *)
Variable simplify_page_for_llm : string -> string * string.

(** Whether [set_push_status_update] has installed a sink, and whether a
    search client was made from [TAVILY_API_KEY]. *)
Variable push_status_update : bool.
Variable tavily_client : bool.

(** The graph library calls the routing function on the state of the
    graph.  [true]: it is the very mapping the phases mutate; [false]: it
    is a mapping built for the call over the same list objects, so that
    an assignment to a key is dropped while an [append] stays. *)
Variable branch_shares_state : bool.

(** [str(v)] and [f"{v}"] *)
Definition py_str (v : json) : string :=
  match v with JStr s => s | _ => py_repr v end.

Definition push_status (job msg : string) (details : option json) : M unit :=
  fun w =>
    if push_status_update
    then (mk_world (state w) (events w ++ [mk_event job msg details]), Returned tt)
    else (w, Returned tt).

Definition append_summary (entry : string) : M unit :=
  modify (fun s => set_execution_summary (execution_summary s ++ [entry]) s).

(** *** agent/llm.py: the lenient decoder *)

(** The text between the first opening and the last closing brace. *)
Definition json_candidate (text : string) : string :=
  let start_brace_index := py_find text "{" in
  let end_brace_index := py_rfind text "}" in
  if end_brace_index =? -1 then slice_from text start_brace_index
  else slice text start_brace_index (end_brace_index + 1).

(** The candidate without trailing commas and with its braces balanced. *)
Definition json_repaired (json_str : string) : string :=
  let json_str_fixed := strip_trailing_commas json_str in
  let open_braces := count_char "{" json_str_fixed in
  let close_braces := count_char "}" json_str_fixed in
  if close_braces <? open_braces
  then json_str_fixed ++ repeat_char "}" (Z.to_nat (open_braces - close_braces))
  else json_str_fixed.

Definition fallback_response : json :=
  JObj [("thought", JStr "Invalid response from LLM");
        ("action", JObj [("type", JStr "wait")])].

(** Only [json.JSONDecodeError] is caught (the message printed there is
    not modelled). *)
Definition extract_json_from_response (text : string) : result json :=
  let start_brace_index := py_find text "{" in
  if start_brace_index =? -1 then
    Raised (mk_exn ValueError
              ("No JSON object found in the model's response: " ++ text))
  else
    let json_str := json_candidate text in
    match json_loads (json_repaired json_str) with
    | Returned v => Returned v
    | Raised e =>
        if is_json_decode_error e then Returned fallback_response
        else Raised e
    end.

(** [get_structured_plan], [get_agent_action] and [get_updated_plan]: the
    answer of [get_llm_response] to the prompt, decoded. *)
Definition decoded_response (e : Env) : result json :=
  match llm_response e with
  | Returned text => extract_json_from_response text
  | Raised x => Raised x
  end.

(** ["\n".join([f"  - {step}" for step in plan])] *)
Definition plan_lines (plan : list json) : string :=
  join nl (map (fun x => "  - " ++ py_str x) plan).

(** *** agent/graph.py: the phases *)

Definition planning_node (e : Env) : M unit :=
  modify (set_url (page_url e)) ;;
  s <- get ;;
  push_status (job_id s) "planning_started" None ;;
  plan_details <- lift (decoded_response e) ;;
  modify (set_plan_details plan_details) ;;
  push_status (job_id s) "plan_generated" (Some (JObj [("plan", plan_details)])) ;;
  objective <- lift (py_get_default plan_details "objective" (JStr "Not specified")) ;;
  intent <- lift (py_get_default plan_details "intent" (JStr "Not specified")) ;;
  plan <- lift (py_get_default plan_details "plan" (JArr [])) ;;
  steps <- lift (py_iter plan) ;;
  append_summary
    ("[Plan Generated]" ++ nl
     ++ "Objective: " ++ py_str objective ++ nl
     ++ "Intent: " ++ py_str intent ++ nl
     ++ "Plan:" ++ nl ++ plan_lines steps).

Definition plan_complete_task : json :=
  JStr "All plan steps are complete. The final task is to finish the job.".

(** The task of the pass: the plan's entry for [step], or the sentinel
    once the plan is used up. *)
Definition resolve_current_task : M json :=
  s <- get ;;
  let current_plan_step_index := step s - 1 in
  plan <- lift (py_get_default (plan_details s) "plan" (JArr [])) ;;
  plan_length <- lift (py_len plan) ;;
  task <- (if current_plan_step_index <? plan_length
           then lift (py_getitem_int plan current_plan_step_index)
           else ret plan_complete_task) ;;
  modify (set_current_task task) ;;
  ret task.

(** The rest of [agent_reasoning_node]: the screenshot, the page and the
    reasoning call. *)
Definition observe_and_decide (e : Env) (job : string) (step_no : Z)
           (task : json) : M unit :=
  call (page_screenshot e) ;;
  let relative_path :=
    "screenshots/" ++ job ++ "/" ++ format_02d step_no ++ "_step.png" in
  modify (fun s => set_screenshots (screenshots s ++ [relative_path]) s) ;;
  push_status job "screenshot_taken"
    (Some (JObj [("step", JInt step_no); ("path", JStr relative_path)])) ;;
  content <- lift (page_content_of e) ;;
  modify (set_page_content content) ;;
  modify (set_url (page_url e)) ;;
  let modified_html := snd (simplify_page_for_llm content) in
  when (negb (String.eqb modified_html "")) (call (page_set_content e)) ;;
  action_response <- lift (decoded_response e) ;;
  thought <- lift (py_get_default action_response "thought"
                     (JStr "No thought provided.")) ;;
  push_status job "agent_thought" (Some (JObj [("thought", thought)])) ;;
  action <- lift (py_get_default action_response "action" (JObj [])) ;;
  modify (set_last_action action) ;;
  append_summary
    (nl ++ "[Step " ++ str_of_Z step_no ++ "] Task: " ++ py_str task ++ nl
     ++ "  -> Thought: " ++ py_str thought) ;;
  modify (set_modified_html_for_action modified_html).

Definition agent_reasoning_node (e : Env) : M unit :=
  s <- get ;;
  push_status (job_id s) "agent_step"
    (Some (JObj [("step", JInt (step s)); ("max_steps", JInt (max_steps s))])) ;;
  task <- resolve_current_task ;;
  observe_and_decide e (job_id s) (step s) task.

Definition opt_str_eq (v : option json) (s : string) : bool :=
  match v with Some x => str_eq x s | None => false end.

(** The action types the agent is told about. *)
Definition action_vocabulary : list string :=
  ["click"; "press_enter"; "fill"; "scroll"; "wait"; "extract"; "finish"].

(** The body of the [try] block of [execute_action_node]. *)
Definition perform_action (e : Env) (action : json) (job : string) : M unit :=
  action_type <- lift (py_get action "type") ;;
  (if opt_str_eq action_type "click" || opt_str_eq action_type "press_enter" then
     id <- lift (py_getitem_str action "id") ;;
     call (page_do e (WaitForVisible id)) ;;
     (if opt_str_eq action_type "click" then call (page_do e (Click id))
      else call (page_do e (PressEnter id))) ;;
     call (page_do e WaitForLoadState)
   else if opt_str_eq action_type "fill" then
     id <- lift (py_getitem_str action "id") ;;
     call (page_do e (WaitForVisible id)) ;;
     text <- lift (py_getitem_str action "text") ;;
     call (page_do e (Fill id text))
   else if opt_str_eq action_type "scroll" then
     direction <- lift (py_get_default action "direction" (JStr "down")) ;;
     let scroll_amount :=
       if str_eq direction "down" then "window.innerHeight * 0.8"
       else "-window.innerHeight * 0.8" in
     call (page_do e (Evaluate ("window.scrollBy(0, " ++ scroll_amount ++ ")"))) ;;
     call (page_do e (WaitForTimeout 2000))
   else if opt_str_eq action_type "wait" then
     call (page_do e (WaitForTimeout 10000))
   else if opt_str_eq action_type "extract" then
     items <- lift (py_get_default action "items" (JArr [])) ;;
     extracted <- lift (py_iter items) ;;
     modify (fun s => set_results (results s ++ extracted) s) ;;
     push_status job "partial_result" (Some (JObj [("items", items)]))
   else ret tt) ;;
  call (page_do e (WaitForTimeout 5000)).

(** [l[-n:]] for [0 < n] *)
Definition last_n {A} (n : nat) (l : list A) : list A :=
  skipn (List.length l - n) l.

Definition history_entry (s : AgentState) (action : json) (outcome : string)
  : string :=
  "Step " ++ str_of_Z (step s) ++ " (Task: " ++ py_str (current_task s)
  ++ "): Action `" ++ json_dumps action ++ "` -> " ++ outcome ++ ".".

Definition outcome_entry (action : json) (outcome error_message : string)
  : string :=
  "  -> Action: " ++ json_dumps action ++ nl ++ "  -> Outcome: " ++ outcome
  ++ (if String.eqb error_message "" then ""
      else " (" ++ error_message ++ ")").

(** The outcome and the error message of the pass: the action is
    refused, or it is performed and whatever it raises is caught. *)
Definition classify_action (e : Env) (action : json) (job : string)
  : M (string * string) :=
  invalid <- (if negb (truthy action) then ret true
              else has_type <- lift (py_in "type" action) ;;
                   ret (negb has_type)) ;;
  if invalid : bool
  then ret ("FAILED", "Agent produced an invalid or empty action.")
  else try_except
         (perform_action e action job ;; ret ("Success", ""))
         (fun x => error_message <- lift (first_line (exn_text x)) ;;
                   ret ("FAILED", error_message)).

(** The end of [execute_action_node], from the status event on. *)
Definition record_outcome (action : json) (job outcome error_message : string)
  : M unit :=
  when (String.eqb outcome "FAILED")
    (push_status job "action_failed"
       (Some (JObj [("action", action); ("error", JStr error_message)]))) ;;
  modify (set_last_action_outcome outcome) ;;
  modify (set_last_error error_message) ;;
  modify (fun s => set_history
                     (history s ++ [history_entry s action outcome]) s) ;;
  append_summary (outcome_entry action outcome error_message) ;;
  when (String.eqb outcome "Success")
    (modify (fun s => set_step (step s + 1) s)) ;;
  modify (fun s => set_history (last_n 5 (history s)) s).

Definition execute_action_node (e : Env) : M unit :=
  s <- get ;;
  let action := last_action s in
  let job := job_id s in
  push_status job "executing_action" (Some (JObj [("action", action)])) ;;
  verdict <- classify_action e action job ;;
  record_outcome action job (fst verdict) (snd verdict).

Fixpoint map_result {A B} (f : A -> result B) (l : list A) : result (list B) :=
  match l with
  | [] => Returned []
  | x :: rest =>
      match f x with
      | Raised e => Raised e
      | Returned y =>
          match map_result f rest with
          | Raised e => Raised e
          | Returned ys => Returned (y :: ys)
          end
      end
  end.

(** [{"url": obj["url"], "content": obj["content"]}] *)
Definition search_hit (obj : json) : result json :=
  match py_getitem_str obj "url" with
  | Raised e => Raised e
  | Returned u =>
      match py_getitem_str obj "content" with
      | Raised e => Raised e
      | Returned c => Returned (JObj [("url", u); ("content", c)])
      end
  end.

(** The body of the [try] block of [researcher_node]. *)
Definition research (e : Env) : M unit :=
  response <- lift (search_response e) ;;
  hits <- lift (py_get_default response "results" (JArr [])) ;;
  objs <- lift (py_iter hits) ;;
  _ <- lift (map_result search_hit objs) ;;
  analysis <- lift (llm_response e) ;;
  modify (set_research_summary analysis).

Definition researcher_node (e : Env) : M unit :=
  if negb tavily_client then
    modify (set_research_summary
              "Tavily API key not configured. Skipping research.")
  else
    s <- get ;;
    let query :=
      "How to achieve this task: '" ++ py_str (current_task s)
      ++ "' on the website " ++ url s ++ "?" in
    push_status (job_id s) "research_started"
      (Some (JObj [("query", JStr query)])) ;;
    try_except (research e)
      (fun x => modify (set_research_summary
                          ("Research failed: " ++ exn_text x))) ;;
    s' <- get ;;
    push_status (job_id s) "research_complete"
      (Some (JObj [("summary", JStr (research_summary s'))])).

Definition plan_updater_node (e : Env) : M unit :=
  s <- get ;;
  push_status (job_id s) "updating_plan" None ;;
  new_plan_details <- lift (decoded_response e) ;;
  modify (set_plan_details new_plan_details) ;;
  push_status (job_id s) "plan_updated"
    (Some (JObj [("plan", new_plan_details)])) ;;
  plan <- lift (py_get_default new_plan_details "plan" (JArr [])) ;;
  steps <- lift (py_iter plan) ;;
  append_summary
    (nl ++ "[Plan Updated after Research]" ++ nl ++ "New Plan:" ++ nl
     ++ plan_lines steps).

Definition halt_entry : string :=
  nl ++ "[Job Halted] Maximum retries reached for a failing step.".

Definition reason (r : json) : option json := Some (JObj [("reason", r)]).

Definition validator_and_router_node : M decision :=
  s <- get ;;
  if String.eqb (last_action_outcome s) "FAILED" then
    if retry_count s <? 2 then
      modify (set_retry_count (retry_count s + 1)) ;;
      ret Retry
    else
      append_summary halt_entry ;;
      ret End_
  else
    modify (set_retry_count 0) ;;
    target_count <- lift (py_get_default (plan_details s) "target_count" float_inf) ;;
    let collected := Z.of_nat (List.length (results s)) in
    enough <- lift (int_ge collected target_count) ;;
    if enough : bool then
      push_status (job_id s) "agent_finished"
        (reason (JStr ("Collected " ++ str_of_Z collected ++ "/"
                       ++ py_str target_count ++ " items."))) ;;
      ret End_
    else
      action_type <- lift (py_get (last_action s) "type") ;;
      if opt_str_eq action_type "finish" then
        why <- lift (py_get_default (last_action s) "reason"
                       (JStr "Task completed.")) ;;
        push_status (job_id s) "agent_finished" (reason why) ;;
        ret End_
      else
        plan <- lift (py_get_default (plan_details s) "plan" (JArr [])) ;;
        plan_length <- lift (py_len plan) ;;
        if plan_length <? step s then
          push_status (job_id s) "agent_finished"
            (reason (JStr "All plan steps completed.")) ;;
          ret End_
        else if max_steps s <? step s then
          push_status (job_id s) "agent_stopped"
            (reason (JStr "Max steps reached.")) ;;
          ret End_
        else ret Continue.

(** What the router's decision depends on; a lookup that raises is kept
    as such. *)
Record router_inputs := mk_router_inputs {
  in_outcome : string;
  in_retry_count : Z;
  in_results_size : Z;
  in_target_count : result json;
  in_action_type : result (option json);
  in_step : Z;
  in_plan_length : result Z;
  in_max_steps : Z
}.

Definition router_inputs_of (s : AgentState) : router_inputs :=
  {| in_outcome := last_action_outcome s;
     in_retry_count := retry_count s;
     in_results_size := Z.of_nat (List.length (results s));
     in_target_count := py_get_default (plan_details s) "target_count" float_inf;
     in_action_type := py_get (last_action s) "type";
     in_step := step s;
     in_plan_length :=
       match py_get_default (plan_details s) "plan" (JArr []) with
       | Returned plan => py_len plan
       | Raised x => Raised x
       end;
     in_max_steps := max_steps s |}.

Definition and_then {A B} (r : result A) (k : A -> result B) : result B :=
  match r with
  | Returned a => k a
  | Raised x => Raised x
  end.

(** The decision order as the specification lists it (first match
    wins), on the inputs alone. *)
Definition spec_router_decision (i : router_inputs) : result decision :=
  if String.eqb (in_outcome i) "FAILED" then
    Returned (if in_retry_count i <? 2 then Retry else End_)
  else
    and_then (in_target_count i) (fun target_count =>
    and_then (int_ge (in_results_size i) target_count) (fun enough =>
    if enough : bool then Returned End_ else
    and_then (in_action_type i) (fun action_type =>
    if opt_str_eq action_type "finish" then Returned End_ else
    and_then (in_plan_length i) (fun plan_length =>
    if plan_length <? in_step i then Returned End_
    else if in_max_steps i <? in_step i then Returned End_
    else Returned Continue)))).

(** The events a call [push_status_update(job, msg, {"reason": r})]
    leaves. *)
Definition announced (job msg : string) (r : json) : list status_event :=
  if push_status_update then [mk_event job msg (reason r)] else [].

(** *** The graph of [create_graph] *)

(** The routing function runs on the state the Executor returned; what it
    assigned to [retry_count] reaches the graph's state only when the
    mapping is shared. *)
Definition route (w : World) : World * result decision :=
  let (w', d) := validator_and_router_node w in
  (if branch_shares_state then w'
   else mk_world (set_retry_count (retry_count (state w)) (state w')) (events w'),
   d).

Definition config : Type := node * World.

Definition after (next : node) (r : World * result unit) : config :=
  match r with
  | (w, Returned _) => (next, w)
  | (w, Raised e) => (Crashed e, w)
  end.

Definition next_node (d : decision) : node :=
  match d with
  | Continue => Reasoner
  | Retry => Researcher
  | End_ => Finished
  end.

(** One phase of the graph, with the answers [e] of the outside. *)
Definition graph_step (e : Env) (c : config) : config :=
  let (n, w) := c in
  match n with
  | Planner => after Reasoner (planning_node e w)
  | Reasoner => after Executor (agent_reasoning_node e w)
  | Executor =>
      match execute_action_node e w with
      | (w1, Raised x) => (Crashed x, w1)
      | (w1, Returned _) =>
          match route w1 with
          | (w2, Returned d) => (next_node d, w2)
          | (w2, Raised x) => (Crashed x, w2)
          end
      end
  | Researcher => after PlanUpdater (researcher_node e w)
  | PlanUpdater => after Reasoner (plan_updater_node e w)
  | Finished => c
  | Crashed _ => c
  end.

(** The configuration after [n] phases, the phase number [k] being
    answered by [envs k]. *)
Fixpoint phases (envs : nat -> Env) (c : config) (n : nat) : config :=
  match n with
  | O => c
  | S k => graph_step (envs k) (phases envs c k)
  end.

Definition start (s : AgentState) : config := (Planner, mk_world s []).

(** The configurations a job passes through, whatever the outside
    answers. *)
Inductive reachable : config -> Prop :=
| reachable_start job query_text start_url llm_provider artifacts :
    reachable (start (initial_state job query_text start_url llm_provider artifacts))
| reachable_step e c : reachable c -> reachable (graph_step e c).

Definition is_final (c : config) : bool :=
  match fst c with
  | Finished | Crashed _ => true
  | _ => false
  end.

Definition graph_recursion_error : exn :=
  mk_exn OtherException "Recursion limit reached without hitting a stop condition.".

(** [graph.invoke]: phases run until the graph ends or one raises; a job
    still running after [limit] phases is cut with the library's recursion
    error.  [envs n] answers the phase number [n]. *)
Fixpoint invoke_from (limit : nat) (envs : nat -> Env) (n : nat) (c : config)
  : config :=
  if is_final c then c
  else match limit with
       | O => (Crashed graph_recursion_error, snd c)
       | S k => invoke_from k envs (S n) (graph_step (envs n) c)
       end.

Definition invoke (envs : nat -> Env) (s : AgentState) : config :=
  invoke_from recursion_limit envs 0 (start s).

(** *** Relations between the state before and after a phase *)

(** [keeps R m]: running [m] takes the state to one related to it by [R],
    whether [m] returns or raises. *)
Definition keeps (R : AgentState -> AgentState -> Prop) {A} (m : M A) : Prop :=
  forall w, R (state w) (state (fst (m w))).

(** [l] is a prefix of [l']. *)
Definition extends {A} (l l' : list A) : Prop := exists t, l' = (l ++ t)%list.

(** The counters and the history are untouched, the narrative only
    grows. *)
Definition quiet (s s' : AgentState) : Prop :=
  job_id s' = job_id s
  /\ retry_count s' = retry_count s
  /\ step s' = step s
  /\ max_steps s' = max_steps s
  /\ history s' = history s
  /\ last_action_outcome s' = last_action_outcome s
  /\ extends (execution_summary s) (execution_summary s').

(** Only [results] differs, and it only grew. *)
Definition only_results (s s' : AgentState) : Prop :=
  s' = set_results (results s') s /\ extends (results s) (results s').

(** The Reasoner reads the plan and the counters without assigning
    them. *)
Definition plan_kept (s s' : AgentState) : Prop :=
  plan_details s' = plan_details s
  /\ step s' = step s
  /\ max_steps s' = max_steps s
  /\ job_id s' = job_id s.

(** [current_task] is the same. *)
Definition task_kept (s s' : AgentState) : Prop :=
  current_task s' = current_task s.

(** What holds of the state between two phases. *)
Definition sound (s : AgentState) : Prop :=
  0 <= retry_count s <= 2
  /\ (last_action_outcome s <> "FAILED" -> retry_count s = 0)
  /\ (branch_shares_state = false -> retry_count s = 0)
  /\ (List.length (history s) <= 5)%nat.


(** *** agent/llm.py: the reasoning call and its retries *)

(** Which of the clients of [config/settings.py] were made. *)
Record Clients := mk_clients {
  anthropic_client : bool;
  openai_client : bool;
  groq_client : bool
}.

Inductive api := Anthropic | OpenAI | Groq.

(** The body of the [try] of [get_llm_response]: [call_api] is
    [call_anthropic], [call_openai] or [call_groq] on the prompt. *)
Definition attempt_llm (clients : Clients) (llm_provider : string)
           (images : list string) (call_api : api -> result string)
  : result string :=
  if String.eqb llm_provider "anthropic" then
    if negb (anthropic_client clients)
    then Raised (mk_exn ValueError "Anthropic client not initialized.")
    else call_api Anthropic
  else if String.eqb llm_provider "openai" then
    if negb (openai_client clients)
    then Raised (mk_exn ValueError "OpenAI client not initialized.")
    else call_api OpenAI
  else if String.eqb llm_provider "groq" then
    if negb (groq_client clients)
    then Raised (mk_exn ValueError "Groq client not initialized.")
    else match images with
         | _ :: _ =>
             Raised (mk_exn ValueError
                       "The configured Groq model does not support vision.")
         | [] => call_api Groq
         end
  else Raised (mk_exn ValueError ("Unsupported LLM provider: " ++ llm_provider)).

(** [for attempt in attempts: ...]: the answer and the seconds slept.
    [answers attempt] is what the provider's API does at that attempt;
    falling off the loop returns [None]. *)
Fixpoint llm_attempts (attempts : list Z) (clients : Clients)
         (llm_provider : string) (images : list string)
         (answers : Z -> api -> result string) (slept : Z)
  : result (option string) * Z :=
  match attempts with
  | [] => (Returned None, slept)
  | attempt :: rest =>
      match attempt_llm clients llm_provider images (answers attempt) with
      | Returned text => (Returned (Some text), slept)
      | Raised x =>
          if attempt =? 2 then (Raised x, slept)
          else llm_attempts rest clients llm_provider images answers (slept + 2)
      end
  end.

Definition get_llm_response (clients : Clients) (llm_provider : string)
           (images : list string) (answers : Z -> api -> result string)
  : result (option string) * Z :=
  llm_attempts [0; 1; 2] clients llm_provider images answers 0.

(** [state['job_artifacts_dir'] / f"{state['step']:02d}_step.png"] *)
Definition screenshot_path (s : AgentState) : string :=
  job_artifacts_dir s ++ "/" ++ format_02d (step s) ++ "_step.png".

(** [extract_json_from_response] on what [get_llm_response] gave;
    [None] has no [find]. *)
Definition decode_answer (r : result (option string)) : result json :=
  match r with
  | Returned (Some text) => extract_json_from_response text
  | Returned None =>
      Raised (mk_exn AttributeError "'NoneType' object has no attribute 'find'")
  | Raised x => Raised x
  end.

(** The steps listed in the prompt of [get_agent_action],
    [[f"- {step}" for step in state['plan_details'].get('plan', [])]]:
    the one part of the prompt whose making can raise. *)
Definition agent_prompt_steps (s : AgentState) : result (list json) :=
  match py_get_default (plan_details s) "plan" (JArr []) with
  | Returned plan => py_iter plan
  | Raised x => Raised x
  end.

(** [get_agent_action]: the prompt is made first, and the screenshot of
    the step is always sent along. *)
Definition get_agent_action (clients : Clients) (s : AgentState)
           (answers : Z -> api -> result string) : result json :=
  match agent_prompt_steps s with
  | Raised x => Raised x
  | Returned _ =>
      decode_answer
        (fst (get_llm_response clients (provider s) [screenshot_path s]
                answers))
  end.

(** [get_structured_plan]: no image. *)
Definition get_structured_plan (clients : Clients) (llm_provider : string)
           (answers : Z -> api -> result string) : result json :=
  decode_answer (fst (get_llm_response clients llm_provider [] answers)).

(** *** browser/utils.py: the element list *)

(** What the HTML parser gives for one interactive element: its tag, its
    stripped strings and the three attributes the code reads. *)
Record element := mk_element {
  el_name : string;
  el_stripped_strings : list string;
  el_aria_label : option string;
  el_placeholder : option string;
  el_name_attr : option string
}.

(** [a or b] on an attribute that may be absent or empty. *)
Definition attr_or (a : option string) (b : string) : string :=
  match a with
  | Some s => if String.eqb s "" then b else s
  | None => b
  end.

Definition element_text (el : element) : string :=
  let text := join " " (el_stripped_strings el) in
  if String.eqb text "" then
    attr_or (el_aria_label el)
      (attr_or (el_placeholder el) (attr_or (el_name_attr el) ""))
  else text.

(** The loop of [simplify_page_for_llm] from index [i] on: the [agent-id]
    given to each element and its line. *)
Fixpoint tag_elements (i : Z) (els : list element) : list (string * string) :=
  match els with
  | [] => []
  | el :: rest =>
      let agent_id := str_of_Z (i + 1) in
      (agent_id,
       "[" ++ agent_id ++ "] <" ++ el_name el ++ "> "
       ++ substring 0 100 (element_text el))
      :: tag_elements (i + 1) rest
  end.

Definition simplified_elements (els : list element) : string :=
  join nl (map snd (tag_elements 0 els)).

(** *** main.py: the job *)

(** [traceback.format_exc()] *)
Variable format_exc : exn -> string.

Record result_data := mk_result_data {
  rd_job_id : string;
  rd_results : list json;
  rd_screenshots : list string;
  rd_execution_summary : list string;
  rd_error : option string
}.

(** [run_job]: [setup] is the launch of the browser and the loading of the
    page, giving [page.url], and [mkdir] the making of the directory for
    the job's screenshots; the record is what is stored for the job and the
    events are those pushed for it, in order.  The writing of the result
    file is not modelled. *)
Definition run_job (job query_text llm_provider artifacts : string)
           (stealth_enabled : bool) (setup : result string)
           (mkdir : option exn) (envs : nat -> Env)
  : result_data * list status_event :=
  let initiated := mk_event job "job_initiated" None in
  let attempt : list status_event * option AgentState * option exn :=
    match setup with
    | Raised x => ([], None, Some x)
    | Returned start_url =>
        let started :=
          mk_event job "job_started"
            (Some (JObj [("provider", JStr llm_provider);
                         ("query", JStr query_text);
                         ("stealth", JBool stealth_enabled)])) in
        match mkdir with
        | Some x => ([started], None, Some x)
        | None =>
            let c := invoke envs
                       (initial_state job query_text start_url llm_provider
                          artifacts) in
            match fst c with
            | Crashed x => (started :: events (snd c), None, Some x)
            | _ => (started :: events (snd c), Some (state (snd c)), None)
            end
        end
    end in
  let pushed := fst (fst attempt) in
  let final_state := snd (fst attempt) in
  let error_message :=
    match snd attempt with
    | Some x => Some ("An unexpected error occurred: " ++ exn_text x)
    | None => None
    end in
  let failed :=
    match snd attempt with
    | Some x =>
        [mk_event job "job_failed"
           (Some (JObj [("error", JStr ("An unexpected error occurred: "
                                        ++ exn_text x));
                        ("trace", JStr (format_exc x))]))]
    | None => []
    end in
  let record :=
    {| rd_job_id := job;
       rd_results := match final_state with Some s => results s | None => [] end;
       rd_screenshots :=
         match final_state with Some s => screenshots s | None => [] end;
       rd_execution_summary :=
         match final_state with
         | Some s => execution_summary s
         | None => ["Job did not complete."]
         end;
       rd_error := error_message |} in
  let closing :=
    mk_event job
      (match error_message with Some _ => "job_failed" | None => "job_done" end)
      None in
  (record, (initiated :: pushed ++ failed ++ [closing])%list).

(** *** Predicates used in the statements below *)

(** No comma of [s] is followed by white space and a closer. *)
Fixpoint trailing_comma_free (s : string) : bool :=
  match s with
  | EmptyString => true
  | String c r =>
      (if Ascii.eqb c ","
       then match match_closer r with Some _ => false | None => true end
       else true)
      && trailing_comma_free r
  end.

Fixpoint all_space (s : string) : bool :=
  match s with
  | EmptyString => true
  | String c r => is_space c && all_space r
  end.

Fixpoint has_line_break (s : string) : bool :=
  match s with
  | EmptyString => false
  | String c r => is_line_break c || has_line_break r
  end.

Definition is_raised {A} (r : result A) : bool :=
  match r with Raised _ => true | Returned _ => false end.

(** [results] is the same. *)
Definition results_kept (s s' : AgentState) : Prop := results s' = results s.

(** The parts of the state that are set when the job is made. *)
Definition identity_kept (s s' : AgentState) : Prop :=
  job_id s' = job_id s
  /\ query s' = query s
  /\ provider s' = provider s
  /\ max_steps s' = max_steps s
  /\ job_artifacts_dir s' = job_artifacts_dir s
  /\ generated_credentials s' = generated_credentials s.

(** [screenshots] is the same. *)
Definition screenshots_kept (s s' : AgentState) : Prop :=
  screenshots s' = screenshots s.

(** ["screenshots/<job>/<step>_step.png"] *)
Definition relative_screenshot_path (job : string) (step_no : Z) : string :=
  "screenshots/" ++ job ++ "/" ++ format_02d step_no ++ "_step.png".

Definition is_running (n : node) : bool :=
  match n with
  | Finished | Crashed _ => false
  | _ => true
  end.

(** [step] is at most one beyond [max_steps], and not beyond it while the
    job runs. *)
Definition under_ceiling (c : config) : Prop :=
  let s := state (snd c) in
  step s <= max_steps s + 1
  /\ (is_running (fst c) = true -> step s <= max_steps s).

(** Every event of [t] is pushed for the job [j]. *)
Definition tagged (j : string) (t : list status_event) : Prop :=
  Forall (fun ev => ev_job ev = j) t.

(** [pushed j w w']: from [w] to [w'] the job is still [j] and the status
    log has grown by events of [j] only, by none when no sink is set. *)
Definition pushed (j : string) (w w' : World) : Prop :=
  job_id (state w') = j
  /\ exists t,
      events w' = (events w ++ t)%list
      /\ tagged j t
      /\ (push_status_update = false -> t = []).

(** [logs j m]: run on a state of the job [j], [m] pushes for [j] only. *)
Definition logs (j : string) {A} (m : M A) : Prop :=
  forall w, job_id (state w) = j -> pushed j w (fst (m w)).

(** *** Sample data for the properties below *)

(** Only the groq client was made. *)
Definition groq_only : Clients :=
  {| anthropic_client := false; openai_client := false; groq_client := true |}.

(** A provider that answers every call with the plan document. *)
Definition plan_answers (attempt : Z) (a : api) : result string :=
  Returned "{plan}".

Definition groq_job : AgentState :=
  initial_state "job-2" "Find phones" "https://shop.example/" "groq"
    "screenshots/job-2".

(** The trace of an exception, abbreviated. *)
Definition brief_trace (x : exn) : string :=
  "Traceback (most recent call last): " ++ exn_text x.

(** The sample job once the plan is stored. *)
Definition planned : World :=
  mk_world (set_plan_details (JObj shop_plan_fields) shop_job) [].

Definition acting (action : json) : World :=
  mk_world (set_last_action action (state planned)) [].

(** A page whose long pause raises an exception without a message. *)
Definition page_mute (c : page_call) : option exn :=
  match c with
  | WaitForTimeout 10000 => Some (mk_exn OtherException "")
  | _ => None
  end.

(** A state whose plan asks for ["5"] items, as a string. *)
Definition counting : World :=
  mk_world
    (set_last_action_outcome "Success"
       (set_last_action fill_action
          (set_plan_details (JObj [("target_count", JStr "5")]) shop_job)))
    [].

(** A job in which the model never gives a document. *)
Definition mute_script (n : nat) : Env := answer page_ok "no plan today".

(** A job in which every answer is the same action, on the page where
    nothing becomes visible. *)
Definition hidden_script (n : nat) : Env := answer page_hidden "{fill}".

(** ** Text helpers *)

Lemma find_from_spec (c : ascii) (s : string) :
  forall i,
    find_from c s i = -1
    \/ exists k : nat,
        find_from c s i = i + Z.of_nat k
        /\ forall n, exists rest, substring k (S n) s = String c rest.
Proof.
  induction s as [|d r IH]; intros i; simpl.
  - left; reflexivity.
  - destruct (Ascii.eqb d c) eqn:Heq.
    + right. exists 0%nat. split; [lia|].
      intros n. apply Ascii.eqb_eq in Heq. subst d. simpl. eauto.
    + destruct (IH (i + 1)) as [Hnone | [k [Hk Hsub]]].
      * left; exact Hnone.
      * right. exists (S k). split; [lia|]. intros n. simpl. apply Hsub.
Qed.

Lemma find_from_absent (c : ascii) (s : string) :
  forall i, 0 <= i -> (find_from c s i = -1 <-> has_char c s = false).
Proof.
  induction s as [|d r IH]; intros i Hi; simpl.
  - tauto.
  - destruct (Ascii.eqb d c); simpl.
    + split; [lia | discriminate].
    + apply IH. lia.
Qed.

Lemma substring_nothing (s : string) : forall k, substring k 0 s = "".
Proof.
  induction s as [|d r IH]; intros [|k]; simpl; auto.
Qed.

Lemma match_closer_shorter (s : string) :
  forall d r, match_closer s = Some (d, r) ->
              (String.length r < String.length s)%nat.
Proof.
  induction s as [|c t IH]; intros d r; simpl; [discriminate|].
  destruct (is_closer c).
  - intros H; inversion H; subst. lia.
  - destruct (is_space c); [|discriminate].
    intros H. apply IH in H. lia.
Qed.

(** The scan never needs more steps than the text has characters. *)
Lemma strip_trailing_commas_fuel_enough (fuel : nat) :
  forall s, (String.length s <= fuel)%nat ->
            strip_trailing_commas_fuel fuel s = strip_trailing_commas s.
Proof.
  unfold strip_trailing_commas.
  induction fuel as [fuel IH] using lt_wf_ind.
  intros s Hlen. destruct s as [|c r].
  - destruct fuel; reflexivity.
  - destruct fuel as [|f]; [simpl in Hlen; lia|].
    simpl in Hlen. cbn [strip_trailing_commas_fuel String.length].
    assert (Htail : forall t, (String.length t <= String.length r)%nat ->
              strip_trailing_commas_fuel f t
              = strip_trailing_commas_fuel (String.length r) t).
    { intros t Ht.
      rewrite (IH f) by lia.
      destruct (Nat.eq_dec (String.length r) (S f)) as [E|E]; [lia|].
      symmetry. apply (IH (String.length r)); lia. }
    destruct (Ascii.eqb c ",").
    + destruct (match_closer r) as [[d r']|] eqn:Hm.
      * apply match_closer_shorter in Hm.
        rewrite Htail by lia. reflexivity.
      * rewrite Htail by lia. reflexivity.
    + rewrite Htail by lia. reflexivity.
Qed.

Lemma count_char_app (c : ascii) (s t : string) :
  count_char c (s ++ t) = count_char c s + count_char c t.
Proof.
  induction s as [|d r IH]; simpl; [reflexivity|]. rewrite IH. lia.
Qed.

Lemma count_char_repeat (c d : ascii) (n : nat) :
  count_char c (repeat_char d n) = if Ascii.eqb d c then Z.of_nat n else 0.
Proof.
  induction n as [|n IH]; simpl repeat_char; cbn [count_char].
  - destruct (Ascii.eqb d c); reflexivity.
  - rewrite IH. destruct (Ascii.eqb d c); lia.
Qed.

(** After the repair no opening brace is left without a closing one. *)
Lemma json_repaired_balanced (s : string) :
  count_char "{" (json_repaired s) <= count_char "}" (json_repaired s).
Proof.
  unfold json_repaired.
  set (t := strip_trailing_commas s).
  destruct (count_char "}" t <? count_char "{" t) eqn:Hlt.
  - apply Z.ltb_lt in Hlt.
    rewrite !count_char_app, !count_char_repeat. simpl Ascii.eqb.
    cbv iota. lia.
  - apply Z.ltb_ge in Hlt. exact Hlt.
Qed.

Lemma match_closer_count (c : ascii) (s : string) :
  is_space c = false ->
  forall d r, match_closer s = Some (d, r) ->
              count_char c s = (if Ascii.eqb d c then 1 else 0) + count_char c r.
Proof.
  intros Hc. induction s as [|a t IH]; intros d r; simpl; [discriminate|].
  destruct (is_closer a).
  - intros H. inversion H. subst. reflexivity.
  - destruct (is_space a) eqn:Ha; [|discriminate].
    intros H. rewrite (IH _ _ H).
    destruct (Ascii.eqb_spec a c) as [Heq|_]; [congruence | reflexivity].
Qed.

(** Stripping removes commas and white space only. *)
Lemma strip_trailing_commas_fuel_keeps (c : ascii) :
  c <> ","%char -> is_space c = false ->
  forall fuel s, count_char c (strip_trailing_commas_fuel fuel s) = count_char c s.
Proof.
  intros Hcomma Hspace. induction fuel as [|fuel IH]; intros s; [reflexivity|].
  destruct s as [|a t]; [reflexivity|]. cbn [strip_trailing_commas_fuel].
  destruct (Ascii.eqb_spec a ",") as [Ha|Ha].
  - subst a. destruct (match_closer t) as [[d r]|] eqn:Hm.
    + cbn [count_char]. rewrite IH.
      rewrite (match_closer_count c t Hspace d r Hm).
      destruct (Ascii.eqb_spec "," c) as [Heq|_]; [congruence | reflexivity].
    + cbn [count_char]. rewrite IH. reflexivity.
  - cbn [count_char]. rewrite IH. reflexivity.
Qed.

(** The repair removes only commas and white space and adds only closing
    braces. *)
Lemma json_repaired_keeps (c : ascii) (s : string) :
  c <> ","%char -> c <> "}"%char -> is_space c = false ->
  count_char c (json_repaired s) = count_char c s.
Proof.
  intros Hcomma Hbrace Hspace. unfold json_repaired, strip_trailing_commas.
  set (t := strip_trailing_commas_fuel (String.length s) s).
  assert (Ht : count_char c t = count_char c s)
    by (apply strip_trailing_commas_fuel_keeps; assumption).
  destruct (count_char "}" t <? count_char "{" t); [|exact Ht].
  rewrite count_char_app, count_char_repeat, Ht.
  destruct (Ascii.eqb_spec "}" c) as [Heq|_]; [congruence | lia].
Qed.

(** The candidate is empty (the last closing brace comes before the first
    opening one) or begins at the first opening brace. *)
Lemma json_candidate_starts (text : string) :
  has_char "{" text = true ->
  json_candidate text = "" \/ exists rest, json_candidate text = String "{" rest.
Proof.
  intros Hbrace. unfold json_candidate, py_find.
  destruct (find_from_spec "{" text 0) as [Hnone | [k [Hk Hsub]]].
  - apply find_from_absent in Hnone; [congruence | lia].
  - rewrite Hk. replace (Z.to_nat (0 + Z.of_nat k)) with k by lia.
    destruct (py_rfind text "}" =? -1).
    + unfold slice_from. replace (Z.to_nat (0 + Z.of_nat k)) with k by lia.
      destruct text as [|c r]; [discriminate|]. right. apply Hsub.
    + unfold slice. replace (Z.to_nat (0 + Z.of_nat k)) with k by lia.
      destruct (Z.to_nat (py_rfind text "}" + 1) - k)%nat as [|n].
      * left. apply substring_nothing.
      * right. apply Hsub.
Qed.

(** ** The candidate and its repair *)

Lemma string_append_empty (s : string) : s ++ "" = s.
Proof. induction s as [|c r IH]; cbn; [reflexivity | rewrite IH; reflexivity]. Qed.

Lemma string_append_assoc (a b c : string) : (a ++ b) ++ c = a ++ (b ++ c).
Proof. induction a as [|d r IH]; cbn; [reflexivity | rewrite IH; reflexivity]. Qed.

Lemma substring_whole (s : string) : substring 0 (String.length s) s = s.
Proof. induction s as [|c r IH]; cbn; [reflexivity | rewrite IH; reflexivity]. Qed.

Lemma length_append (s t : string) :
  String.length (s ++ t) = (String.length s + String.length t)%nat.
Proof. induction s as [|c r IH]; cbn; [reflexivity | rewrite IH; reflexivity]. Qed.

Lemma substring_skip (pre s : string) (n : nat) :
  substring (String.length pre) n (pre ++ s) = substring 0 n s.
Proof. induction pre as [|c r IH]; cbn; [reflexivity | exact IH]. Qed.

Lemma substring_prefix (a b : string) :
  substring 0 (String.length a) (a ++ b) = a.
Proof.
  induction a as [|c r IH]; cbn.
  - destruct b; reflexivity.
  - rewrite IH. reflexivity.
Qed.

Lemma substring_all (s : string) :
  forall n, (String.length s <= n)%nat -> substring 0 n s = s.
Proof.
  induction s as [|c r IH]; intros n Hn.
  - destruct n; reflexivity.
  - destruct n as [|n]; [cbn in Hn; lia|]. cbn. rewrite IH; [reflexivity|].
    cbn in Hn. lia.
Qed.

Lemma find_from_first (c : ascii) (pre tail : string) :
  has_char c pre = false ->
  forall i, find_from c (pre ++ String c tail) i
            = i + Z.of_nat (String.length pre).
Proof.
  induction pre as [|d r IH]; intros Hpre i; cbn.
  - rewrite Ascii.eqb_refl. lia.
  - cbn in Hpre. apply orb_false_elim in Hpre. destruct Hpre as [Hd Hr].
    rewrite Hd, (IH Hr). lia.
Qed.

Lemma rfind_from_app (c : ascii) (a b : string) :
  forall i last,
    rfind_from c (a ++ b) i last
    = rfind_from c b (i + Z.of_nat (String.length a)) (rfind_from c a i last).
Proof.
  induction a as [|d r IH]; intros i last; cbn [append rfind_from String.length].
  - f_equal. lia.
  - rewrite IH. f_equal. lia.
Qed.

Lemma rfind_from_absent (c : ascii) (s : string) :
  has_char c s = false -> forall i last, rfind_from c s i last = last.
Proof.
  induction s as [|d r IH]; intros Hs i last; cbn; [reflexivity|].
  cbn in Hs. apply orb_false_elim in Hs. destruct Hs as [Hd Hr].
  rewrite Hd. apply IH. exact Hr.
Qed.

Lemma rfind_from_upper (c : ascii) (s : string) :
  forall i last,
    rfind_from c s i last <= Z.max last (i + Z.of_nat (String.length s) - 1).
Proof.
  induction s as [|d r IH]; intros i last; cbn [rfind_from String.length].
  - lia.
  - specialize (IH (i + 1) (if Ascii.eqb d c then i else last)).
    destruct (Ascii.eqb d c); lia.
Qed.

Lemma rfind_from_lower (c : ascii) (s : string) :
  forall i last, Z.min last i <= rfind_from c s i last.
Proof.
  induction s as [|d r IH]; intros i last; cbn [rfind_from].
  - lia.
  - specialize (IH (i + 1) (if Ascii.eqb d c then i else last)).
    destruct (Ascii.eqb d c); lia.
Qed.

Lemma rfind_from_found (c : ascii) (s : string) :
  has_char c s = true -> forall i last, i <= rfind_from c s i last.
Proof.
  induction s as [|d r IH]; intros Hs i last; [discriminate|].
  cbn [rfind_from]. cbn in Hs.
  destruct (Ascii.eqb d c).
  - pose proof (rfind_from_lower c r (i + 1) i). lia.
  - specialize (IH Hs (i + 1) last). lia.
Qed.

(** Where the candidate lies in a text whose first opening brace comes
    after [pre]. *)
Lemma json_candidate_position (pre tail : string) :
  has_char "{" pre = false ->
  (has_char "}" (pre ++ String "{" tail) = false ->
   json_candidate (pre ++ String "{" tail) = String "{" tail)
  /\ (forall mid after,
         tail = mid ++ String "}" after -> has_char "}" after = false ->
         json_candidate (pre ++ String "{" tail) = String "{" (mid ++ "}"))
  /\ (has_char "}" pre = true -> has_char "}" tail = false ->
      json_candidate (pre ++ String "{" tail) = "").
Proof.
  intros Hpre. unfold json_candidate, py_find, py_rfind.
  rewrite (find_from_first _ _ _ Hpre). cbn [Z.add].
  split; [|split].
  - intros Hnone. rewrite (rfind_from_absent _ _ Hnone). cbn [Z.eqb].
    unfold slice_from. rewrite Nat2Z.id, substring_skip.
    apply substring_all. rewrite length_append. lia.
  - intros mid after Htail Hafter. subst tail.
    replace (pre ++ String "{" (mid ++ String "}" after))
      with ((pre ++ String "{" mid) ++ String "}" after)
      by (rewrite string_append_assoc; reflexivity).
    rewrite rfind_from_app. cbn [rfind_from Ascii.eqb Bool.eqb].
    rewrite (rfind_from_absent _ _ Hafter).
    rewrite length_append. cbn [String.length].
    destruct (Z.eqb_spec (0 + Z.of_nat (String.length pre + S (String.length mid)))
                (-1)); [lia|].
    unfold slice. rewrite Nat2Z.id.
    replace (Z.to_nat (0 + Z.of_nat (String.length pre + S (String.length mid)) + 1)
             - String.length pre)%nat
      with (String.length (String "{" (mid ++ "}")))
      by (cbn [String.length]; rewrite length_append; cbn [String.length]; lia).
    rewrite string_append_assoc. rewrite substring_skip.
    replace (String "{" mid ++ String "}" after)
      with (String "{" (mid ++ "}") ++ after)
      by (cbn [append]; rewrite string_append_assoc; reflexivity).
    apply substring_prefix.
  - intros Hclosed Htail.
    rewrite rfind_from_app. cbn [rfind_from Ascii.eqb Bool.eqb].
    rewrite (rfind_from_absent _ _ Htail).
    pose proof (rfind_from_found "}" pre Hclosed 0 (-1)) as Hlow.
    pose proof (rfind_from_upper "}" pre 0 (-1)) as Hup.
    destruct (Z.eqb_spec (rfind_from "}" pre 0 (-1)) (-1)); [lia|].
    unfold slice. rewrite Nat2Z.id.
    replace (Z.to_nat (rfind_from "}" pre 0 (-1) + 1) - String.length pre)%nat
      with 0%nat by lia.
    apply substring_nothing.
Qed.

(** What the substitution does at the head of a text. *)
Lemma strip_cons_other (c : ascii) (r : string) :
  c <> ","%char ->
  strip_trailing_commas (String c r) = String c (strip_trailing_commas r).
Proof.
  intros Hc. unfold strip_trailing_commas.
  cbn [String.length strip_trailing_commas_fuel].
  destruct (Ascii.eqb_spec c ","); [contradiction | reflexivity].
Qed.

Lemma strip_comma_closer (r : string) (d : ascii) (rest : string) :
  match_closer r = Some (d, rest) ->
  strip_trailing_commas (String "," r) = String d (strip_trailing_commas rest).
Proof.
  intros Hm. unfold strip_trailing_commas at 1.
  cbn [String.length strip_trailing_commas_fuel Ascii.eqb Bool.eqb].
  rewrite Hm. f_equal. apply strip_trailing_commas_fuel_enough.
  apply match_closer_shorter in Hm. lia.
Qed.

Lemma strip_comma_kept (r : string) :
  match_closer r = None ->
  strip_trailing_commas (String "," r) = String "," (strip_trailing_commas r).
Proof.
  intros Hm. unfold strip_trailing_commas.
  cbn [String.length strip_trailing_commas_fuel Ascii.eqb Bool.eqb].
  rewrite Hm. reflexivity.
Qed.

Lemma match_closer_after_space (ws : string) (d : ascii) (rest : string) :
  all_space ws = true -> is_closer d = true ->
  match_closer (ws ++ String d rest) = Some (d, rest).
Proof.
  intros Hws Hd. induction ws as [|c t IH]; cbn.
  - rewrite Hd. reflexivity.
  - cbn in Hws. apply andb_prop in Hws. destruct Hws as [Hc Ht].
    destruct (is_closer c) eqn:Hcl.
    + exfalso. unfold is_closer in Hcl. unfold is_space in Hc.
      apply orb_prop in Hcl.
      destruct Hcl as [Hcl|Hcl]; apply Ascii.eqb_eq in Hcl; subst c;
        discriminate.
    + rewrite Hc. apply IH. exact Ht.
Qed.

Lemma match_closer_found (r : string) (d : ascii) (rest : string) :
  match_closer r = Some (d, rest) ->
  exists ws, all_space ws = true /\ is_closer d = true
             /\ r = ws ++ String d rest.
Proof.
  revert d rest. induction r as [|c t IH]; intros d rest; cbn; [discriminate|].
  destruct (is_closer c) eqn:Hc.
  - intros H. inversion H; subst. exists "". repeat split. exact Hc.
  - destruct (is_space c) eqn:Hs; [|discriminate].
    intros H. destruct (IH _ _ H) as (ws & Hws & Hd & Hr).
    exists (String c ws). cbn. rewrite Hs, Hws, Hr. repeat split. exact Hd.
Qed.

(** The repair: the stripped candidate with the missing braces. *)
Lemma json_repaired_spec (s : string) :
  json_repaired s
  = strip_trailing_commas s
    ++ repeat_char "}"
         (Z.to_nat (count_char "{" (strip_trailing_commas s)
                    - count_char "}" (strip_trailing_commas s))).
Proof.
  unfold json_repaired.
  destruct (Z.ltb_spec (count_char "}" (strip_trailing_commas s))
              (count_char "{" (strip_trailing_commas s))) as [Hlt|Hge].
  - reflexivity.
  - replace (Z.to_nat _) with 0%nat by lia.
    cbn [repeat_char]. symmetry. apply string_append_empty.
Qed.

(** ** The lenient decoder *)

(** C2, as the code has it.  A text with no opening brace makes
    [extract_json_from_response] raise [ValueError].  For a text with an
    opening brace it returns whenever [json.loads] decodes the repaired
    candidate or rejects it with [JSONDecodeError]: the decoded value in
    the first case, the default response whose action is
    [{"type": "wait"}] in the second.  The candidate runs from the first
    opening brace to the last closing one, to the end of the text when
    there is no closing brace, and is empty when the last closing brace
    comes before the first opening one.  Its repair is the candidate with
    the trailing commas stripped, followed by exactly as many closing
    braces as are missing.  Stripping reads the text from the left: a
    comma followed by white space and a closing brace or bracket goes
    together with the white space and the scan goes on behind the closer,
    every other character is kept. *)
Theorem extract_json_from_response_repairs (text : string) :
  (has_char "{" text = false ->
   extract_json_from_response text
   = Raised (mk_exn ValueError
               ("No JSON object found in the model's response: " ++ text)))
  /\ (has_char "{" text = true ->
      (forall e, json_loads (json_repaired (json_candidate text)) = Raised e ->
                 is_json_decode_error e = true) ->
      (exists v,
          extract_json_from_response text = Returned v
          /\ match json_loads (json_repaired (json_candidate text)) with
             | Returned decoded => v = decoded
             | Raised _ => v = fallback_response
             end)
      /\ (json_candidate text = ""
          \/ exists rest, json_candidate text = String "{" rest)
      /\ count_char "{" (json_repaired (json_candidate text))
         <= count_char "}" (json_repaired (json_candidate text))
      /\ (forall c, c <> ","%char -> c <> "}"%char -> is_space c = false ->
                    count_char c (json_repaired (json_candidate text))
                    = count_char c (json_candidate text)))
  /\ (forall pre tail,
         text = pre ++ String "{" tail -> has_char "{" pre = false ->
         (has_char "}" text = false -> json_candidate text = String "{" tail)
         /\ (forall mid after,
                tail = mid ++ String "}" after -> has_char "}" after = false ->
                json_candidate text = String "{" (mid ++ "}"))
         /\ (has_char "}" pre = true -> has_char "}" tail = false ->
             json_candidate text = ""))
  /\ (let stripped := strip_trailing_commas (json_candidate text) in
      let missing := count_char "{" stripped - count_char "}" stripped in
      json_repaired (json_candidate text)
      = stripped ++ repeat_char "}" (Z.to_nat missing))
  /\ (strip_trailing_commas "" = ""
      /\ (forall c r,
             c <> ","%char ->
             strip_trailing_commas (String c r)
             = String c (strip_trailing_commas r))
      /\ (forall ws d rest,
             all_space ws = true -> is_closer d = true ->
             strip_trailing_commas (String "," (ws ++ String d rest))
             = String d (strip_trailing_commas rest))
      /\ (forall r,
             (forall ws d rest, all_space ws = true -> is_closer d = true ->
                                r <> ws ++ String d rest) ->
             strip_trailing_commas (String "," r)
             = String "," (strip_trailing_commas r))).
Proof.
  split; [|split; [|split; [|split]]].
  - intros Habsent. unfold extract_json_from_response, py_find.
    apply (find_from_absent "{" text 0) in Habsent; [|lia].
    rewrite Habsent. reflexivity.
  - intros Hbrace Hloads. split; [|split; [|split]].
    + unfold extract_json_from_response, py_find.
      destruct (find_from "{" text 0 =? -1) eqn:Hfind.
      * apply Z.eqb_eq in Hfind.
        apply find_from_absent in Hfind; [congruence | lia].
      * destruct (json_loads (json_repaired (json_candidate text)))
          as [v|e] eqn:Hdec.
        -- exists v. split; reflexivity.
        -- rewrite (Hloads e eq_refl). exists fallback_response.
           split; reflexivity.
    + apply json_candidate_starts; exact Hbrace.
    + apply json_repaired_balanced.
    + intros c. apply json_repaired_keeps.
  - intros pre tail Htext Hpre. subst text.
    apply json_candidate_position. exact Hpre.
  - cbn zeta. apply json_repaired_spec.
  - split; [reflexivity|]. split; [exact strip_cons_other|]. split.
    + intros ws d rest Hws Hd. apply strip_comma_closer.
      apply match_closer_after_space; assumption.
    + intros r Hnone. apply strip_comma_kept.
      destruct (match_closer r) as [[d rest]|] eqn:Hm; [|reflexivity].
      exfalso. destruct (match_closer_found _ _ _ Hm) as (ws & Hws & Hd & Hr).
      exact (Hnone ws d rest Hws Hd Hr).
Qed.

(** ** What a phase leaves alone *)

Section Frames.

Variable R : AgentState -> AgentState -> Prop.
Hypothesis R_refl : forall s, R s s.
Hypothesis R_trans : forall a b c, R a b -> R b c -> R a c.

Lemma keeps_ret {A} (a : A) : keeps R (ret a).
Proof. intros w. apply R_refl. Qed.

Lemma keeps_lift {A} (r : result A) : keeps R (lift r).
Proof. intros w. apply R_refl. Qed.

Lemma keeps_call (r : option exn) : keeps R (call r).
Proof. intros w. apply R_refl. Qed.

Lemma keeps_get : keeps R get.
Proof. intros w. apply R_refl. Qed.

Lemma keeps_push_status job msg details :
  keeps R (push_status job msg details).
Proof.
  intros w. unfold push_status.
  destruct push_status_update; apply R_refl.
Qed.

Lemma keeps_modify (f : AgentState -> AgentState) :
  (forall s, R s (f s)) -> keeps R (modify f).
Proof. intros Hf w. apply Hf. Qed.

Lemma keeps_bind {A B} (m : M A) (k : A -> M B) :
  keeps R m -> (forall a, keeps R (k a)) -> keeps R (bind m k).
Proof.
  intros Hm Hk w. unfold bind.
  specialize (Hm w). destruct (m w) as [w' [a|e]]; simpl in *.
  - eapply R_trans; [exact Hm | apply Hk].
  - exact Hm.
Qed.

Lemma keeps_try_except {A} (body : M A) (handler : exn -> M A) :
  keeps R body -> (forall e, keeps R (handler e)) ->
  keeps R (try_except body handler).
Proof.
  intros Hb Hh w. unfold try_except.
  specialize (Hb w). destruct (body w) as [w' [a|e]]; simpl in *.
  - exact Hb.
  - eapply R_trans; [exact Hb | apply Hh].
Qed.

Lemma keeps_when (b : bool) (m : M unit) : keeps R m -> keeps R (when b m).
Proof. intros Hm. destruct b; [exact Hm | apply keeps_ret]. Qed.

End Frames.

(** Walks down a phase, leaving one goal per assignment to the state. *)
Ltac frame Hrefl Htrans :=
  repeat
    match goal with
    | |- keeps _ (bind _ _) => apply (keeps_bind _ Htrans); [|intros ?]
    | |- keeps _ (ret _) => apply (keeps_ret _ Hrefl)
    | |- keeps _ (lift _) => apply (keeps_lift _ Hrefl)
    | |- keeps _ (call _) => apply (keeps_call _ Hrefl)
    | |- keeps _ get => apply (keeps_get _ Hrefl)
    | |- keeps _ (push_status _ _ _) => apply (keeps_push_status _ Hrefl)
    | |- keeps _ (when _ _) => apply (keeps_when _ Hrefl)
    | |- keeps _ (try_except _ _) =>
        apply (keeps_try_except _ Htrans); [|intros ?]
    | |- keeps _ (append_summary _) => unfold append_summary
    | |- keeps _ (modify _) => apply keeps_modify; intros ?; cbn
    | |- keeps _ (if ?b then _ else _) => destruct b
    | |- keeps _ (match ?x with _ => _ end) => destruct x
    | |- keeps _ (let _ := _ in _) => cbv zeta
    end.

Lemma extends_refl {A} (l : list A) : extends l l.
Proof. exists []. symmetry. apply app_nil_r. Qed.

Lemma extends_trans {A} (a b c : list A) :
  extends a b -> extends b c -> extends a c.
Proof.
  intros [t Ht] [u Hu]. exists (t ++ u)%list. subst. symmetry. apply app_assoc.
Qed.

Lemma extends_app {A} (l t : list A) : extends l (l ++ t)%list.
Proof. exists t. reflexivity. Qed.

Lemma extends_length {A} (l l' : list A) :
  extends l l' -> (List.length l <= List.length l')%nat.
Proof. intros [t Ht]. subst. rewrite length_app. lia. Qed.

Lemma quiet_refl s : quiet s s.
Proof. unfold quiet. repeat split; auto using extends_refl. Qed.

Lemma quiet_trans a b c : quiet a b -> quiet b c -> quiet a c.
Proof.
  unfold quiet.
  intros (H0 & H1 & H2 & H3 & H4 & H5 & H6)
         (K0 & K1 & K2 & K3 & K4 & K5 & K6).
  repeat split; try congruence. eapply extends_trans; eassumption.
Qed.

Ltac quiet_frame :=
  frame quiet_refl quiet_trans;
  unfold quiet; cbn; repeat split; auto using extends_refl, extends_app.

Lemma planning_node_quiet e : keeps quiet (planning_node e).
Proof. unfold planning_node. quiet_frame. Qed.

Lemma agent_reasoning_node_quiet e : keeps quiet (agent_reasoning_node e).
Proof.
  unfold agent_reasoning_node, resolve_current_task, observe_and_decide.
  quiet_frame.
Qed.

Lemma researcher_node_quiet e : keeps quiet (researcher_node e).
Proof. unfold researcher_node, research. quiet_frame. Qed.

Lemma plan_updater_node_quiet e : keeps quiet (plan_updater_node e).
Proof. unfold plan_updater_node. quiet_frame. Qed.

Lemma perform_action_quiet e action job :
  keeps quiet (perform_action e action job).
Proof. unfold perform_action. quiet_frame. Qed.

(** ** The router *)

Ltac run_monad :=
  unfold bind, get, modify, lift, ret, when, append_summary, push_status,
    announced, reason;
  cbn -[py_get_default py_get py_len int_ge opt_str_eq String.eqb Z.ltb
        str_of_Z py_str halt_entry].

(** One case split of the router, in the order it tests. *)
Ltac router_case :=
  match goal with
  | |- context [String.eqb (last_action_outcome ?s) "FAILED"] =>
      destruct (String.eqb (last_action_outcome s) "FAILED") eqn:?
  | |- context [retry_count ?s <? 2] =>
      destruct (retry_count s <? 2) eqn:?
  | |- context [py_get_default ?a "target_count" ?d] =>
      destruct (py_get_default a "target_count" d) eqn:?
  | |- context [int_ge ?a ?b] =>
      destruct (int_ge a b) as [[|]|] eqn:?
  | |- context [py_get ?a "type"] =>
      destruct (py_get a "type") eqn:?
  | |- context [opt_str_eq ?a "finish"] =>
      destruct (opt_str_eq a "finish") eqn:?
  | |- context [py_get_default ?a "reason" ?d] =>
      destruct (py_get_default a "reason" d) eqn:?
  | |- context [py_get_default ?a "plan" ?d] =>
      destruct (py_get_default a "plan" d) eqn:?
  | |- context [py_len ?a] =>
      destruct (py_len a) eqn:?
  | |- context [?n <? step ?s] =>
      destruct (n <? step s) eqn:?
  | |- context [if push_status_update then _ else _] =>
      destruct push_status_update
  end;
  run_monad.

Ltac router_cases :=
  unfold validator_and_router_node; run_monad; repeat router_case.

(** The state the router leaves is the one it was given, up to
    [retry_count] and to the halt entry of the narrative. *)
Lemma validator_and_router_node_touches (w : World) :
  let s := state w in
  let s' := state (fst (validator_and_router_node w)) in
  s' = set_retry_count (retry_count s')
         (set_execution_summary
            (execution_summary s
             ++ (if String.eqb (last_action_outcome s) "FAILED"
                    && negb (retry_count s <? 2)
                 then [halt_entry] else [])) s).
Proof.
  destruct w as [s ev]. cbn zeta. cbn [state].
  router_cases; cbn [andb negb]; rewrite ?app_nil_r;
    destruct s; reflexivity.
Qed.

Lemma validator_and_router_node_retry_count (w : World) :
  let s := state w in
  retry_count (state (fst (validator_and_router_node w)))
  = if String.eqb (last_action_outcome s) "FAILED"
    then (if retry_count s <? 2 then retry_count s + 1 else retry_count s)
    else 0.
Proof.
  destruct w as [s ev]. cbn zeta. cbn [state].
  router_cases; reflexivity.
Qed.

Section RouterBranches.

Variable w : World.
Let s := state w.
Let collected := Z.of_nat (List.length (results s)).

Lemma router_failed :
  last_action_outcome s = "FAILED" ->
  validator_and_router_node w
  = if retry_count s <? 2
    then (mk_world (set_retry_count (retry_count s + 1) s) (events w),
          Returned Retry)
    else (mk_world (set_execution_summary
                      (execution_summary s ++ [halt_entry]) s) (events w),
          Returned End_).
Proof.
  intros Hfailed. apply String.eqb_eq in Hfailed.
  unfold validator_and_router_node. run_monad. fold s. rewrite Hfailed.
  destruct (retry_count s <? 2); reflexivity.
Qed.

Hypothesis Hnot_failed : last_action_outcome s <> "FAILED".

Variable target_count : json.
Hypothesis Htarget :
  py_get_default (plan_details s) "target_count" float_inf
  = Returned target_count.

Lemma router_target_reached :
  int_ge collected target_count = Returned true ->
  validator_and_router_node w
  = (mk_world (set_retry_count 0 s)
       (events w
        ++ announced (job_id s) "agent_finished"
             (JStr ("Collected " ++ str_of_Z collected ++ "/"
                    ++ py_str target_count ++ " items."))),
     Returned End_).
Proof.
  intros Henough. apply String.eqb_neq in Hnot_failed.
  unfold validator_and_router_node. run_monad. fold s.
  rewrite Hnot_failed, Htarget. run_monad. fold collected.
  rewrite Henough. run_monad.
  destruct push_status_update; [reflexivity|].
  rewrite app_nil_r. reflexivity.
Qed.

Hypothesis Hshort : int_ge collected target_count = Returned false.

Variable action_type : option json.
Hypothesis Htype : py_get (last_action s) "type" = Returned action_type.

Lemma router_finish :
  opt_str_eq action_type "finish" = true ->
  exists why,
    py_get_default (last_action s) "reason" (JStr "Task completed.")
    = Returned why
    /\ validator_and_router_node w
       = (mk_world (set_retry_count 0 s)
            (events w ++ announced (job_id s) "agent_finished" why),
          Returned End_).
Proof.
  intros Hfinish. apply String.eqb_neq in Hnot_failed.
  destruct (py_get_default (last_action s) "reason" (JStr "Task completed."))
    as [why|x] eqn:Hwhy.
  - exists why. split; [reflexivity|].
    unfold validator_and_router_node. run_monad. fold s.
    rewrite Hnot_failed, Htarget. run_monad. fold collected.
    rewrite Hshort. run_monad. rewrite Htype. run_monad.
    rewrite Hfinish, Hwhy. run_monad.
    destruct push_status_update; [reflexivity|].
    rewrite app_nil_r. reflexivity.
  - exfalso. unfold py_get_default, py_get in Hwhy, Htype.
    destruct (last_action s); try discriminate.
    destruct (assoc "reason" fields); discriminate.
Qed.

Hypothesis Hnot_finish : opt_str_eq action_type "finish" = false.

Variable plan_length : Z.
Hypothesis Hplan :
  match py_get_default (plan_details s) "plan" (JArr []) with
  | Returned plan => py_len plan
  | Raised x => Raised x
  end = Returned plan_length.

Lemma router_steps :
  validator_and_router_node w
  = if plan_length <? step s then
      (mk_world (set_retry_count 0 s)
         (events w ++ announced (job_id s) "agent_finished"
                        (JStr "All plan steps completed.")),
       Returned End_)
    else if max_steps s <? step s then
      (mk_world (set_retry_count 0 s)
         (events w ++ announced (job_id s) "agent_stopped"
                        (JStr "Max steps reached.")),
       Returned End_)
    else (mk_world (set_retry_count 0 s) (events w), Returned Continue).
Proof.
  apply String.eqb_neq in Hnot_failed.
  unfold validator_and_router_node. run_monad. fold s.
  rewrite Hnot_failed, Htarget. run_monad. fold collected.
  rewrite Hshort. run_monad. rewrite Htype. run_monad.
  rewrite Hnot_finish.
  destruct (py_get_default (plan_details s) "plan" (JArr [])) as [plan|x];
    [|discriminate].
  run_monad. rewrite Hplan. run_monad.
  destruct (plan_length <? step s); run_monad.
  - destruct push_status_update; [reflexivity|].
    rewrite app_nil_r. reflexivity.
  - destruct (max_steps s <? step s); run_monad; [|reflexivity].
    destruct push_status_update; [reflexivity|].
    rewrite app_nil_r. reflexivity.
Qed.

End RouterBranches.

(** ** The Executor *)

Lemma only_results_refl s : only_results s s.
Proof. split; [destruct s; reflexivity | apply extends_refl]. Qed.

Lemma only_results_trans a b c :
  only_results a b -> only_results b c -> only_results a c.
Proof.
  intros [Hb Eb] [Hc Ec]. split.
  - rewrite Hc. rewrite Hb. reflexivity.
  - eapply extends_trans; eassumption.
Qed.

Lemma perform_action_only_results e action job :
  keeps only_results (perform_action e action job).
Proof.
  unfold perform_action. frame only_results_refl only_results_trans.
  split; [reflexivity | apply extends_app].
Qed.

Lemma classify_action_only_results e action job :
  keeps only_results (classify_action e action job).
Proof.
  unfold classify_action. frame only_results_refl only_results_trans.
  apply perform_action_only_results.
Qed.

(** A pass counts as a success with no message, or as a failure. *)
Lemma classify_action_verdict e action job w outcome error_message :
  snd (classify_action e action job w) = Returned (outcome, error_message) ->
  (outcome = "Success" /\ error_message = "") \/ outcome = "FAILED".
Proof.
  unfold classify_action.
  set (refused := if negb (truthy action) then ret true
                  else bind (lift (py_in "type" action))
                         (fun has_type => ret (negb has_type))).
  unfold bind at 1.
  destruct (refused w) as [w1 [invalid|x]]; [|discriminate].
  destruct invalid.
  - cbn. intros H. inversion H. auto.
  - unfold try_except. unfold bind at 1.
    destruct (perform_action e action job w1) as [w2 [u|x]].
    + cbn. intros H. inversion H. auto.
    + unfold bind, lift, ret.
      destruct (first_line (exn_text x)); cbn; intros H; inversion H; auto.
Qed.

Lemma record_outcome_spec action job outcome error_message w :
  let s := state w in
  let s' := state (fst (record_outcome action job outcome error_message w)) in
  snd (record_outcome action job outcome error_message w) = Returned tt
  /\ last_action_outcome s' = outcome
  /\ last_error s' = error_message
  /\ step s' = (if String.eqb outcome "Success" then step s + 1 else step s)
  /\ history s'
     = last_n 5 (history s ++ [history_entry s action outcome])%list
  /\ execution_summary s'
     = (execution_summary s
        ++ [outcome_entry action outcome error_message])%list
  /\ retry_count s' = retry_count s
  /\ max_steps s' = max_steps s
  /\ plan_details s' = plan_details s
  /\ results s' = results s
  /\ last_action s' = last_action s
  /\ job_id s' = job_id s.
Proof.
  unfold record_outcome, when, append_summary, push_status, bind, modify, ret.
  destruct (String.eqb outcome "FAILED"), push_status_update,
    (String.eqb outcome "Success");
    cbn; repeat split; reflexivity.
Qed.

(** What one pass of the Executor does to the state. *)
Lemma execute_action_node_spec e w :
  let s := state w in
  match execute_action_node e w with
  | (w', Raised _) => only_results s (state w')
  | (w', Returned _) =>
      let s' := state w' in
      exists outcome error_message,
        ((outcome = "Success" /\ error_message = "") \/ outcome = "FAILED")
        /\ last_action_outcome s' = outcome
        /\ last_error s' = error_message
        /\ step s' = (if String.eqb outcome "Success" then step s + 1 else step s)
        /\ history s'
           = last_n 5 (history s
                       ++ [history_entry s (last_action s) outcome])%list
        /\ execution_summary s'
           = (execution_summary s
              ++ [outcome_entry (last_action s) outcome error_message])%list
        /\ retry_count s' = retry_count s
        /\ max_steps s' = max_steps s
        /\ plan_details s' = plan_details s
        /\ extends (results s) (results s')
        /\ last_action s' = last_action s
        /\ job_id s' = job_id s
  end.
Proof.
  cbn zeta. unfold execute_action_node.
  unfold bind at 1, get. cbn [state]. unfold bind at 1.
  set (w0 := fst (push_status (job_id (state w)) "executing_action"
                    (Some (JObj [("action", last_action (state w))])) w)).
  assert (Hw0 : push_status (job_id (state w)) "executing_action"
                  (Some (JObj [("action", last_action (state w))])) w
                = (w0, Returned tt) /\ state w0 = state w).
  { subst w0. unfold push_status. destruct push_status_update; auto. }
  destruct Hw0 as [Hpush Hstate]. rewrite Hpush. unfold bind at 1.
  pose proof (classify_action_only_results e (last_action (state w))
                (job_id (state w)) w0) as Hkeeps.
  pose proof (classify_action_verdict e (last_action (state w))
                (job_id (state w)) w0) as Hverdict.
  destruct (classify_action e (last_action (state w)) (job_id (state w)) w0)
    as [w1 [[outcome error_message]|x]]; cbn [fst snd] in *.
  - rewrite Hstate in Hkeeps. destruct Hkeeps as [Hsame Hgrow].
    pose proof (record_outcome_spec (last_action (state w)) (job_id (state w))
                  outcome error_message w1) as Hrec.
    cbn zeta in Hrec.
    destruct (record_outcome (last_action (state w)) (job_id (state w))
                outcome error_message w1) as [w2 r]; cbn [fst snd] in *.
    destruct Hrec
      as (Hr & H1 & H2 & H3 & H4 & H5 & H6 & H7 & H8 & H9 & H10 & H11).
    subst r. exists outcome, error_message.
    split; [exact (Hverdict _ _ eq_refl)|].
    rewrite H1, H2, H3, H4, H5, H6, H7, H8, H9, H10, H11.
    rewrite Hsame. cbn. unfold history_entry. cbn.
    repeat split; try reflexivity. exact Hgrow.
  - rewrite Hstate in Hkeeps. exact Hkeeps.
Qed.

(** ** The graph *)

Lemma after_world next (r : World * result unit) : snd (after next r) = fst r.
Proof. destruct r as [w [u|x]]; reflexivity. Qed.

(** The routing call, as the graph's state sees it. *)
Lemma route_spec (w : World) :
  let s := state w in
  let s' := state (fst (route w)) in
  step s' = step s
  /\ max_steps s' = max_steps s
  /\ history s' = history s
  /\ last_action_outcome s' = last_action_outcome s
  /\ plan_details s' = plan_details s
  /\ results s' = results s
  /\ last_action s' = last_action s
  /\ job_id s' = job_id s
  /\ extends (execution_summary s) (execution_summary s')
  /\ retry_count s'
     = if branch_shares_state
       then (if String.eqb (last_action_outcome s) "FAILED"
             then (if retry_count s <? 2 then retry_count s + 1
                   else retry_count s)
             else 0)
       else retry_count s.
Proof.
  cbn zeta. unfold route.
  pose proof (validator_and_router_node_touches w) as Htouch.
  pose proof (validator_and_router_node_retry_count w) as Hcount.
  cbn zeta in Htouch, Hcount.
  destruct (validator_and_router_node w) as [w' d]. cbn [fst snd] in *.
  destruct branch_shares_state; cbn [fst state].
  - rewrite <- Hcount. rewrite Htouch. cbn.
    repeat split; try reflexivity. apply extends_app.
  - rewrite Htouch. cbn.
    repeat split; try reflexivity. apply extends_app.
Qed.

Lemma last_n_length {A} (n : nat) (l : list A) :
  (List.length (last_n n l) <= n)%nat.
Proof. unfold last_n. rewrite length_skipn. lia. Qed.

Lemma quiet_sound s s' : quiet s s' -> sound s -> sound s'.
Proof.
  unfold quiet, sound.
  intros (_ & Hc & _ & _ & Hh & Ho & _) (H1 & H2 & H3 & H4).
  rewrite Hc, Hh, Ho. auto.
Qed.

Lemma only_results_sound s s' : only_results s s' -> sound s -> sound s'.
Proof. intros [Hsame _]. rewrite Hsame. unfold sound. cbn. auto. Qed.

Lemma graph_step_sound e c :
  sound (state (snd c)) -> sound (state (snd (graph_step e c))).
Proof.
  destruct c as [n w]. cbn [snd]. intros Hsound.
  destruct n; cbn [graph_step]; try exact Hsound;
    try (rewrite after_world; eapply quiet_sound; [|exact Hsound]).
  - apply planning_node_quiet.
  - apply agent_reasoning_node_quiet.
  - pose proof (execute_action_node_spec e w) as Hexec. cbn zeta in Hexec.
    destruct (execute_action_node e w) as [w1 [u|x]]; cbn [snd].
    + destruct Hexec as (outcome & msg & _ & Ho & _ & _ & Hh & _ & Hc & _).
      pose proof (route_spec w1) as Hroute. cbn zeta in Hroute.
      destruct Hroute as (_ & _ & Hh2 & Ho2 & _ & _ & _ & _ & _ & Hc2).
      assert (Hgoal : sound (state (fst (route w1)))).
      { destruct Hsound as (Hb & Hzero & Hlocal & _).
        unfold sound. rewrite Hh2, Ho2, Hc2, Hh, Hc.
        split; [|split; [|split]].
        - destruct branch_shares_state; [|lia].
          destruct (String.eqb (last_action_outcome (state w1)) "FAILED");
            [|lia].
          destruct (retry_count (state w) <? 2) eqn:Hlt; [|lia].
          apply Z.ltb_lt in Hlt. lia.
        - intros Hok. apply String.eqb_neq in Hok. rewrite Hok.
          destruct branch_shares_state; auto.
        - intros Hoff. rewrite Hoff. auto.
        - apply last_n_length. }
      destruct (route w1) as [w2 [d|x]]; exact Hgoal.
    + eapply only_results_sound; eassumption.
  - apply researcher_node_quiet.
  - apply plan_updater_node_quiet.
Qed.

Lemma initial_state_sound job query_text start_url llm_provider artifacts :
  sound (initial_state job query_text start_url llm_provider artifacts).
Proof. unfold sound. cbn. repeat split; auto; lia. Qed.

Lemma reachable_sound c : reachable c -> sound (state (snd c)).
Proof.
  induction 1 as [job query_text start_url llm_provider artifacts | e c _ IH].
  - apply initial_state_sound.
  - apply graph_step_sound. exact IH.
Qed.

(** One phase moves [step] up by at most one, keeps the narrative as a
    prefix and, outside the Executor, keeps [step] and [history]. *)
Lemma graph_step_grows e c :
  let s := state (snd c) in
  let s' := state (snd (graph_step e c)) in
  step s <= step s' <= step s + 1
  /\ extends (execution_summary s) (execution_summary s')
  /\ (fst c <> Executor -> step s' = step s /\ history s' = history s).
Proof.
  destruct c as [n w]. cbn zeta. cbn [fst snd].
  assert (Hquiet : forall s', quiet (state w) s' ->
            step (state w) <= step s' <= step (state w) + 1
            /\ extends (execution_summary (state w)) (execution_summary s')
            /\ (n <> Executor ->
                step s' = step (state w) /\ history s' = history (state w))).
  { intros s' (_ & _ & Hs & _ & Hh & _ & Hx). rewrite Hs.
    repeat split; auto; lia. }
  destruct n; cbn [graph_step]; cbn [snd];
    try (apply Hquiet; apply quiet_refl);
    try (rewrite after_world; apply Hquiet).
  - apply planning_node_quiet.
  - apply agent_reasoning_node_quiet.
  - pose proof (execute_action_node_spec e w) as Hexec. cbn zeta in Hexec.
    destruct (execute_action_node e w) as [w1 [u|x]]; cbn [snd].
    + destruct Hexec as (outcome & msg & _ & _ & _ & Hs & _ & Hx & _).
      pose proof (route_spec w1) as Hroute. cbn zeta in Hroute.
      destruct Hroute as (Hs2 & _ & _ & _ & _ & _ & _ & _ & Hx2 & _).
      assert (Hgoal :
        step (state w) <= step (state (fst (route w1))) <= step (state w) + 1
        /\ extends (execution_summary (state w))
             (execution_summary (state (fst (route w1))))).
      { rewrite Hs2, Hs. split.
        - destruct (String.eqb outcome "Success"); lia.
        - eapply extends_trans; [|exact Hx2]. rewrite Hx. apply extends_app. }
      destruct (route w1) as [w2 [d|x]]; cbn [fst snd] in *;
        (split; [apply Hgoal | split; [apply Hgoal | congruence]]).
    + destruct Hexec as [Hsame _]. rewrite Hsame. cbn.
      repeat split; try lia; try congruence. apply extends_refl.
  - apply researcher_node_quiet.
  - apply plan_updater_node_quiet.
Qed.

(** ** The claims about the router *)

Lemma validator_and_router_node_refines (w : World) :
  snd (validator_and_router_node w)
  = spec_router_decision (router_inputs_of (state w)).
Proof.
  destruct w as [s ev]. cbn [state].
  unfold spec_router_decision, router_inputs_of, and_then.
  cbn [in_outcome in_retry_count in_results_size in_target_count
       in_action_type in_step in_plan_length in_max_steps].
  router_cases; try reflexivity.
  all: try (exfalso;
            match goal with
            | H1 : py_get ?a "type" = Returned _,
              H2 : py_get_default ?a "reason" _ = Raised _ |- _ =>
                unfold py_get_default, py_get in H1, H2;
                destruct a; try discriminate;
                destruct (assoc "reason" _); discriminate
            end).
  all: destruct (max_steps s <? step s); run_monad;
    try destruct push_status_update; reflexivity.
Qed.

(** C1: the router's decision is a function of the outcome, the retry
    count, the size of [results], the target count, the type of the last
    action, [step], the plan's length and [max_steps]; and it tests in this
    order: a FAILED outcome gives retry or halt before anything else is
    looked at, then the target count, then a finish action, then the plan's
    length, then [max_steps], and otherwise it continues. *)
Theorem validator_and_router_node_decision (w : World) :
  let s := state w in
  let collected := Z.of_nat (List.length (results s)) in
  let r := validator_and_router_node w in
  snd r = spec_router_decision (router_inputs_of s)
  /\ (last_action_outcome s = "FAILED" ->
      snd r = Returned (if retry_count s <? 2 then Retry else End_)
      /\ events (fst r) = events w)
  /\ (last_action_outcome s <> "FAILED" ->
      forall target_count,
        py_get_default (plan_details s) "target_count" float_inf
        = Returned target_count ->
        (int_ge collected target_count = Returned true ->
         snd r = Returned End_
         /\ events (fst r)
            = (events w
               ++ announced (job_id s) "agent_finished"
                    (JStr ("Collected " ++ str_of_Z collected ++ "/"
                           ++ py_str target_count ++ " items.")))%list)
        /\ (int_ge collected target_count = Returned false ->
            forall action_type,
              py_get (last_action s) "type" = Returned action_type ->
              (opt_str_eq action_type "finish" = true ->
               snd r = Returned End_
               /\ exists why,
                   py_get_default (last_action s) "reason"
                     (JStr "Task completed.") = Returned why
                   /\ events (fst r)
                      = (events w
                         ++ announced (job_id s) "agent_finished" why)%list)
              /\ (opt_str_eq action_type "finish" = false ->
                  forall plan_length,
                    in_plan_length (router_inputs_of s) = Returned plan_length ->
                    (plan_length < step s ->
                     snd r = Returned End_
                     /\ events (fst r)
                        = (events w
                           ++ announced (job_id s) "agent_finished"
                                (JStr "All plan steps completed."))%list)
                    /\ (step s <= plan_length -> max_steps s < step s ->
                        snd r = Returned End_
                        /\ events (fst r)
                           = (events w
                              ++ announced (job_id s) "agent_stopped"
                                   (JStr "Max steps reached."))%list)
                    /\ (step s <= plan_length -> step s <= max_steps s ->
                        snd r = Returned Continue
                        /\ events (fst r) = events w)))).
Proof.
  cbn zeta. split; [apply validator_and_router_node_refines|]. split.
  - intros Hfailed. rewrite (router_failed w Hfailed).
    destruct (retry_count (state w) <? 2); split; reflexivity.
  - intros Hok target_count Htarget. split.
    + intros Henough.
      rewrite (router_target_reached w Hok target_count Htarget Henough).
      split; reflexivity.
    + intros Hshort action_type Htype. split.
      * intros Hfinish.
        destruct (router_finish w Hok target_count Htarget Hshort
                    action_type Htype Hfinish) as [why [Hwhy Hrun]].
        rewrite Hrun. split; [reflexivity|]. exists why. split; auto.
      * intros Hnot_finish plan_length Hplan.
        cbn [router_inputs_of in_plan_length] in Hplan.
        rewrite (router_steps w Hok target_count Htarget Hshort action_type
                   Htype Hnot_finish plan_length Hplan).
        repeat split; intros.
        all: repeat match goal with
                    | |- context [?a <? ?b] =>
                        destruct (Z.ltb_spec a b); try lia
                    end; reflexivity.
Qed.

(** C9: the router assigns [retry_count] and nothing else, except that on
    the halt path (a FAILED outcome with no retry left) it appends the
    halt entry to [execution_summary]; [step], [results], [history],
    [plan_details], [last_action], [last_error] and [screenshots] are the
    ones it was given. *)
Theorem validator_and_router_node_frame (w : World) :
  let s := state w in
  let s' := state (fst (validator_and_router_node w)) in
  s' = set_retry_count (retry_count s')
         (set_execution_summary
            (execution_summary s
             ++ (if String.eqb (last_action_outcome s) "FAILED"
                    && negb (retry_count s <? 2)
                 then [halt_entry] else [])) s)
  /\ step s' = step s
  /\ results s' = results s
  /\ history s' = history s
  /\ plan_details s' = plan_details s
  /\ last_action s' = last_action s
  /\ last_error s' = last_error s
  /\ screenshots s' = screenshots s.
Proof.
  cbn zeta. pose proof (validator_and_router_node_touches w) as Htouch.
  cbn zeta in Htouch. split; [exact Htouch|].
  rewrite Htouch. cbn. repeat split; reflexivity.
Qed.

(** C4: on a FAILED outcome the router adds one to [retry_count] and
    answers retry when the count is below 2, and ends the job with the halt
    entry appended when it is 2 or more; on any other outcome it sets the
    count to 0.  In every state a job reaches the count is between 0 and 2,
    and it is 0 unless the last outcome is FAILED. *)
Theorem retry_count_bounded :
  (forall w,
      let s := state w in
      let r := validator_and_router_node w in
      let s' := state (fst r) in
      (last_action_outcome s = "FAILED" -> retry_count s < 2 ->
       retry_count s' = retry_count s + 1 /\ snd r = Returned Retry)
      /\ (last_action_outcome s = "FAILED" -> 2 <= retry_count s ->
          retry_count s' = retry_count s
          /\ snd r = Returned End_
          /\ next_node End_ = Finished
          /\ execution_summary s' = (execution_summary s ++ [halt_entry])%list)
      /\ (last_action_outcome s <> "FAILED" -> retry_count s' = 0))
  /\ (forall c, reachable c ->
                0 <= retry_count (state (snd c)) <= 2
                /\ (last_action_outcome (state (snd c)) <> "FAILED" ->
                    retry_count (state (snd c)) = 0)).
Proof.
  split.
  - intros w. cbn zeta. split; [|split].
    + intros Hfailed Hlt. rewrite (router_failed w Hfailed).
      apply Z.ltb_lt in Hlt. rewrite Hlt. split; reflexivity.
    + intros Hfailed Hge. rewrite (router_failed w Hfailed).
      apply Z.ltb_ge in Hge. rewrite Hge. repeat split; reflexivity.
    + intros Hok. rewrite validator_and_router_node_retry_count.
      apply String.eqb_neq in Hok. rewrite Hok. reflexivity.
  - intros c Hreach. apply reachable_sound in Hreach.
    destruct Hreach as (Hb & Hzero & _). split; assumption.
Qed.

(** ** The claims about the Executor *)

Lemma truthy_object fields key v :
  assoc key fields = Some v -> truthy (JObj fields) = true.
Proof. destruct fields; [discriminate | reflexivity]. Qed.

(** The verdict on an action that is an object with a [type]: what
    [perform_action] raises is caught, unless its message is empty. *)
Lemma classify_action_typed e fields job w v :
  assoc "type" fields = Some v ->
  classify_action e (JObj fields) job w
  = match perform_action e (JObj fields) job w with
    | (w', Returned _) => (w', Returned ("Success", ""))
    | (w', Raised x) =>
        (w', match first_line (exn_text x) with
             | Returned error_message => Returned ("FAILED", error_message)
             | Raised y => Raised y
             end)
    end.
Proof.
  intros Htype. unfold classify_action.
  rewrite (truthy_object _ _ _ Htype). cbn [negb].
  unfold py_in. rewrite Htype.
  unfold bind at 1. unfold bind at 1. unfold lift, ret at 1. cbn [negb].
  unfold try_except, bind at 1.
  destruct (perform_action e (JObj fields) job w) as [w' [u|x]].
  - reflexivity.
  - unfold bind, lift, ret.
    destruct (first_line (exn_text x)); reflexivity.
Qed.

Lemma execute_action_node_unfold e w :
  execute_action_node e w
  = let s := state w in
    let w0 := fst (push_status (job_id s) "executing_action"
                     (Some (JObj [("action", last_action s)])) w) in
    match classify_action e (last_action s) (job_id s) w0 with
    | (w1, Returned verdict) =>
        record_outcome (last_action s) (job_id s) (fst verdict) (snd verdict) w1
    | (w1, Raised x) => (w1, Raised x)
    end.
Proof.
  unfold execute_action_node, bind, get, push_status.
  destruct push_status_update; reflexivity.
Qed.

Lemma push_status_state job msg details w :
  state (fst (push_status job msg details w)) = state w.
Proof. unfold push_status. destruct push_status_update; reflexivity. Qed.

(** C10: an extract action whose items were appended to [results] still
    ends as FAILED when the settle pause after it raises: the pass is
    recorded as failed, [step] stays, and [results] keeps the items. *)
Theorem extract_not_atomic e w fields items extracted x :
  last_action (state w) = JObj fields ->
  assoc "type" fields = Some (JStr "extract") ->
  py_get_default (JObj fields) "items" (JArr []) = Returned items ->
  py_iter items = Returned extracted ->
  page_do e (WaitForTimeout 5000) = Some x ->
  exn_text x <> "" ->
  let r := execute_action_node e w in
  snd r = Returned tt
  /\ last_action_outcome (state (fst r)) = "FAILED"
  /\ last_error (state (fst r)) = until_line_break (exn_text x)
  /\ step (state (fst r)) = step (state w)
  /\ results (state (fst r)) = (results (state w) ++ extracted)%list.
Proof.
  intros Haction Htype Hitems Hiter Hsettle Hmsg. cbn zeta.
  assert (Hline : first_line (exn_text x)
                  = Returned (until_line_break (exn_text x))).
  { destruct (exn_text x); [congruence | reflexivity]. }
  assert (Hrun : exists w1,
             execute_action_node e w
             = record_outcome (JObj fields) (job_id (state w)) "FAILED"
                 (until_line_break (exn_text x)) w1
             /\ results (state w1) = (results (state w) ++ extracted)%list
             /\ step (state w1) = step (state w)).
  { rewrite execute_action_node_unfold. cbn zeta. rewrite Haction.
    rewrite (classify_action_typed _ _ _ _ _ Htype).
    unfold perform_action.
    unfold py_get at 1. rewrite Htype. unfold bind at 1, lift at 1.
    cbn [opt_str_eq str_eq String.eqb Ascii.eqb Bool.eqb orb].
    cbv beta iota delta [bind lift ret modify call push_status].
    rewrite Hitems. cbv beta iota. rewrite Hiter. cbv beta iota.
    rewrite Hsettle.
    destruct push_status_update; cbn [fst snd state events];
      rewrite Hline; cbn [fst snd];
      eexists; (split; [reflexivity|]); split; reflexivity. }
  destruct Hrun as (w1 & Hrun & Hres1 & Hstep1). rewrite Hrun.
  destruct (record_outcome_spec (JObj fields) (job_id (state w)) "FAILED"
              (until_line_break (exn_text x)) w1)
    as (Hr & Ho & He & Hs & _ & _ & _ & _ & _ & Hres & _).
  rewrite Hr, Ho, He, Hs, Hres, Hres1, Hstep1.
  repeat split; reflexivity.
Qed.

Lemma classify_action_refused e action job w :
  truthy action = false \/ py_in "type" action = Returned false ->
  classify_action e action job w
  = (w, Returned ("FAILED", "Agent produced an invalid or empty action.")).
Proof.
  unfold classify_action. intros [Hfalsy | Hmissing].
  - rewrite Hfalsy. reflexivity.
  - destruct (truthy action); [|reflexivity].
    cbn [negb]. rewrite Hmissing. reflexivity.
Qed.

(** C3, on the code.  An empty action or one without a [type] is recorded
    as FAILED with the message of the guard.  An action whose [type] is a
    string outside the vocabulary is not: no branch of the dispatch takes
    it, only the settle pause runs, and when that pause returns the pass is
    recorded as a Success with no error and [step] moves on. *)
Theorem execute_action_node_unknown_type e w :
  let s := state w in
  let r := execute_action_node e w in
  (truthy (last_action s) = false
   \/ py_in "type" (last_action s) = Returned false ->
   snd r = Returned tt
   /\ last_action_outcome (state (fst r)) = "FAILED"
   /\ last_error (state (fst r)) = "Agent produced an invalid or empty action."
   /\ step (state (fst r)) = step s)
  /\ (forall fields t,
         last_action s = JObj fields ->
         assoc "type" fields = Some (JStr t) ->
         existsb (String.eqb t) action_vocabulary = false ->
         page_do e (WaitForTimeout 5000) = None ->
         snd r = Returned tt
         /\ last_action_outcome (state (fst r)) = "Success"
         /\ last_error (state (fst r)) = ""
         /\ step (state (fst r)) = step s + 1).
Proof.
  cbn zeta. split.
  - intros Hrefused.
    assert (Hrun : exists w1,
               execute_action_node e w
               = record_outcome (last_action (state w)) (job_id (state w))
                   "FAILED" "Agent produced an invalid or empty action." w1
               /\ step (state w1) = step (state w)).
    { rewrite execute_action_node_unfold. cbn zeta.
      rewrite (classify_action_refused _ _ _ _ Hrefused). cbn [fst snd].
      eexists. split; [reflexivity|]. apply f_equal, push_status_state. }
    destruct Hrun as (w1 & Hrun & Hstep1). rewrite Hrun.
    match goal with
    | |- context [record_outcome ?a ?j ?o ?m ?w1] =>
        destruct (record_outcome_spec a j o m w1)
          as (Hr & Ho & He & Hs & _)
    end.
    rewrite Hr, Ho, He, Hs, Hstep1. repeat split; reflexivity.
  - intros fields t Haction Htype Hunknown Hsettle.
    assert (Hrun : exists w1,
               execute_action_node e w
               = record_outcome (JObj fields) (job_id (state w))
                   "Success" "" w1
               /\ step (state w1) = step (state w)).
    { rewrite execute_action_node_unfold. cbn zeta. rewrite Haction.
      rewrite (classify_action_typed _ _ _ _ _ Htype).
      unfold perform_action.
      unfold py_get at 1. rewrite Htype. unfold bind at 1, lift at 1.
      cbn [existsb action_vocabulary] in Hunknown.
      repeat (apply orb_false_elim in Hunknown;
              destruct Hunknown as [? Hunknown]).
      cbn [opt_str_eq str_eq].
      repeat match goal with
             | H : String.eqb t _ = false |- _ => rewrite H; clear H
             end.
      cbn [orb].
      cbv beta iota delta [bind lift ret modify call push_status].
      rewrite Hsettle. cbn [fst snd].
      eexists. split; [reflexivity|]. apply f_equal, push_status_state. }
    destruct Hrun as (w1 & Hrun & Hstep1). rewrite Hrun.
    match goal with
    | |- context [record_outcome ?a ?j ?o ?m ?w1] =>
        destruct (record_outcome_spec a j o m w1)
          as (Hr & Ho & He & Hs & _)
    end.
    rewrite Hr, Ho, He, Hs, Hstep1. repeat split; reflexivity.
Qed.

(** C5: a pass of the Executor that returns records Success and moves
    [step] up by exactly one, or records FAILED and leaves [step]; a pass
    that raises leaves it too.  The Planner, the Reasoner, the Researcher,
    the Plan-updater and the router never assign [step], so over a whole
    job it never goes down and goes up by at most one per phase. *)
Theorem step_advances_only_on_success :
  (forall e w,
      let s := state w in
      match execute_action_node e w with
      | (w', Returned _) =>
          ((last_action_outcome (state w') = "Success"
            /\ step (state w') = step s + 1)
           \/ (last_action_outcome (state w') = "FAILED"
               /\ step (state w') = step s))
          /\ (step (state w') = step s + 1
              <-> last_action_outcome (state w') = "Success")
      | (w', Raised _) => step (state w') = step s
      end)
  /\ (forall e w,
         step (state (fst (planning_node e w))) = step (state w)
         /\ step (state (fst (agent_reasoning_node e w))) = step (state w)
         /\ step (state (fst (researcher_node e w))) = step (state w)
         /\ step (state (fst (plan_updater_node e w))) = step (state w))
  /\ (forall w,
         step (state (fst (validator_and_router_node w))) = step (state w))
  /\ (forall e c,
         step (state (snd c)) <= step (state (snd (graph_step e c)))
         <= step (state (snd c)) + 1).
Proof.
  split; [|split; [|split]].
  - intros e w. cbn zeta.
    pose proof (execute_action_node_spec e w) as Hexec. cbn zeta in Hexec.
    destruct (execute_action_node e w) as [w' [u|x]].
    + destruct Hexec as (outcome & msg & Hshape & Ho & _ & Hs & _).
      rewrite Ho, Hs.
      destruct Hshape as [[Hsuccess _] | Hfailed]; subst outcome;
        cbn [String.eqb Ascii.eqb Bool.eqb].
      * split; [left; split; reflexivity|]. split; reflexivity.
      * split; [right; split; reflexivity|].
        split; [lia | discriminate].
    + destruct Hexec as [Hsame _]. rewrite Hsame. reflexivity.
  - intros e w. repeat split.
    + apply (planning_node_quiet e w).
    + apply (agent_reasoning_node_quiet e w).
    + apply (researcher_node_quiet e w).
    + apply (plan_updater_node_quiet e w).
  - intros w. pose proof (validator_and_router_node_touches w) as Htouch.
    cbn zeta in Htouch. rewrite Htouch. reflexivity.
  - intros e c. apply (graph_step_grows e c).
Qed.

(** C8: a pass of the Executor that returns appends one entry to
    [history] and keeps its last five, and appends one entry to
    [execution_summary]; a pass that raises touches neither.  Every other
    phase leaves [history] alone, every phase keeps the old
    [execution_summary] as a prefix of the new one, and in every state a job
    reaches [history] has at most five entries. *)
Theorem history_capped_summary_append_only :
  (forall e w,
      let s := state w in
      match execute_action_node e w with
      | (w', Returned _) =>
          exists entry line,
            history (state w') = last_n 5 (history s ++ [entry])%list
            /\ (List.length (history (state w')) <= 5)%nat
            /\ execution_summary (state w')
               = (execution_summary s ++ [line])%list
      | (w', Raised _) =>
          history (state w') = history s
          /\ execution_summary (state w') = execution_summary s
      end)
  /\ (forall e c,
         let s := state (snd c) in
         let s' := state (snd (graph_step e c)) in
         extends (execution_summary s) (execution_summary s')
         /\ (List.length (execution_summary s)
             <= List.length (execution_summary s'))%nat
         /\ (fst c <> Executor -> history s' = history s))
  /\ (forall c, reachable c ->
                (List.length (history (state (snd c))) <= 5)%nat).
Proof.
  split; [|split].
  - intros e w. cbn zeta.
    pose proof (execute_action_node_spec e w) as Hexec. cbn zeta in Hexec.
    destruct (execute_action_node e w) as [w' [u|x]].
    + destruct Hexec as (outcome & msg & _ & _ & _ & _ & Hh & Hx & _).
      eexists. eexists. rewrite Hh, Hx.
      split; [reflexivity|]. split; [apply last_n_length | reflexivity].
    + destruct Hexec as [Hsame _]. rewrite Hsame. split; reflexivity.
  - intros e c. cbn zeta.
    destruct (graph_step_grows e c) as (_ & Hx & Hrest).
    split; [exact Hx|]. split; [apply extends_length; exact Hx|].
    intros Hn. apply Hrest. exact Hn.
  - intros c Hreach. apply reachable_sound in Hreach. apply Hreach.
Qed.

(** C7: the Researcher always returns, and the graph goes on to the
    Plan-updater.  Without a search client [research_summary] is the
    skipping notice; with one it is the analysis of the reasoning call, or
    the text [Research failed: ...] made from whatever the search, the
    reading of its hits or the analysis raised. *)
Theorem researcher_node_never_raises e w :
  exists w',
    researcher_node e w = (w', Returned tt)
    /\ graph_step e (Researcher, w) = (PlanUpdater, w')
    /\ ((tavily_client = false
         /\ research_summary (state w')
            = "Tavily API key not configured. Skipping research.")
        \/ (tavily_client = true
            /\ (llm_response e = Returned (research_summary (state w'))
                \/ exists x,
                    research_summary (state w')
                    = "Research failed: " ++ exn_text x))).
Proof.
  assert (Hgraph : forall w', researcher_node e w = (w', Returned tt) ->
                              graph_step e (Researcher, w) = (PlanUpdater, w')).
  { intros w' Hrun. cbn [graph_step]. rewrite Hrun. reflexivity. }
  unfold researcher_node in *.
  destruct tavily_client; cbn [negb] in *.
  - cbv beta iota delta [bind get push_status try_except] in *.
    set (w0 := if push_status_update then _ else _) in *.
    assert (Hw0 : exists w1, w0 = (w1, Returned tt)).
    { subst w0. destruct push_status_update; eauto. }
    destruct Hw0 as [w1 Hw0]. rewrite Hw0 in *. clearbody w0.
    unfold research in *.
    cbv beta iota delta [bind lift modify] in *.
    destruct (search_response e) as [response|x];
      [destruct (py_get_default response "results" (JArr [])) as [hits|x];
       [destruct (py_iter hits) as [objs|x];
        [destruct (map_result search_hit objs) as [context|x];
         [destruct (llm_response e) as [analysis|x]|]|]|]|].
    all: destruct push_status_update; eexists;
      (split; [reflexivity|]);
      (split; [apply Hgraph; reflexivity|]);
      right; (split; [reflexivity|]);
      first [left; reflexivity | right; eexists; reflexivity].
  - eexists. split; [reflexivity|]. split; [apply Hgraph; reflexivity|].
    left. split; reflexivity.
Qed.

(** ** A plan of three steps, every action a success *)

Lemma route_decision (w : World) :
  snd (route w) = snd (validator_and_router_node w)
  /\ events (fst (route w)) = events (fst (validator_and_router_node w)).
Proof.
  unfold route. destruct (validator_and_router_node w) as [w' d].
  destruct branch_shares_state; split; reflexivity.
Qed.

Lemma plan_kept_refl s : plan_kept s s.
Proof. unfold plan_kept. auto. Qed.

Lemma plan_kept_trans a b c : plan_kept a b -> plan_kept b c -> plan_kept a c.
Proof.
  unfold plan_kept. intros (H1 & H2 & H3 & H4) (K1 & K2 & K3 & K4).
  repeat split; congruence.
Qed.

Lemma agent_reasoning_node_plan_kept e :
  keeps plan_kept (agent_reasoning_node e).
Proof.
  unfold agent_reasoning_node, resolve_current_task, observe_and_decide.
  frame plan_kept_refl plan_kept_trans; unfold plan_kept; cbn; auto.
Qed.

Lemma observe_and_decide_task_kept e job step_no task :
  keeps task_kept (observe_and_decide e job step_no task).
Proof.
  assert (Hrefl : forall s, task_kept s s) by reflexivity.
  assert (Htrans : forall a b c, task_kept a b -> task_kept b c -> task_kept a c)
    by (unfold task_kept; intros; congruence).
  unfold observe_and_decide. frame Hrefl Htrans; reflexivity.
Qed.

(** Once [step] is beyond the plan the Reasoner's task is the sentinel,
    whatever happens later in the pass. *)
Lemma agent_reasoning_node_sentinel e w plan plan_length :
  py_get_default (plan_details (state w)) "plan" (JArr []) = Returned plan ->
  py_len plan = Returned plan_length ->
  plan_length < step (state w) ->
  current_task (state (fst (agent_reasoning_node e w))) = plan_complete_task.
Proof.
  intros Hplan Hlen Hbeyond.
  unfold agent_reasoning_node. unfold bind at 1, get. unfold bind at 1.
  set (pushed := push_status _ _ _ w).
  assert (Hpushed : exists w0, pushed = (w0, Returned tt)
                               /\ state w0 = state w).
  { subst pushed. unfold push_status.
    destruct push_status_update; eexists; split; reflexivity. }
  destruct Hpushed as (w0 & Hpushed & Hstate). rewrite Hpushed.
  clearbody pushed. unfold bind at 1.
  destruct w0 as [s0 ev0]. cbn [state] in Hstate. subst s0.
  assert (Hresolve :
    resolve_current_task (mk_world (state w) ev0)
    = (mk_world (set_current_task plan_complete_task (state w)) ev0,
       Returned plan_complete_task)).
  { unfold resolve_current_task.
    cbv beta iota delta [bind get lift modify ret]. cbn [state].
    rewrite Hplan, Hlen.
    destruct (Z.ltb_spec (step (state w) - 1) plan_length); [lia|].
    reflexivity. }
  rewrite Hresolve.
  pose proof (observe_and_decide_task_kept e (job_id (state w))
                (step (state w)) plan_complete_task
                (mk_world (set_current_task plan_complete_task (state w))
                   ev0)) as Hkept.
  unfold task_kept in Hkept. rewrite Hkept. reflexivity.
Qed.

Lemma after_not_crashed next r :
  (forall x, fst (after next r) <> Crashed x) ->
  after next r = (next, fst r) /\ snd r = Returned tt.
Proof.
  destruct r as [w [[]|x]]; cbn; intros H.
  - split; reflexivity.
  - exfalso. apply (H x). reflexivity.
Qed.

(** A Reasoner pass and an Executor pass that records Success on an
    action other than finish, under a plan with no target count: [step]
    is one more, and the router ends the job exactly when [step] is now
    beyond the plan or beyond [max_steps]. *)
Lemma success_round e1 e2 w fields plan :
  plan_details (state w) = JObj fields ->
  assoc "plan" fields = Some (JArr plan) ->
  assoc "target_count" fields = None ->
  let c1 := graph_step e1 (Reasoner, w) in
  let c2 := graph_step e2 c1 in
  (forall x, fst c1 <> Crashed x) ->
  (forall x, fst c2 <> Crashed x) ->
  last_action_outcome (state (snd c2)) = "Success" ->
  (forall t, py_get (last_action (state (snd c2))) "type" = Returned t ->
             opt_str_eq t "finish" = false) ->
  fst c1 = Executor
  /\ plan_details (state (snd c2)) = JObj fields
  /\ step (state (snd c2)) = step (state w) + 1
  /\ max_steps (state (snd c2)) = max_steps (state w)
  /\ job_id (state (snd c2)) = job_id (state w)
  /\ fst c2
     = (if Z.of_nat (List.length plan) <? step (state w) + 1 then Finished
        else if max_steps (state w) <? step (state w) + 1 then Finished
             else Reasoner)
  /\ (Z.of_nat (List.length plan) < step (state w) + 1 ->
      exists evs,
        events (snd c2)
        = (evs ++ announced (job_id (state w)) "agent_finished"
                    (JStr "All plan steps completed."))%list).
Proof.
  intros Hdetails Hplan Htarget c1 c2 Hc1 Hc2 Hsuccess Hnot_finish.
  subst c2 c1. cbn [graph_step] in *.
  destruct (after_not_crashed _ _ Hc1) as [Hafter _].
  rewrite Hafter in *. clear Hafter Hc1.
  pose proof (agent_reasoning_node_plan_kept e1 w) as Hkept.
  set (w1 := fst (agent_reasoning_node e1 w)) in *. clearbody w1.
  destruct Hkept as (Kd & Ks & Km & Kj).
  split; [reflexivity|]. cbn [graph_step] in *.
  pose proof (execute_action_node_spec e2 w1) as Hexec. cbn zeta in Hexec.
  destruct (execute_action_node e2 w1) as [w2 [u|x]];
    [|exfalso; apply (Hc2 x); reflexivity].
  destruct Hexec as (outcome & msg & _ & Eo & _ & Es & _ & _ & _ & Em & Ed
                     & _ & Ea & Ej).
  pose proof (route_spec w2) as Hroute. cbn zeta in Hroute.
  destruct Hroute as (Rs & Rm & _ & Ro & Rd & _ & Ra & Rj & _).
  destruct (route_decision w2) as [Hdecision Hevents].
  assert (Hout : last_action_outcome (state w2) = "Success").
  { destruct (route w2) as [w3 [d|x]]; cbn [fst snd] in *; congruence. }
  assert (Hstep : step (state w2) = step (state w) + 1).
  { rewrite Es, <- Eo, Hout. cbn. lia. }
  assert (Hnf : last_action_outcome (state w2) <> "FAILED")
    by (rewrite Hout; discriminate).
  assert (Ht : py_get_default (plan_details (state w2)) "target_count" float_inf
               = Returned float_inf).
  { rewrite Ed, Kd, Hdetails. unfold py_get_default, py_get.
    rewrite Htarget. reflexivity. }
  assert (Hshort : int_ge (Z.of_nat (List.length (results (state w2)))) float_inf
                   = Returned false) by reflexivity.
  assert (Hlen : match py_get_default (plan_details (state w2)) "plan" (JArr [])
                 with
                 | Returned p => py_len p
                 | Raised y => Raised y
                 end = Returned (Z.of_nat (List.length plan))).
  { rewrite Ed, Kd, Hdetails. unfold py_get_default, py_get.
    rewrite Hplan. reflexivity. }
  destruct (py_get (last_action (state w2)) "type") as [t|x] eqn:Htype.
  - assert (Hnot : opt_str_eq t "finish" = false).
    { destruct (route w2) as [w3 [d|x]]; cbn [fst snd] in *;
        apply Hnot_finish; rewrite Ra; exact Htype. }
    pose proof (router_steps w2 Hnf float_inf Ht Hshort t Htype Hnot
                  (Z.of_nat (List.length plan)) Hlen) as Hrun.
    rewrite Hrun in Hdecision, Hevents.
    rewrite Hstep, Em, Km, Ej, Kj in Hdecision, Hevents.
    destruct (route w2) as [w3 [d|x]]; cbn [fst snd] in *;
      rewrite Rd, Ed, Kd, Rs, Hstep, Rm, Em, Km, Rj, Ej, Kj;
      (repeat split; try assumption; try reflexivity).
    + destruct (Z.of_nat (List.length plan) <? step (state w) + 1);
        [|destruct (max_steps (state w) <? step (state w) + 1)];
        cbn [snd] in Hdecision; inversion Hdecision; reflexivity.
    + intros Hbeyond. apply Z.ltb_lt in Hbeyond. rewrite Hbeyond in Hevents.
      cbn [fst events] in Hevents. eexists. exact Hevents.
    + destruct (Z.of_nat (List.length plan) <? step (state w) + 1);
        [|destruct (max_steps (state w) <? step (state w) + 1)];
        cbn [snd] in Hdecision; discriminate.
    + intros Hbeyond. apply Z.ltb_lt in Hbeyond. rewrite Hbeyond in Hevents.
      cbn [fst events] in Hevents. eexists. exact Hevents.
  - exfalso.
    rewrite validator_and_router_node_refines in Hdecision.
    unfold spec_router_decision, router_inputs_of, and_then in Hdecision.
    cbn [in_outcome in_target_count in_results_size in_action_type]
      in Hdecision.
    apply String.eqb_neq in Hnf.
    rewrite Hnf, Ht, Hshort, Htype in Hdecision.
    destruct (route w2) as [w3 [d|y]]; cbn [fst snd] in *;
      [discriminate | apply (Hc2 y); reflexivity].
Qed.

Lemma invoke_from_phases envs c0 :
  forall m i limit,
    (m <= limit)%nat ->
    (forall j, (i <= j < i + m)%nat -> is_final (phases envs c0 j) = false) ->
    is_final (phases envs c0 (i + m)) = true ->
    invoke_from limit envs i (phases envs c0 i) = phases envs c0 (i + m).
Proof.
  induction m as [|m IH]; intros i limit Hle Hrunning Hfinal.
  - rewrite Nat.add_0_r in *. destruct limit; cbn [invoke_from];
      rewrite Hfinal; reflexivity.
  - destruct limit as [|limit]; [lia|]. cbn [invoke_from].
    rewrite (Hrunning i) by lia.
    change (graph_step (envs i) (phases envs c0 i))
      with (phases envs c0 (S i)).
    replace (i + S m)%nat with (S i + m)%nat in * by lia.
    apply IH; [lia | | exact Hfinal].
    intros j Hj. apply Hrunning. lia.
Qed.

(** C6: a job whose Planner gives a plan of three steps and no target
    count, in which no phase raises and every Executor pass records
    Success on an action other than finish, ends after its third Executor
    pass, with [step] at 4 and the reason [All plan steps completed.] as
    its last status event; and whenever the Reasoner runs with [step]
    beyond the plan's length it sets [current_task] to the plan-complete
    sentinel. *)
Theorem three_step_plan_completes
        (envs : nat -> Env) job query_text start_url llm_provider artifacts
        fields x y z :
  let s0 := initial_state job query_text start_url llm_provider artifacts in
  let cfg := phases envs (start s0) in
  plan_details (state (snd (cfg 1%nat))) = JObj fields ->
  assoc "plan" fields = Some (JArr [x; y; z]) ->
  assoc "target_count" fields = None ->
  (forall n e, (n <= 7)%nat -> fst (cfg n) <> Crashed e) ->
  (forall n, (n < 7)%nat -> fst (cfg n) = Executor ->
             last_action_outcome (state (snd (cfg (S n)))) = "Success"
             /\ forall t,
                 py_get (last_action (state (snd (cfg (S n))))) "type"
                 = Returned t ->
                 opt_str_eq t "finish" = false) ->
  invoke envs s0 = cfg 7%nat
  /\ fst (cfg 7%nat) = Finished
  /\ step (state (snd (cfg 7%nat))) = 4
  /\ (forall n, (n < 7)%nat -> is_final (cfg n) = false)
  /\ (exists evs,
         events (snd (cfg 7%nat))
         = (evs ++ announced job "agent_finished"
                     (JStr "All plan steps completed."))%list)
  /\ (forall e w plan plan_length,
         py_get_default (plan_details (state w)) "plan" (JArr [])
         = Returned plan ->
         py_len plan = Returned plan_length ->
         plan_length < step (state w) ->
         current_task (state (fst (agent_reasoning_node e w)))
         = plan_complete_task).
Proof.
  intros s0 cfg Hdetails Hplan Htarget Halive Hsuccess.
  assert (Hnext : forall n, cfg (S n) = graph_step (envs n) (cfg n))
    by reflexivity.
  (* the Planner *)
  assert (E1 : exists w1, cfg 1%nat = (Reasoner, w1)
                          /\ step (state w1) = 1
                          /\ max_steps (state w1) = 40
                          /\ job_id (state w1) = job).
  { assert (Hc : forall e, fst (cfg 1%nat) <> Crashed e)
      by (intros e; apply Halive; lia).
    rewrite Hnext in *. unfold cfg in *. cbn [phases start graph_step] in *.
    destruct (after_not_crashed _ _ Hc) as [Hafter _].
    rewrite Hafter. eexists. split; [reflexivity|].
    destruct (planning_node_quiet (envs 0%nat) (mk_world s0 []))
      as (Hj & _ & Hs & Hm & _).
    cbn [state] in *. rewrite Hs, Hm, Hj. repeat split; reflexivity. }
  destruct E1 as (w1 & E1 & S1 & M1 & J1).
  rewrite E1 in Hdetails. cbn [snd] in Hdetails.
  (* one Reasoner pass and one Executor pass *)
  assert (Hround : forall n w,
             (S (S n) <= 7)%nat ->
             cfg n = (Reasoner, w) ->
             plan_details (state w) = JObj fields ->
             fst (cfg (S n)) = Executor
             /\ plan_details (state (snd (cfg (S (S n))))) = JObj fields
             /\ step (state (snd (cfg (S (S n))))) = step (state w) + 1
             /\ max_steps (state (snd (cfg (S (S n))))) = max_steps (state w)
             /\ job_id (state (snd (cfg (S (S n))))) = job_id (state w)
             /\ fst (cfg (S (S n)))
                = (if 3 <? step (state w) + 1 then Finished
                   else if max_steps (state w) <? step (state w) + 1
                        then Finished else Reasoner)
             /\ (3 < step (state w) + 1 ->
                 exists evs,
                   events (snd (cfg (S (S n))))
                   = (evs ++ announced (job_id (state w)) "agent_finished"
                               (JStr "All plan steps completed."))%list)).
  { intros n w Hn Hcfg Hd.
    assert (A1 : forall e, fst (cfg (S n)) <> Crashed e)
      by (intros e; apply Halive; lia).
    assert (A2 : forall e, fst (cfg (S (S n))) <> Crashed e)
      by (intros e; apply Halive; lia).
    pose proof (Hsuccess (S n)) as Hs.
    rewrite (Hnext (S n)), (Hnext n), Hcfg in *.
    assert (Hexec : fst (graph_step (envs n) (Reasoner, w)) = Executor).
    { cbn [graph_step] in *.
      destruct (after_not_crashed _ _ A1) as [Hafter _].
      rewrite Hafter. reflexivity. }
    destruct (Hs ltac:(lia) Hexec) as [Hok Hnf].
    exact (success_round (envs n) (envs (S n)) w fields [x; y; z]
             Hd Hplan Htarget A1 A2 Hok Hnf). }
  destruct (Hround 1%nat w1 ltac:(lia) E1 Hdetails)
    as (N2 & D3 & S3 & M3 & J3 & N3 & _).
  rewrite S1, M1 in *.
  change (3 <? 1 + 1) with false in N3.
  change (40 <? 1 + 1) with false in N3. cbv iota in N3.
  destruct (cfg 3%nat) as [n3 w3] eqn:E3. cbn [fst snd] in *. subst n3.
  destruct (Hround 3%nat w3 ltac:(lia) E3 D3)
    as (N4 & D5 & S5 & M5 & J5 & N5 & _).
  rewrite S3, M3 in *.
  change (3 <? 1 + 1 + 1) with false in N5.
  change (40 <? 1 + 1 + 1) with false in N5. cbv iota in N5.
  destruct (cfg 5%nat) as [n5 w5] eqn:E5. cbn [fst snd] in *. subst n5.
  destruct (Hround 5%nat w5 ltac:(lia) E5 D5)
    as (N6 & D7 & S7 & M7 & J7 & N7 & Hevents).
  rewrite S5, M5 in *.
  change (3 <? 1 + 1 + 1 + 1) with true in N7. cbv iota in N7.
  assert (Hrunning : forall n, (n < 7)%nat -> is_final (cfg n) = false).
  { intros n Hn. unfold is_final.
    do 7 (destruct n as [|n];
          [first [reflexivity | rewrite E1; reflexivity
                 | rewrite N2; reflexivity | rewrite E3; reflexivity
                 | rewrite N4; reflexivity | rewrite E5; reflexivity
                 | rewrite N6; reflexivity]|]).
    lia. }
  split; [|split; [|split; [|split; [|split]]]].
  - unfold invoke.
    apply (invoke_from_phases envs (start s0) 7 0 recursion_limit).
    + unfold recursion_limit. lia.
    + intros j Hj. apply Hrunning. lia.
    + change (is_final (cfg 7%nat) = true). unfold is_final.
      rewrite N7. reflexivity.
  - exact N7.
  - rewrite S7. reflexivity.
  - exact Hrunning.
  - rewrite J5, J3, J1 in Hevents. apply Hevents. lia.
  - intros e w plan plan_length. apply agent_reasoning_node_sentinel.
Qed.

Lemma reachable_phases envs job query_text start_url llm_provider artifacts n :
  reachable
    (phases envs
       (start (initial_state job query_text start_url llm_provider artifacts))
       n).
Proof.
  induction n as [|n IH]; cbn [phases].
  - apply reachable_start.
  - apply reachable_step. exact IH.
Qed.

(** ** More on the lenient decoder *)

(** X1: the substitution is blind to where a comma stands.  After a
    prefix without commas, a comma followed by white space and a closing
    brace or bracket is dropped together with the white space, and the scan
    goes on behind the closer; so a comma inside a string value is dropped
    too when a closer follows it. *)
Theorem strip_trailing_commas_drops (pre ws : string) (d : ascii) (rest : string) :
  has_char "," pre = false ->
  all_space ws = true ->
  is_closer d = true ->
  strip_trailing_commas (pre ++ String "," (ws ++ String d rest))
  = pre ++ String d (strip_trailing_commas rest).
Proof.
  intros Hpre Hws Hd. induction pre as [|c t IH]; cbn [append].
  - apply strip_comma_closer. apply match_closer_after_space; assumption.
  - cbn in Hpre. apply orb_false_elim in Hpre. destruct Hpre as [Hc Ht].
    rewrite strip_cons_other.
    + rewrite (IH Ht). reflexivity.
    + intros Heq. subst c. discriminate.
Qed.

Lemma strip_trailing_commas_fuel_length (fuel : nat) :
  forall s, (String.length (strip_trailing_commas_fuel fuel s)
             <= String.length s)%nat.
Proof.
  induction fuel as [|fuel IH]; intros s; [cbn; lia|].
  destruct s as [|c r]; [cbn; lia|]. cbn [strip_trailing_commas_fuel].
  destruct (Ascii.eqb c ",").
  - destruct (match_closer r) as [[d r']|] eqn:Hm.
    + apply match_closer_shorter in Hm. specialize (IH r'). cbn. lia.
    + specialize (IH r). cbn. lia.
  - specialize (IH r). cbn. lia.
Qed.

Lemma strip_trailing_commas_shrinks (s : string) :
  trailing_comma_free s = false ->
  (String.length (strip_trailing_commas s) < String.length s)%nat.
Proof.
  induction s as [|c r IH]; [discriminate|].
  cbn [trailing_comma_free]. intros Hfree.
  destruct (Ascii.eqb_spec c ",") as [Hc|Hc].
  - subst c. destruct (match_closer r) as [[d r']|] eqn:Hm.
    + rewrite (strip_comma_closer _ _ _ Hm).
      apply match_closer_shorter in Hm.
      pose proof (strip_trailing_commas_fuel_length (String.length r') r').
      unfold strip_trailing_commas. cbn [String.length]. lia.
    + rewrite (strip_comma_kept _ Hm). cbn [andb] in Hfree.
      specialize (IH Hfree). cbn [String.length]. lia.
  - rewrite (strip_cons_other _ _ Hc). cbn [andb] in Hfree.
    specialize (IH Hfree). cbn [String.length]. lia.
Qed.

Lemma strip_trailing_commas_free (s : string) :
  trailing_comma_free s = true -> strip_trailing_commas s = s.
Proof.
  induction s as [|c r IH]; [reflexivity|].
  cbn [trailing_comma_free]. intros Hfree.
  apply andb_prop in Hfree. destruct Hfree as [Hhead Htail].
  destruct (Ascii.eqb_spec c ",") as [Hc|Hc].
  - subst c. destruct (match_closer r) eqn:Hm; [discriminate|].
    rewrite (strip_comma_kept _ Hm), (IH Htail). reflexivity.
  - rewrite (strip_cons_other _ _ Hc), (IH Htail). reflexivity.
Qed.

Lemma rfind_from_last (c : ascii) (body : string) :
  forall i last, rfind_from c (body ++ String c "") i last
                 = i + Z.of_nat (String.length body).
Proof.
  induction body as [|d r IH]; intros i last; cbn [append rfind_from].
  - rewrite Ascii.eqb_refl. cbn. lia.
  - rewrite IH. cbn [String.length]. lia.
Qed.

(** A text that is one pair of braces around a body is its own
    candidate. *)
Lemma json_candidate_braced (body : string) :
  json_candidate (String "{" (body ++ "}")) = String "{" (body ++ "}").
Proof.
  unfold json_candidate, py_find, py_rfind.
  cbn [find_from rfind_from Ascii.eqb Bool.eqb].
  rewrite rfind_from_last.
  destruct (Z.eqb_spec (0 + 1 + Z.of_nat (String.length body)) (-1)); [lia|].
  unfold slice.
  replace (Z.to_nat (0 + 1 + Z.of_nat (String.length body) + 1) - Z.to_nat 0)%nat
    with (String.length (String "{" (body ++ "}"))).
  - apply substring_whole.
  - cbn [String.length]. rewrite length_append. cbn [String.length]. lia.
Qed.

(** X2: the repair is the identity exactly on the texts that need none.
    Stripping leaves a text as it is if and only if no comma of it is
    followed by white space and a closer; and a text that is one pair of
    braces around a body, with no such comma and no brace left open, is
    handed to [json.loads] unchanged, whose value or whose error decides
    the result. *)
Theorem extract_json_from_response_well_formed :
  (forall s, strip_trailing_commas s = s <-> trailing_comma_free s = true)
  /\ (forall body,
         let text := String "{" (body ++ "}") in
         trailing_comma_free text = true ->
         count_char "{" text <= count_char "}" text ->
         json_repaired (json_candidate text) = text
         /\ extract_json_from_response text
            = match json_loads text with
              | Returned v => Returned v
              | Raised x =>
                  if is_json_decode_error x then Returned fallback_response
                  else Raised x
              end).
Proof.
  split.
  - intros s. split.
    + intros Hsame. destruct (trailing_comma_free s) eqn:Hfree; [reflexivity|].
      apply strip_trailing_commas_shrinks in Hfree. rewrite Hsame in Hfree. lia.
    + apply strip_trailing_commas_free.
  - intros body text Hfree Hbalanced.
    assert (Hrepaired : json_repaired (json_candidate text) = text).
    { unfold text. rewrite json_candidate_braced. fold text.
      unfold json_repaired. rewrite (strip_trailing_commas_free _ Hfree).
      destruct (Z.ltb_spec (count_char "}" text) (count_char "{" text));
        [lia | reflexivity]. }
    split; [exact Hrepaired|].
    unfold extract_json_from_response. rewrite Hrepaired.
    unfold text at 1. unfold py_find. cbn [find_from Ascii.eqb Bool.eqb].
    reflexivity.
Qed.

(** ** The reasoning call *)

Lemma attempt_llm_misconfigured clients llm_provider images call_api :
  (String.eqb llm_provider "anthropic" || String.eqb llm_provider "openai"
   || String.eqb llm_provider "groq" = false ->
   attempt_llm clients llm_provider images call_api
   = Raised (mk_exn ValueError ("Unsupported LLM provider: " ++ llm_provider)))
  /\ (llm_provider = "groq" -> images <> [] ->
      attempt_llm clients llm_provider images call_api
      = Raised (mk_exn ValueError
                  (if groq_client clients
                   then "The configured Groq model does not support vision."
                   else "Groq client not initialized."))).
Proof.
  unfold attempt_llm. split.
  - intros Hother.
    apply orb_false_elim in Hother. destruct Hother as [Hother Hg].
    apply orb_false_elim in Hother. destruct Hother as [Ha Ho].
    rewrite Ha, Ho, Hg. reflexivity.
  - intros Hp Himages. subst llm_provider. cbn.
    destruct (groq_client clients); cbn; [|reflexivity].
    destruct images; [contradiction | reflexivity].
Qed.

Lemma llm_attempts_all_fail clients llm_provider images answers x :
  (forall k, attempt_llm clients llm_provider images (answers k) = Raised x) ->
  get_llm_response clients llm_provider images answers = (Raised x, 4).
Proof.
  intros Hfail. unfold get_llm_response. cbn [llm_attempts].
  rewrite !Hfail. reflexivity.
Qed.

(** X3: [get_llm_response] never falls off its loop.  It returns the text
    of the first of its three attempts that succeeds, having slept two
    seconds per failed attempt before it, and it raises exactly when all
    three attempts fail, after four seconds of sleep and with the
    exception of the third attempt: those of the first two are dropped. *)
Theorem get_llm_response_outcome clients llm_provider images answers :
  let a k := attempt_llm clients llm_provider images (answers k) in
  let r := get_llm_response clients llm_provider images answers in
  fst r <> Returned None
  /\ (forall text,
         fst r = Returned (Some text) <->
         a 0 = Returned text
         \/ (is_raised (a 0) = true /\ a 1 = Returned text)
         \/ (is_raised (a 0) = true /\ is_raised (a 1) = true
             /\ a 2 = Returned text))
  /\ (forall x,
         fst r = Raised x <->
         is_raised (a 0) = true /\ is_raised (a 1) = true /\ a 2 = Raised x)
  /\ snd r = (if is_raised (a 0)
              then (if is_raised (a 1) then 4 else 2) else 0).
Proof.
  cbn zeta. unfold get_llm_response. cbn [llm_attempts].
  destruct (attempt_llm clients llm_provider images (answers 0)) as [t0|x0];
    [|destruct (attempt_llm clients llm_provider images (answers 1)) as [t1|x1];
      [|destruct (attempt_llm clients llm_provider images (answers 2))
          as [t2|x2]]];
    cbn; (split; [discriminate|]); (split; [|split; [|reflexivity]]).
  all: try (intros text; split;
            [ intros H; inversion H; subst; auto 6
            | intros [H|[[H1 H]|[H1 [H2 H]]]];
              try discriminate; inversion H; reflexivity ]).
  all: intros x; split;
    [ intros H; try discriminate; inversion H; auto
    | intros (H1 & H2 & H); try discriminate; inversion H; reflexivity ].
Qed.

(** X4: a configuration mistake is retried like a failed call.  With a
    provider other than the three known ones, or with groq and a picture to
    send, the provider's API is never called: whatever it would answer,
    [get_llm_response] sleeps four seconds and raises [ValueError]. *)
Theorem get_llm_response_misconfigured clients llm_provider images answers :
  (String.eqb llm_provider "anthropic" || String.eqb llm_provider "openai"
   || String.eqb llm_provider "groq" = false ->
   get_llm_response clients llm_provider images answers
   = (Raised (mk_exn ValueError ("Unsupported LLM provider: " ++ llm_provider)),
      4))
  /\ (llm_provider = "groq" -> images <> [] ->
      get_llm_response clients llm_provider images answers
      = (Raised (mk_exn ValueError
                   (if groq_client clients
                    then "The configured Groq model does not support vision."
                    else "Groq client not initialized.")), 4)).
Proof.
  split.
  - intros Hother. apply llm_attempts_all_fail. intros k.
    apply attempt_llm_misconfigured. exact Hother.
  - intros Hp Himages. apply llm_attempts_all_fail. intros k.
    apply attempt_llm_misconfigured; assumption.
Qed.

(** X5: the Reasoner cannot work with groq.  [get_agent_action] always
    sends the screenshot of the step, so with the provider groq it raises
    whatever the model would answer: the exception of listing the plan's
    steps for the prompt when they cannot be listed, and [ValueError]
    otherwise.  In a pass of the Reasoner the steps can be listed, since
    the length of the plan was taken before.  [get_structured_plan] sends
    no picture and gets the model's answer. *)
Theorem get_agent_action_groq_raises clients s answers :
  provider s = "groq" ->
  match agent_prompt_steps s with
  | Raised x => get_agent_action clients s answers = Raised x
  | Returned _ =>
      get_agent_action clients s answers
      = Raised (mk_exn ValueError
                  (if groq_client clients
                   then "The configured Groq model does not support vision."
                   else "Groq client not initialized."))
  end
  /\ (forall w w' task,
         resolve_current_task w = (w', Returned task) ->
         exists steps, agent_prompt_steps (state w') = Returned steps)
  /\ (groq_client clients = true ->
      forall text, answers 0 Groq = Returned text ->
                   get_structured_plan clients "groq" answers
                   = extract_json_from_response text).
Proof.
  intros Hp. split; [|split].
  - unfold get_agent_action.
    destruct (agent_prompt_steps s) as [steps|x]; [|reflexivity].
    rewrite (llm_attempts_all_fail clients (provider s) [screenshot_path s]
               answers
               (mk_exn ValueError
                  (if groq_client clients
                   then "The configured Groq model does not support vision."
                   else "Groq client not initialized."))).
    + reflexivity.
    + intros k. apply attempt_llm_misconfigured; [exact Hp | discriminate].
  - intros w w' task. unfold resolve_current_task, agent_prompt_steps.
    unfold bind, get, lift, modify, ret.
    destruct (py_get_default (plan_details (state w)) "plan" (JArr []))
      as [plan|x] eqn:Hplan; [|discriminate].
    destruct (py_len plan) as [plan_length|x] eqn:Hlen; [|discriminate].
    intros Hrun.
    assert (Hstate : plan_details (state w') = plan_details (state w)).
    { destruct (step (state w) - 1 <? plan_length);
        [destruct (py_getitem_int plan (step (state w) - 1));
         [|discriminate]|];
        inversion Hrun; reflexivity. }
    rewrite Hstate, Hplan.
    destruct plan; try discriminate; cbn; eauto.
  - intros Hclient text Hanswer. unfold get_structured_plan, get_llm_response.
    cbn [llm_attempts]. unfold attempt_llm at 1.
    cbn [String.eqb Ascii.eqb Bool.eqb]. rewrite Hclient. cbn [negb].
    rewrite Hanswer. reflexivity.
Qed.

(** ** The element list *)

Lemma str_of_Z_inj (n m : Z) : str_of_Z n = str_of_Z m -> n = m.
Proof.
  unfold str_of_Z. intros Heq.
  assert (Hproper : forall z, Z.to_int z <> Pos Nil /\ Z.to_int z <> Neg Nil).
  { intros [|p|p]; cbn; split; try discriminate;
      intros H; inversion H as [Hp];
      apply (Unsigned.to_uint_nonnil p Hp). }
  apply DecimalZ.to_int_inj.
  assert (Hsome : Some (Z.to_int n) = Some (Z.to_int m)).
  { rewrite <- (NilZero.isi (Z.to_int n)) by apply Hproper.
    rewrite <- (NilZero.isi (Z.to_int m)) by apply Hproper.
    rewrite Heq. reflexivity. }
  inversion Hsome. reflexivity.
Qed.

Lemma tag_elements_fst (els : list element) :
  forall i, map fst (tag_elements i els)
            = map (fun k => str_of_Z (i + Z.of_nat k + 1))
                (seq 0 (List.length els)).
Proof.
  induction els as [|el rest IH]; intros i; [reflexivity|].
  cbn [tag_elements map fst List.length seq]. f_equal.
  - f_equal. lia.
  - rewrite IH. rewrite <- seq_shift, map_map.
    apply map_ext. intros k. f_equal. lia.
Qed.

Lemma substring_length_le (n : nat) (s : string) :
  (String.length (substring 0 n s) <= n)%nat.
Proof.
  revert s. induction n as [|n IH]; intros [|c r]; cbn; try lia.
  specialize (IH r). lia.
Qed.

(** X6: every interactive element gets its own [agent-id].  The ids are
    the decimal numbers 1, 2, ... in the order of the elements, no two of
    them equal, one line per element, and the text shown on a line is never
    longer than 100 characters. *)
Theorem tag_elements_ids (els : list element) :
  map fst (tag_elements 0 els)
  = map (fun k => str_of_Z (Z.of_nat k + 1)) (seq 0 (List.length els))
  /\ NoDup (map fst (tag_elements 0 els))
  /\ List.length (tag_elements 0 els) = List.length els
  /\ (forall k el,
         nth_error els k = Some el ->
         nth_error (map snd (tag_elements 0 els)) k
         = Some ("[" ++ str_of_Z (Z.of_nat k + 1) ++ "] <" ++ el_name el ++ "> "
                 ++ substring 0 100 (element_text el))
         /\ (String.length (substring 0 100 (element_text el)) <= 100)%nat).
Proof.
  assert (Hids : map fst (tag_elements 0 els)
                 = map (fun k => str_of_Z (Z.of_nat k + 1))
                     (seq 0 (List.length els))).
  { rewrite tag_elements_fst. apply map_ext. intros k. f_equal. }
  split; [exact Hids|]. split; [|split].
  - rewrite Hids. apply Injective_map_NoDup; [|apply seq_NoDup].
    intros a b Hab. apply str_of_Z_inj in Hab. lia.
  - rewrite <- (length_map fst), Hids, length_map, length_seq. reflexivity.
  - assert (Hgen : forall l i k el,
               nth_error l k = Some el ->
               nth_error (map snd (tag_elements i l)) k
               = Some ("[" ++ str_of_Z (i + Z.of_nat k + 1) ++ "] <"
                       ++ el_name el ++ "> "
                       ++ substring 0 100 (element_text el))).
    { induction l as [|a l IH]; intros i [|k] el Hk; try discriminate.
      - cbn in Hk. inversion Hk. subst. cbn [tag_elements map snd nth_error].
        replace (i + Z.of_nat 0 + 1) with (i + 1) by lia. reflexivity.
      - cbn [tag_elements map nth_error] in *.
        rewrite (IH (i + 1) k el Hk).
        replace (i + 1 + Z.of_nat k + 1) with (i + Z.of_nat (S k) + 1) by lia.
        reflexivity. }
    intros k el Hk. split; [apply (Hgen els 0 k el Hk)|].
    apply substring_length_le.
Qed.

(** ** More on the Executor *)

(** A pass on an action that is an object with a [type]. *)
Lemma execute_action_node_typed e w fields v :
  last_action (state w) = JObj fields ->
  assoc "type" fields = Some v ->
  execute_action_node e w
  = let s := state w in
    let w0 := fst (push_status (job_id s) "executing_action"
                     (Some (JObj [("action", JObj fields)])) w) in
    match perform_action e (JObj fields) (job_id s) w0 with
    | (w1, Returned _) =>
        record_outcome (JObj fields) (job_id s) "Success" "" w1
    | (w1, Raised x) =>
        match first_line (exn_text x) with
        | Returned error_message =>
            record_outcome (JObj fields) (job_id s) "FAILED" error_message w1
        | Raised y => (w1, Raised y)
        end
    end.
Proof.
  intros Haction Htype. rewrite execute_action_node_unfold. cbn zeta.
  rewrite Haction. rewrite (classify_action_typed _ _ _ _ _ Htype).
  destruct (perform_action e (JObj fields) (job_id (state w)) _)
    as [w1 [u|x]]; [reflexivity|].
  destruct (first_line (exn_text x)); reflexivity.
Qed.

(** The head of [perform_action]: the look-up of the type. *)
Ltac dispatch Htype :=
  unfold perform_action; unfold py_get at 1; rewrite Htype;
  unfold bind at 1, lift at 1;
  cbn [opt_str_eq str_eq String.eqb Ascii.eqb Bool.eqb orb].

Ltac run_calls :=
  cbv beta iota delta [bind lift ret modify call push_status when].

(** X7: an action that is a number or [true] is not caught by the guard.
    The test for the [type] key raises [TypeError], with the message
    [argument of type 'int' is not iterable] for an integer, before the
    [try] block is entered, so the pass raises, records no outcome, leaves
    the state as it was and ends the job. *)
Theorem execute_action_node_scalar_action e w :
  match last_action (state w) with
  | JBool true | JInt _ | JFloat _ => truthy (last_action (state w)) = true
  | _ => False
  end ->
  let not_iterable :=
    mk_exn TypeError
      ("argument of type '" ++ py_type_name (last_action (state w))
       ++ "' is not iterable") in
  execute_action_node e w
  = (fst (push_status (job_id (state w)) "executing_action"
            (Some (JObj [("action", last_action (state w))])) w),
     Raised not_iterable)
  /\ state (fst (execute_action_node e w)) = state w
  /\ fst (graph_step e (Executor, w)) = Crashed not_iterable.
Proof.
  intros Hscalar. cbn zeta.
  assert (Hrun : execute_action_node e w
                 = (fst (push_status (job_id (state w)) "executing_action"
                           (Some (JObj [("action", last_action (state w))])) w),
                    Raised (mk_exn TypeError
                              ("argument of type '"
                               ++ py_type_name (last_action (state w))
                               ++ "' is not iterable")))).
  { rewrite execute_action_node_unfold. cbn zeta. unfold classify_action.
    destruct (last_action (state w)) as [|[|]|n|f|t|l|m];
      try contradiction; rewrite Hscalar; reflexivity. }
  split; [exact Hrun|]. split.
  - rewrite Hrun. apply push_status_state.
  - cbn [graph_step]. rewrite Hrun. reflexivity.
Qed.

(** X8: an exception with an empty message escapes the Executor.  When a
    wait action's pause raises an exception whose text is empty, the handler
    itself raises [IndexError] on the first line of that text: no outcome is
    recorded, the state is as it was and the job ends. *)
Theorem execute_action_node_empty_message e w fields x :
  last_action (state w) = JObj fields ->
  assoc "type" fields = Some (JStr "wait") ->
  page_do e (WaitForTimeout 10000) = Some x ->
  exn_text x = "" ->
  snd (execute_action_node e w)
  = Raised (mk_exn IndexError "list index out of range")
  /\ state (fst (execute_action_node e w)) = state w
  /\ fst (graph_step e (Executor, w))
     = Crashed (mk_exn IndexError "list index out of range").
Proof.
  intros Haction Htype Hpause Hempty.
  assert (Hrun : exists w1,
             execute_action_node e w
             = (w1, Raised (mk_exn IndexError "list index out of range"))
             /\ state w1 = state w).
  { rewrite (execute_action_node_typed _ _ _ _ Haction Htype). cbn zeta.
    dispatch Htype. run_calls. rewrite Hpause, Hempty.
    destruct push_status_update; cbn; eexists; split; reflexivity. }
  destruct Hrun as (w1 & Hrun & Hstate).
  cbn [graph_step]. rewrite Hrun. cbn. auto.
Qed.

(** X9: a click, an Enter or a fill without an [id] fails before the page
    is touched.  Whatever the page would do, the pass returns with outcome
    FAILED and the error ['id'], [step] and [results] are unchanged. *)
Theorem execute_action_node_missing_id e w fields kind :
  last_action (state w) = JObj fields ->
  assoc "type" fields = Some (JStr kind) ->
  kind = "click" \/ kind = "press_enter" \/ kind = "fill" ->
  assoc "id" fields = None ->
  let r := execute_action_node e w in
  snd r = Returned tt
  /\ last_action_outcome (state (fst r)) = "FAILED"
  /\ last_error (state (fst r)) = "'id'"
  /\ step (state (fst r)) = step (state w)
  /\ results (state (fst r)) = results (state w).
Proof.
  intros Haction Htype Hkind Hid. cbn zeta.
  assert (Hrun : exists w1,
             execute_action_node e w
             = record_outcome (JObj fields) (job_id (state w)) "FAILED" "'id'" w1
             /\ state w1 = state w).
  { rewrite (execute_action_node_typed _ _ _ _ Haction Htype). cbn zeta.
    destruct Hkind as [Hk|[Hk|Hk]]; subst kind;
      dispatch Htype; unfold py_getitem_str; rewrite Hid; run_calls;
      destruct push_status_update; cbn; eexists; split; reflexivity. }
  destruct Hrun as (w1 & Hrun & Hstate). rewrite Hrun.
  destruct (record_outcome_spec (JObj fields) (job_id (state w)) "FAILED"
              "'id'" w1)
    as (Hr & Ho & He & Hs & _ & _ & _ & _ & _ & Hres & _).
  rewrite Hr, Ho, He, Hs, Hres, Hstate. repeat split; reflexivity.
Qed.

Lemma until_line_break_single (s : string) :
  has_line_break (until_line_break s) = false.
Proof.
  induction s as [|c r IH]; [reflexivity|]. cbn [until_line_break].
  destruct (is_line_break c) eqn:Hc; [reflexivity|].
  cbn [has_line_break]. rewrite Hc, IH. reflexivity.
Qed.

Lemma classify_action_message e action job w outcome error_message :
  snd (classify_action e action job w) = Returned (outcome, error_message) ->
  has_line_break error_message = false.
Proof.
  unfold classify_action.
  set (refused := if negb (truthy action) then ret true
                  else bind (lift (py_in "type" action))
                         (fun has_type => ret (negb has_type))).
  unfold bind at 1.
  destruct (refused w) as [w1 [invalid|x]]; [|discriminate].
  destruct invalid.
  - cbn. intros H. inversion H. reflexivity.
  - unfold try_except. unfold bind at 1.
    destruct (perform_action e action job w1) as [w2 [u|x]].
    + cbn. intros H. inversion H. reflexivity.
    + unfold bind, lift, ret. unfold first_line.
      destruct (exn_text x) as [|c r] eqn:Htext; cbn [snd];
        intros H; inversion H.
      apply (until_line_break_single (String c r)).
Qed.

(** X10: the recorded error is one line.  After every pass of the
    Executor that returns, [last_error] holds no line break: it is empty,
    the guard's message, or the first line of the exception's text. *)
Theorem last_error_single_line e w :
  match execute_action_node e w with
  | (w', Returned _) => has_line_break (last_error (state w')) = false
  | (w', Raised _) => last_error (state w') = last_error (state w)
  end.
Proof.
  rewrite execute_action_node_unfold. cbn zeta.
  pose proof (classify_action_message e (last_action (state w))
                (job_id (state w))
                (fst (push_status (job_id (state w)) "executing_action"
                        (Some (JObj [("action", last_action (state w))])) w)))
    as Hmessage.
  pose proof (classify_action_only_results e (last_action (state w))
                (job_id (state w))
                (fst (push_status (job_id (state w)) "executing_action"
                        (Some (JObj [("action", last_action (state w))])) w)))
    as Hkeeps.
  rewrite push_status_state in Hkeeps.
  destruct (classify_action e (last_action (state w)) (job_id (state w)) _)
    as [w1 [[outcome error_message]|x]]; cbn [fst snd] in *.
  - destruct (record_outcome_spec (last_action (state w)) (job_id (state w))
                outcome error_message w1) as (Hr & _ & He & _).
    destruct (record_outcome (last_action (state w)) (job_id (state w))
                outcome error_message w1) as [w2 r]; cbn [fst snd] in *.
    subst r. rewrite He. apply (Hmessage _ _ eq_refl).
  - destruct Hkeeps as [Hsame _]. rewrite Hsame. reflexivity.
Qed.

(** ** What is collected *)

Lemma results_kept_refl s : results_kept s s.
Proof. reflexivity. Qed.

Lemma results_kept_trans a b c :
  results_kept a b -> results_kept b c -> results_kept a c.
Proof. unfold results_kept. congruence. Qed.

Ltac results_frame :=
  frame results_kept_refl results_kept_trans; try reflexivity.

Lemma planning_node_results e : keeps results_kept (planning_node e).
Proof. unfold planning_node. results_frame. Qed.

Lemma agent_reasoning_node_results e :
  keeps results_kept (agent_reasoning_node e).
Proof.
  unfold agent_reasoning_node, resolve_current_task, observe_and_decide.
  results_frame.
Qed.

Lemma researcher_node_results e : keeps results_kept (researcher_node e).
Proof. unfold researcher_node, research. results_frame. Qed.

Lemma plan_updater_node_results e : keeps results_kept (plan_updater_node e).
Proof. unfold plan_updater_node. results_frame. Qed.

(** Only the extract branch assigns [results]. *)
Lemma perform_action_results e action job :
  (forall t, py_get action "type" = Returned t ->
             opt_str_eq t "extract" = false) ->
  keeps results_kept (perform_action e action job).
Proof.
  intros Hother w. unfold perform_action.
  unfold bind at 1, lift at 1.
  destruct (py_get action "type") as [t|x] eqn:Htype; [|reflexivity].
  rewrite (Hother t eq_refl).
  match goal with
  | |- results_kept (state ?w0) (state (fst (?m ?w0))) =>
      apply (fun H : keeps results_kept m => H w0)
  end.
  results_frame.
Qed.

(** X11: [results] only grows, and only an extract action adds to it.
    Each phase of the graph keeps the old [results] as a prefix of the new
    one; every phase but the Executor leaves it as it is; and so does a pass
    of the Executor on an action whose type is not extract. *)
Theorem results_append_only :
  (forall e c,
      let s := state (snd c) in
      let s' := state (snd (graph_step e c)) in
      extends (results s) (results s')
      /\ (fst c <> Executor -> results s' = results s))
  /\ (forall e w,
         (forall t, py_get (last_action (state w)) "type" = Returned t ->
                    opt_str_eq t "extract" = false) ->
         results (state (fst (execute_action_node e w))) = results (state w)).
Proof.
  split.
  - intros e [n w]. cbn zeta. cbn [fst snd].
    assert (Hsame : forall s', results s' = results (state w) ->
              extends (results (state w)) (results s')
              /\ (n <> Executor -> results s' = results (state w))).
    { intros s' Hs. rewrite Hs. split; [apply extends_refl | reflexivity]. }
    destruct n; cbn [graph_step]; cbn [snd];
      try (apply Hsame; reflexivity);
      try (rewrite after_world; apply Hsame).
    + apply planning_node_results.
    + apply agent_reasoning_node_results.
    + pose proof (execute_action_node_spec e w) as Hexec. cbn zeta in Hexec.
      destruct (execute_action_node e w) as [w1 [u|x]]; cbn [snd].
      * destruct Hexec as (outcome & msg & _ & _ & _ & _ & _ & _ & _ & _ & _
                           & Hgrow & _).
        pose proof (route_spec w1) as Hroute. cbn zeta in Hroute.
        destruct Hroute as (_ & _ & _ & _ & _ & Hres & _).
        destruct (route w1) as [w2 [d|x]]; cbn [fst snd] in *;
          rewrite Hres; (split; [exact Hgrow | congruence]).
      * destruct Hexec as [_ Hgrow]. split; [exact Hgrow | congruence].
    + apply researcher_node_results.
    + apply plan_updater_node_results.
  - intros e w Hother. rewrite execute_action_node_unfold. cbn zeta.
    assert (Hclassify : keeps results_kept
                          (classify_action e (last_action (state w))
                             (job_id (state w)))).
    { unfold classify_action. results_frame.
      apply perform_action_results. exact Hother. }
    specialize (Hclassify
                  (fst (push_status (job_id (state w)) "executing_action"
                          (Some (JObj [("action", last_action (state w))])) w))).
    rewrite push_status_state in Hclassify. unfold results_kept in Hclassify.
    destruct (classify_action e (last_action (state w)) (job_id (state w)) _)
      as [w1 [[outcome error_message]|x]]; cbn [fst snd] in *.
    + destruct (record_outcome_spec (last_action (state w)) (job_id (state w))
                  outcome error_message w1)
        as (_ & _ & _ & _ & _ & _ & _ & _ & _ & Hres & _).
      rewrite Hres. exact Hclassify.
    + exact Hclassify.
Qed.

(** X12: only the exact string [down] scrolls down.  A scroll action
    whose direction is missing evaluates the downward script; with any other
    direction, such as [up] or [Down], it evaluates the upward one, and what
    that call does decides the pass: FAILED with the first line of its
    error, or Success when it and the two pauses return. *)
Theorem scroll_direction e w fields :
  last_action (state w) = JObj fields ->
  assoc "type" fields = Some (JStr "scroll") ->
  let direction :=
    match assoc "direction" fields with Some d => d | None => JStr "down" end in
  let script :=
    if str_eq direction "down"
    then "window.scrollBy(0, window.innerHeight * 0.8)"
    else "window.scrollBy(0, -window.innerHeight * 0.8)" in
  let r := execute_action_node e w in
  (assoc "direction" fields = None -> str_eq direction "down" = true)
  /\ (forall x, page_do e (Evaluate script) = Some x -> exn_text x <> "" ->
                snd r = Returned tt
                /\ last_action_outcome (state (fst r)) = "FAILED"
                /\ last_error (state (fst r)) = until_line_break (exn_text x))
  /\ (page_do e (Evaluate script) = None ->
      page_do e (WaitForTimeout 2000) = None ->
      page_do e (WaitForTimeout 5000) = None ->
      snd r = Returned tt
      /\ last_action_outcome (state (fst r)) = "Success"
      /\ step (state (fst r)) = step (state w) + 1).
Proof.
  intros Haction Htype. cbn zeta.
  split; [intros Hnone; rewrite Hnone; reflexivity|].
  assert (Hdir : py_get_default (JObj fields) "direction" (JStr "down")
                 = Returned match assoc "direction" fields with
                            | Some d => d
                            | None => JStr "down"
                            end).
  { unfold py_get_default, py_get. destruct (assoc "direction" fields);
      reflexivity. }
  set (direction := match assoc "direction" fields with
                    | Some d => d
                    | None => JStr "down"
                    end) in *.
  assert (Hscript :
    ("window.scrollBy(0, "
     ++ (if str_eq direction "down" then "window.innerHeight * 0.8"
         else "-window.innerHeight * 0.8") ++ ")")
    = (if str_eq direction "down"
       then "window.scrollBy(0, window.innerHeight * 0.8)"
       else "window.scrollBy(0, -window.innerHeight * 0.8)")).
  { destruct (str_eq direction "down"); reflexivity. }
  split.
  - intros x Hcall Htext.
    assert (Hline : first_line (exn_text x)
                    = Returned (until_line_break (exn_text x))).
    { destruct (exn_text x); [congruence | reflexivity]. }
    assert (Hrun : exists w1,
               execute_action_node e w
               = record_outcome (JObj fields) (job_id (state w)) "FAILED"
                   (until_line_break (exn_text x)) w1).
    { rewrite (execute_action_node_typed _ _ _ _ Haction Htype). cbn zeta.
      dispatch Htype. rewrite Hdir. run_calls. rewrite Hscript, Hcall.
      destruct push_status_update; cbn [fst snd]; rewrite Hline;
        eexists; reflexivity. }
    destruct Hrun as (w1 & Hrun). rewrite Hrun.
    destruct (record_outcome_spec (JObj fields) (job_id (state w)) "FAILED"
                (until_line_break (exn_text x)) w1) as (Hr & Ho & He & _).
    rewrite Hr, Ho, He. repeat split; reflexivity.
  - intros Hcall Hpause Hsettle.
    assert (Hrun : exists w1,
               execute_action_node e w
               = record_outcome (JObj fields) (job_id (state w)) "Success" "" w1
               /\ step (state w1) = step (state w)).
    { rewrite (execute_action_node_typed _ _ _ _ Haction Htype). cbn zeta.
      dispatch Htype. rewrite Hdir. run_calls.
      rewrite Hscript, Hcall, Hpause, Hsettle.
      destruct push_status_update; cbn [fst snd];
        eexists; split; reflexivity. }
    destruct Hrun as (w1 & Hrun & Hstep). rewrite Hrun.
    destruct (record_outcome_spec (JObj fields) (job_id (state w)) "Success"
                "" w1) as (Hr & Ho & _ & Hs & _).
    rewrite Hr, Ho, Hs, Hstep. repeat split; reflexivity.
Qed.

(** ** More on the Reasoner *)

Lemma resolve_current_task_run w plan plan_length task :
  py_get_default (plan_details (state w)) "plan" (JArr []) = Returned plan ->
  py_len plan = Returned plan_length ->
  (if step (state w) - 1 <? plan_length
   then py_getitem_int plan (step (state w) - 1)
   else Returned plan_complete_task) = Returned task ->
  resolve_current_task w
  = (mk_world (set_current_task task (state w)) (events w), Returned task).
Proof.
  intros Hplan Hlen Htask. unfold resolve_current_task.
  cbv beta iota delta [bind get lift modify ret].
  rewrite Hplan, Hlen.
  destruct (step (state w) - 1 <? plan_length).
  - rewrite Htask. reflexivity.
  - inversion Htask. reflexivity.
Qed.

(** A pass of the Reasoner in which every call comes back. *)
Lemma agent_reasoning_node_run e w plan plan_length task html response
      thought action :
  py_get_default (plan_details (state w)) "plan" (JArr []) = Returned plan ->
  py_len plan = Returned plan_length ->
  (if step (state w) - 1 <? plan_length
   then py_getitem_int plan (step (state w) - 1)
   else Returned plan_complete_task) = Returned task ->
  page_screenshot e = None ->
  page_content_of e = Returned html ->
  snd (simplify_page_for_llm html) = "" \/ page_set_content e = None ->
  decoded_response e = Returned response ->
  py_get_default response "thought" (JStr "No thought provided.")
  = Returned thought ->
  py_get_default response "action" (JObj []) = Returned action ->
  let s := state w in
  let r := agent_reasoning_node e w in
  snd r = Returned tt
  /\ state (fst r)
     = set_modified_html_for_action (snd (simplify_page_for_llm html))
         (set_execution_summary
            (execution_summary s
             ++ [nl ++ "[Step " ++ str_of_Z (step s) ++ "] Task: "
                 ++ py_str task ++ nl ++ "  -> Thought: " ++ py_str thought])
            (set_last_action action
               (set_url (page_url e)
                  (set_page_content html
                     (set_screenshots
                        (screenshots s
                         ++ [relative_screenshot_path (job_id s) (step s)])
                        (set_current_task task s)))))).
Proof.
  intros Hplan Hlen Htask Hshot Hcontent Hset Hresponse Hthought Haction.
  cbn zeta.
  assert (Hrun : exists ev,
             agent_reasoning_node e w
             = (mk_world
                  (set_modified_html_for_action (snd (simplify_page_for_llm html))
                     (set_execution_summary
                        (execution_summary (state w)
                         ++ [nl ++ "[Step " ++ str_of_Z (step (state w))
                             ++ "] Task: " ++ py_str task ++ nl
                             ++ "  -> Thought: " ++ py_str thought])
                        (set_last_action action
                           (set_url (page_url e)
                              (set_page_content html
                                 (set_screenshots
                                    (screenshots (state w)
                                     ++ [relative_screenshot_path
                                           (job_id (state w)) (step (state w))])
                                    (set_current_task task (state w))))))))
                  ev, Returned tt)).
  { unfold agent_reasoning_node.
    unfold bind at 1, get. unfold bind at 1.
    set (pushed := push_status _ _ _ w).
    assert (Hpushed : exists ev0,
               pushed = (mk_world (state w) ev0, Returned tt)).
    { subst pushed. unfold push_status.
      destruct push_status_update; [eexists; reflexivity|].
      exists (events w). destruct w; reflexivity. }
    destruct Hpushed as (ev0 & Hpushed). rewrite Hpushed. clearbody pushed.
    unfold bind at 1.
    rewrite (resolve_current_task_run (mk_world (state w) ev0) plan plan_length
               task Hplan Hlen Htask).
    unfold observe_and_decide, append_summary, relative_screenshot_path.
    assert (Hwhen : forall w0,
               when (negb (String.eqb (snd (simplify_page_for_llm html)) ""))
                 (call (page_set_content e)) w0 = (w0, Returned tt)).
    { intros w0. destruct Hset as [Hsame | Hok].
      - rewrite Hsame. reflexivity.
      - rewrite Hok. unfold when, call, lift, ret.
        destruct (negb _); reflexivity. }
    unfold bind at 1. unfold call at 1, lift at 1. rewrite Hshot.
    cbv beta iota delta [bind lift modify ret push_status].
    destruct push_status_update; cbn [fst snd state events];
      rewrite Hcontent; cbv beta iota; cbn [fst snd state events];
      rewrite Hwhen; cbv beta iota; rewrite Hresponse; cbv beta iota;
      rewrite Hthought; cbv beta iota; rewrite Haction; cbv beta iota;
      cbn [fst snd state events]; eexists; reflexivity. }
  destruct Hrun as (ev & Hrun). rewrite Hrun. split; reflexivity.
Qed.

Lemma agent_reasoning_node_task e w plan plan_length task :
  py_get_default (plan_details (state w)) "plan" (JArr []) = Returned plan ->
  py_len plan = Returned plan_length ->
  (if step (state w) - 1 <? plan_length
   then py_getitem_int plan (step (state w) - 1)
   else Returned plan_complete_task) = Returned task ->
  current_task (state (fst (agent_reasoning_node e w))) = task.
Proof.
  intros Hplan Hlen Htask.
  unfold agent_reasoning_node. unfold bind at 1, get. unfold bind at 1.
  set (pushed := push_status _ _ _ w).
  assert (Hpushed : exists ev0, pushed = (mk_world (state w) ev0, Returned tt)).
  { subst pushed. unfold push_status.
    destruct push_status_update; [eexists; reflexivity|].
    exists (events w). destruct w; reflexivity. }
  destruct Hpushed as (ev0 & Hpushed). rewrite Hpushed. clearbody pushed.
  unfold bind at 1.
  rewrite (resolve_current_task_run (mk_world (state w) ev0) plan plan_length
             task Hplan Hlen Htask).
  pose proof (observe_and_decide_task_kept e (job_id (state w))
                (step (state w)) task
                (mk_world (set_current_task task (state w)) ev0)) as Hkept.
  unfold task_kept in Hkept. cbv beta iota. cbn [state events].
  rewrite Hkept. reflexivity.
Qed.

(** X13: inside the plan the task is the plan's entry for the step.  When
    the plan is a list and [step] is between 1 and its length, the Reasoner
    sets [current_task] to entry number [step - 1], and that holds whatever
    the screenshot, the page or the reasoning call do afterwards. *)
Theorem agent_reasoning_node_current_task e w fields items task :
  plan_details (state w) = JObj fields ->
  assoc "plan" fields = Some (JArr items) ->
  1 <= step (state w) ->
  nth_error items (Z.to_nat (step (state w) - 1)) = Some task ->
  current_task (state (fst (agent_reasoning_node e w))) = task.
Proof.
  intros Hdetails Hplan Hstep Hnth.
  apply (agent_reasoning_node_task e w (JArr items)
           (Z.of_nat (List.length items))).
  - rewrite Hdetails. unfold py_get_default, py_get. rewrite Hplan. reflexivity.
  - reflexivity.
  - assert (Hlt : (Z.to_nat (step (state w) - 1) < List.length items)%nat)
      by (apply nth_error_Some; congruence).
    destruct (Z.ltb_spec (step (state w) - 1) (Z.of_nat (List.length items)));
      [|lia].
    unfold py_getitem_int.
    destruct (Z.ltb_spec (step (state w) - 1) 0); [lia|].
    destruct (Z.ltb_spec (step (state w) - 1) 0); [lia|].
    rewrite Hnth. reflexivity.
Qed.

Lemma agent_reasoning_node_unfold e w :
  exists ev0,
    agent_reasoning_node e w
    = match resolve_current_task (mk_world (state w) ev0) with
      | (w1, Returned task) =>
          observe_and_decide e (job_id (state w)) (step (state w)) task w1
      | (w1, Raised x) => (w1, Raised x)
      end.
Proof.
  unfold agent_reasoning_node, bind, get, push_status.
  destruct push_status_update; cbn [state].
  - eexists. reflexivity.
  - exists (events w). destruct w. reflexivity.
Qed.

Lemma screenshots_kept_refl s : screenshots_kept s s.
Proof. reflexivity. Qed.

Lemma screenshots_kept_trans a b c :
  screenshots_kept a b -> screenshots_kept b c -> screenshots_kept a c.
Proof. unfold screenshots_kept. congruence. Qed.

Lemma resolve_current_task_screenshots :
  keeps screenshots_kept resolve_current_task.
Proof.
  unfold resolve_current_task.
  frame screenshots_kept_refl screenshots_kept_trans; reflexivity.
Qed.

(** The Reasoner from the screenshot on. *)
Lemma observe_and_decide_screenshots e job step_no task w :
  let r := observe_and_decide e job step_no task w in
  match page_screenshot e with
  | Some x => r = (w, Raised x)
  | None =>
      screenshots (state (fst r))
      = (screenshots (state w) ++ [relative_screenshot_path job step_no])%list
  end.
Proof.
  cbn zeta. unfold observe_and_decide.
  destruct (page_screenshot e) as [x|]; [reflexivity|].
  unfold bind at 1. change (call None w) with (w, Returned tt).
  cbv beta iota. unfold bind at 1. unfold modify at 1. cbv beta iota.
  match goal with
  | |- screenshots (state (fst (?m ?w0))) = _ =>
      pose proof ((fun H : keeps screenshots_kept m => H w0)) as Hrest
  end.
  unfold screenshots_kept in Hrest. rewrite Hrest; [reflexivity|].
  frame screenshots_kept_refl screenshots_kept_trans; reflexivity.
Qed.

(** X14: one screenshot path per pass that got its screenshot.  A pass of
    the Reasoner appends the path of the step, made of the job and the step
    number, exactly when the screenshot call returns, also when the pass
    raises later; when the screenshot call raises, or the plan cannot be
    read, nothing is appended.  A pass that returns has appended it. *)
Theorem agent_reasoning_node_screenshots e w :
  let s := state w in
  let r := agent_reasoning_node e w in
  let path := relative_screenshot_path (job_id s) (step s) in
  (screenshots (state (fst r)) = screenshots s
   \/ screenshots (state (fst r)) = (screenshots s ++ [path])%list)
  /\ (snd r = Returned tt ->
      screenshots (state (fst r)) = (screenshots s ++ [path])%list)
  /\ (forall x, page_screenshot e = Some x ->
                screenshots (state (fst r)) = screenshots s
                /\ is_raised (snd r) = true).
Proof.
  cbn zeta.
  assert (Hcases :
    (screenshots (state (fst (agent_reasoning_node e w))) = screenshots (state w)
     /\ is_raised (snd (agent_reasoning_node e w)) = true)
    \/ (page_screenshot e = None
        /\ screenshots (state (fst (agent_reasoning_node e w)))
           = (screenshots (state w)
              ++ [relative_screenshot_path (job_id (state w))
                    (step (state w))])%list)).
  { destruct (agent_reasoning_node_unfold e w) as (ev0 & Hunfold).
    rewrite Hunfold.
    pose proof (resolve_current_task_screenshots (mk_world (state w) ev0))
      as Hresolve.
    unfold screenshots_kept in Hresolve. cbn [state] in Hresolve.
    destruct (resolve_current_task (mk_world (state w) ev0))
      as [w1 [task|x]]; cbn [fst snd] in *.
    - pose proof (observe_and_decide_screenshots e (job_id (state w))
                    (step (state w)) task w1) as Hobserve.
      cbn zeta in Hobserve.
      destruct (page_screenshot e) as [x|].
      + rewrite Hobserve. left. split; [exact Hresolve | reflexivity].
      + right. split; [reflexivity|]. rewrite Hobserve, Hresolve. reflexivity.
    - left. split; [exact Hresolve | reflexivity]. }
  split; [|split].
  - destruct Hcases as [[Hsame _] | [_ Hadded]]; auto.
  - intros Hreturned. destruct Hcases as [[_ Hraised] | [_ Hadded]].
    + rewrite Hreturned in Hraised. discriminate.
    + exact Hadded.
  - intros x Hshot. destruct Hcases as [Hsame | [Hnone _]].
    + exact Hsame.
    + congruence.
Qed.

(** A pass on an empty action or one without a [type]. *)
Lemma execute_action_node_refused e w :
  truthy (last_action (state w)) = false
  \/ py_in "type" (last_action (state w)) = Returned false ->
  let r := execute_action_node e w in
  snd r = Returned tt
  /\ last_action_outcome (state (fst r)) = "FAILED"
  /\ last_error (state (fst r)) = "Agent produced an invalid or empty action."
  /\ step (state (fst r)) = step (state w)
  /\ retry_count (state (fst r)) = retry_count (state w).
Proof.
  intros Hrefused. cbn zeta.
  assert (Hrun : exists w1,
             execute_action_node e w
             = record_outcome (last_action (state w)) (job_id (state w))
                 "FAILED" "Agent produced an invalid or empty action." w1
             /\ state w1 = state w).
  { rewrite execute_action_node_unfold. cbn zeta.
    rewrite (classify_action_refused _ _ _ _ Hrefused). cbn [fst snd].
    eexists. split; [reflexivity|]. apply push_status_state. }
  destruct Hrun as (w1 & Hrun & Hstate). rewrite Hrun.
  match goal with
  | |- context [record_outcome ?a ?j ?o ?m ?w1] =>
      destruct (record_outcome_spec a j o m w1)
        as (Hr & Ho & He & Hs & _ & _ & Hc & _)
  end.
  rewrite Hr, Ho, He, Hs, Hc, Hstate. repeat split; reflexivity.
Qed.

(** The graph after a pass of the Executor that recorded FAILED. *)
Lemma graph_step_failed e w w1 :
  execute_action_node e w = (w1, Returned tt) ->
  last_action_outcome (state w1) = "FAILED" ->
  fst (graph_step e (Executor, w))
  = (if retry_count (state w1) <? 2 then Researcher else Finished)
  /\ snd (graph_step e (Executor, w)) = fst (route w1).
Proof.
  intros Hrun Hfailed. cbn [graph_step]. rewrite Hrun.
  destruct (route_decision w1) as [Hdecision _].
  rewrite (router_failed w1 Hfailed) in Hdecision.
  destruct (route w1) as [w2 [d|x]]; cbn [fst snd] in *.
  - destruct (retry_count (state w1) <? 2); inversion Hdecision;
      split; reflexivity.
  - destruct (retry_count (state w1) <? 2); discriminate.
Qed.

(** X15: an answer that cannot be decoded makes the agent wait.  When
    the pass of the Reasoner is otherwise sound and the model's answer has
    an opening brace but is rejected by [json.loads], the pass returns with
    the action [{"type": "wait"}]; the Executor then pauses ten seconds and
    five, and when both pauses return the pass counts as a Success and
    [step] moves on although nothing was done for the task. *)
Theorem unparsable_answer_waits e w plan plan_length task html text x :
  py_get_default (plan_details (state w)) "plan" (JArr []) = Returned plan ->
  py_len plan = Returned plan_length ->
  (if step (state w) - 1 <? plan_length
   then py_getitem_int plan (step (state w) - 1)
   else Returned plan_complete_task) = Returned task ->
  page_screenshot e = None ->
  page_content_of e = Returned html ->
  snd (simplify_page_for_llm html) = "" \/ page_set_content e = None ->
  llm_response e = Returned text ->
  has_char "{" text = true ->
  json_loads (json_repaired (json_candidate text)) = Raised x ->
  is_json_decode_error x = true ->
  let r := agent_reasoning_node e w in
  snd r = Returned tt
  /\ last_action (state (fst r)) = JObj [("type", JStr "wait")]
  /\ (forall e2,
         page_do e2 (WaitForTimeout 10000) = None ->
         page_do e2 (WaitForTimeout 5000) = None ->
         let r2 := execute_action_node e2 (fst r) in
         snd r2 = Returned tt
         /\ last_action_outcome (state (fst r2)) = "Success"
         /\ step (state (fst r2)) = step (state w) + 1).
Proof.
  intros Hplan Hlen Htask Hshot Hcontent Hset Htext Hbrace Hloads Hdecode.
  assert (Hresponse : decoded_response e = Returned fallback_response).
  { unfold decoded_response. rewrite Htext.
    unfold extract_json_from_response, py_find.
    destruct (find_from "{" text 0 =? -1) eqn:Hfind.
    - apply Z.eqb_eq in Hfind.
      apply find_from_absent in Hfind; [congruence | lia].
    - rewrite Hloads, Hdecode. reflexivity. }
  destruct (agent_reasoning_node_run e w plan plan_length task html
              fallback_response (JStr "Invalid response from LLM")
              (JObj [("type", JStr "wait")])
              Hplan Hlen Htask Hshot Hcontent Hset Hresponse eq_refl eq_refl)
    as [Hret Hstate].
  cbn zeta. split; [exact Hret|].
  split; [rewrite Hstate; reflexivity|].
  intros e2 Hpause Hsettle.
  assert (Haction : last_action (state (fst (agent_reasoning_node e w)))
                    = JObj [("type", JStr "wait")])
    by (rewrite Hstate; reflexivity).
  assert (Hstep : step (state (fst (agent_reasoning_node e w)))
                  = step (state w))
    by (rewrite Hstate; reflexivity).
  set (w1 := fst (agent_reasoning_node e w)) in *. clearbody w1.
  assert (Hrun : exists w2,
             execute_action_node e2 w1
             = record_outcome (JObj [("type", JStr "wait")])
                 (job_id (state w1)) "Success" "" w2
             /\ step (state w2) = step (state w1)).
  { rewrite (execute_action_node_typed e2 w1 [("type", JStr "wait")]
               (JStr "wait") Haction eq_refl).
    cbn zeta. unfold perform_action. unfold py_get at 1.
    cbn [assoc String.eqb Ascii.eqb Bool.eqb].
    unfold bind at 1, lift at 1.
    cbn [opt_str_eq str_eq String.eqb Ascii.eqb Bool.eqb orb].
    run_calls. rewrite Hpause, Hsettle.
    destruct push_status_update; cbn [fst snd];
      eexists; split; reflexivity. }
  destruct Hrun as (w2 & Hrun & Hstep2). rewrite Hrun.
  destruct (record_outcome_spec (JObj [("type", JStr "wait")])
              (job_id (state w1)) "Success" "" w2)
    as (Hr & Ho & _ & Hs & _).
  rewrite Hr, Ho, Hs, Hstep2, Hstep. repeat split; reflexivity.
Qed.

(** X16: an answer without an action costs a retry.  When the decoded
    answer is an object with no [action] key, the Reasoner stores the empty
    action; the next pass of the Executor records FAILED with the guard's
    message without touching the page, and the graph goes to the Researcher,
    or ends the job when two retries were already used. *)
Theorem answer_without_action_fails e w plan plan_length task html rfields :
  py_get_default (plan_details (state w)) "plan" (JArr []) = Returned plan ->
  py_len plan = Returned plan_length ->
  (if step (state w) - 1 <? plan_length
   then py_getitem_int plan (step (state w) - 1)
   else Returned plan_complete_task) = Returned task ->
  page_screenshot e = None ->
  page_content_of e = Returned html ->
  snd (simplify_page_for_llm html) = "" \/ page_set_content e = None ->
  decoded_response e = Returned (JObj rfields) ->
  assoc "action" rfields = None ->
  let r := agent_reasoning_node e w in
  snd r = Returned tt
  /\ last_action (state (fst r)) = JObj []
  /\ (forall e2,
         let r2 := execute_action_node e2 (fst r) in
         snd r2 = Returned tt
         /\ last_action_outcome (state (fst r2)) = "FAILED"
         /\ last_error (state (fst r2))
            = "Agent produced an invalid or empty action."
         /\ step (state (fst r2)) = step (state w)
         /\ fst (graph_step e2 (Executor, fst r))
            = (if retry_count (state w) <? 2 then Researcher else Finished)).
Proof.
  intros Hplan Hlen Htask Hshot Hcontent Hset Hresponse Hnone.
  assert (Hthought : py_get_default (JObj rfields) "thought"
                       (JStr "No thought provided.")
                     = Returned match assoc "thought" rfields with
                                | Some t => t
                                | None => JStr "No thought provided."
                                end).
  { unfold py_get_default, py_get. destruct (assoc "thought" rfields);
      reflexivity. }
  assert (Haction : py_get_default (JObj rfields) "action" (JObj [])
                    = Returned (JObj [])).
  { unfold py_get_default, py_get. rewrite Hnone. reflexivity. }
  destruct (agent_reasoning_node_run e w plan plan_length task html
              (JObj rfields) _ (JObj [])
              Hplan Hlen Htask Hshot Hcontent Hset Hresponse Hthought Haction)
    as [Hret Hstate].
  cbn zeta. split; [exact Hret|].
  split; [rewrite Hstate; reflexivity|].
  intros e2.
  assert (Hempty : last_action (state (fst (agent_reasoning_node e w)))
                   = JObj [])
    by (rewrite Hstate; reflexivity).
  assert (Hstep : step (state (fst (agent_reasoning_node e w)))
                  = step (state w))
    by (rewrite Hstate; reflexivity).
  assert (Hcount : retry_count (state (fst (agent_reasoning_node e w)))
                   = retry_count (state w))
    by (rewrite Hstate; reflexivity).
  set (w1 := fst (agent_reasoning_node e w)) in *. clearbody w1.
  assert (Hguard := execute_action_node_refused e2 w1
                      (or_introl (f_equal truthy Hempty))).
  cbn zeta in Hguard. destruct Hguard as (Hr & Ho & He & Hs & Hc).
  destruct (execute_action_node e2 w1) as [w2 r2] eqn:Hrun.
  cbn [fst snd] in *. subst r2.
  destruct (graph_step_failed e2 w1 w2 Hrun Ho) as [Hnode _].
  rewrite Hnode, Hc, Hcount, Hs, Hstep. repeat split; assumption.
Qed.

(** ** More on the router *)

Lemma router_retry_failed (w : World) :
  snd (validator_and_router_node w) = Returned Retry ->
  last_action_outcome (state w) = "FAILED".
Proof.
  rewrite validator_and_router_node_refines.
  unfold spec_router_decision, and_then.
  cbn [router_inputs_of in_outcome in_retry_count in_results_size
       in_target_count in_action_type in_step in_plan_length in_max_steps].
  destruct (String.eqb_spec (last_action_outcome (state w)) "FAILED")
    as [Hfailed|Hok]; [intros _; exact Hfailed|].
  intros Hretry. exfalso.
  repeat match type of Hretry with
         | context [match ?x with _ => _ end] => destruct x
         end; discriminate.
Qed.

Lemma router_continue_within (w : World) :
  snd (validator_and_router_node w) = Returned Continue ->
  step (state w) <= max_steps (state w).
Proof.
  rewrite validator_and_router_node_refines.
  unfold spec_router_decision, and_then.
  cbn [router_inputs_of in_outcome in_retry_count in_results_size
       in_target_count in_action_type in_step in_plan_length in_max_steps].
  destruct (Z.leb_spec (step (state w)) (max_steps (state w))) as [Hle|Hgt];
    [intros _; exact Hle|].
  apply Z.ltb_lt in Hgt. rewrite Hgt.
  intros Hcontinue. exfalso.
  repeat match type of Hcontinue with
         | context [match ?x with _ => _ end] => destruct x
         end; discriminate.
Qed.

(** X17: what each answer of the router means.  It answers retry exactly
    on a FAILED outcome with fewer than two retries used; and when it
    answers continue, the outcome is not FAILED, fewer items than the target
    are collected, the last action is not a finish, and [step] is neither
    beyond the plan nor beyond [max_steps]. *)
Theorem validator_and_router_node_answers (w : World) :
  let s := state w in
  (snd (validator_and_router_node w) = Returned Retry
   <-> last_action_outcome s = "FAILED" /\ retry_count s < 2)
  /\ (snd (validator_and_router_node w) = Returned Continue ->
      last_action_outcome s <> "FAILED"
      /\ exists target_count action_type plan_length,
          py_get_default (plan_details s) "target_count" float_inf
          = Returned target_count
          /\ int_ge (Z.of_nat (List.length (results s))) target_count
             = Returned false
          /\ py_get (last_action s) "type" = Returned action_type
          /\ opt_str_eq action_type "finish" = false
          /\ in_plan_length (router_inputs_of s) = Returned plan_length
          /\ step s <= plan_length
          /\ step s <= max_steps s).
Proof.
  cbn zeta. rewrite validator_and_router_node_refines.
  unfold spec_router_decision, and_then.
  cbn [router_inputs_of in_outcome in_retry_count in_results_size
       in_target_count in_action_type in_step in_plan_length in_max_steps].
  destruct (String.eqb_spec (last_action_outcome (state w)) "FAILED")
    as [Hfailed|Hok].
  - split.
    + destruct (Z.ltb_spec (retry_count (state w)) 2); split;
        try (intros [_ Hlt]; lia); try discriminate; auto.
    + destruct (retry_count (state w) <? 2); discriminate.
  - split.
    + split; [|intros [Hfailed _]; contradiction].
      intros Hretry. exfalso.
      repeat match type of Hretry with
             | context [match ?x with _ => _ end] => destruct x
             end; discriminate.
    + destruct (py_get_default (plan_details (state w)) "target_count" float_inf)
        as [target_count|x] eqn:Htarget; [|discriminate].
      destruct (int_ge (Z.of_nat (List.length (results (state w)))) target_count)
        as [[|]|x] eqn:Hshort; try discriminate.
      destruct (py_get (last_action (state w)) "type") as [action_type|x]
        eqn:Htype; [|discriminate].
      destruct (opt_str_eq action_type "finish") eqn:Hfinish; [discriminate|].
      destruct (match py_get_default (plan_details (state w)) "plan" (JArr [])
                with
                | Returned plan => py_len plan
                | Raised x => Raised x
                end) as [plan_length|x] eqn:Hlen; [|discriminate].
      destruct (Z.ltb_spec plan_length (step (state w))); [discriminate|].
      destruct (Z.ltb_spec (max_steps (state w)) (step (state w)));
        [discriminate|].
      intros _. split; [exact Hok|].
      exists target_count, action_type, plan_length. repeat split; auto.
Qed.

(** X18: a target count that is not a number ends the job with an
    exception.  When the plan's [target_count] is [null], a string, a list
    or an object, the router raises [TypeError] on every outcome other than
    FAILED, with the message of the comparison of an [int] with a value of
    that type and after having reset [retry_count]; on a FAILED outcome it
    never looks at it. *)
Theorem target_count_not_a_number (w : World) fields target_count :
  plan_details (state w) = JObj fields ->
  assoc "target_count" fields = Some target_count ->
  match target_count with
  | JNull | JStr _ | JArr _ | JObj _ => True
  | _ => False
  end ->
  let not_supported :=
    mk_exn TypeError
      ("'>=' not supported between instances of 'int' and '"
       ++ py_type_name target_count ++ "'") in
  (last_action_outcome (state w) <> "FAILED" ->
   snd (validator_and_router_node w) = Raised not_supported
   /\ retry_count (state (fst (validator_and_router_node w))) = 0
   /\ snd (route w) = Raised not_supported)
  /\ (last_action_outcome (state w) = "FAILED" ->
      snd (validator_and_router_node w)
      = Returned (if retry_count (state w) <? 2 then Retry else End_)).
Proof.
  intros Hdetails Htarget Hkind. cbn zeta. split.
  - intros Hok.
    assert (Hraise : snd (validator_and_router_node w)
                     = Raised (mk_exn TypeError
                                 ("'>=' not supported between instances of 'int' and '"
                                  ++ py_type_name target_count ++ "'"))).
    { rewrite validator_and_router_node_refines.
      unfold spec_router_decision, and_then.
      cbn [router_inputs_of in_outcome in_results_size in_target_count].
      apply String.eqb_neq in Hok. rewrite Hok, Hdetails.
      unfold py_get_default, py_get. rewrite Htarget.
      destruct target_count; try contradiction; reflexivity. }
    split; [exact Hraise|]. split.
    + rewrite validator_and_router_node_retry_count.
      apply String.eqb_neq in Hok. rewrite Hok. reflexivity.
    + destruct (route_decision w) as [Hd _]. rewrite Hd. exact Hraise.
  - intros Hfailed. rewrite (router_failed w Hfailed).
    destruct (retry_count (state w) <? 2); reflexivity.
Qed.

(** ** What holds over a whole job *)

Lemma identity_kept_refl s : identity_kept s s.
Proof. unfold identity_kept. repeat split; reflexivity. Qed.

Lemma identity_kept_trans a b c :
  identity_kept a b -> identity_kept b c -> identity_kept a c.
Proof.
  unfold identity_kept.
  intros (H1 & H2 & H3 & H4 & H5 & H6) (K1 & K2 & K3 & K4 & K5 & K6).
  repeat split; congruence.
Qed.

Ltac identity_frame :=
  frame identity_kept_refl identity_kept_trans;
  unfold identity_kept; cbn; repeat split; reflexivity.

Lemma planning_node_identity e : keeps identity_kept (planning_node e).
Proof. unfold planning_node. identity_frame. Qed.

Lemma agent_reasoning_node_identity e :
  keeps identity_kept (agent_reasoning_node e).
Proof.
  unfold agent_reasoning_node, resolve_current_task, observe_and_decide.
  identity_frame.
Qed.

Lemma execute_action_node_identity e :
  keeps identity_kept (execute_action_node e).
Proof.
  unfold execute_action_node, classify_action, perform_action, record_outcome.
  identity_frame.
Qed.

Lemma researcher_node_identity e : keeps identity_kept (researcher_node e).
Proof. unfold researcher_node, research. identity_frame. Qed.

Lemma plan_updater_node_identity e : keeps identity_kept (plan_updater_node e).
Proof. unfold plan_updater_node. identity_frame. Qed.

Lemma route_identity w : identity_kept (state w) (state (fst (route w))).
Proof.
  unfold route.
  pose proof (validator_and_router_node_touches w) as Htouch.
  cbn zeta in Htouch.
  destruct (validator_and_router_node w) as [w' d]. cbn [fst snd] in *.
  destruct branch_shares_state; cbn [fst state]; rewrite Htouch;
    unfold identity_kept; cbn; repeat split; reflexivity.
Qed.

Lemma graph_step_identity e c :
  identity_kept (state (snd c)) (state (snd (graph_step e c))).
Proof.
  destruct c as [n w]. cbn [snd].
  destruct n; cbn [graph_step]; cbn [snd];
    try apply identity_kept_refl; try rewrite after_world.
  - apply planning_node_identity.
  - apply agent_reasoning_node_identity.
  - pose proof (execute_action_node_identity e w) as Hexec.
    destruct (execute_action_node e w) as [w1 [u|x]]; cbn [fst snd] in *;
      [|exact Hexec].
    pose proof (route_identity w1) as Hroute.
    destruct (route w1) as [w2 [d|x]]; cbn [fst snd] in *;
      eapply identity_kept_trans; eassumption.
  - apply researcher_node_identity.
  - apply plan_updater_node_identity.
Qed.

Lemma phases_identity (envs : nat -> Env) (s0 : AgentState) (n : nat) :
  identity_kept s0 (state (snd (phases envs (start s0) n))).
Proof.
  induction n as [|n IH]; cbn [phases].
  - apply identity_kept_refl.
  - eapply identity_kept_trans; [exact IH | apply graph_step_identity].
Qed.

(** X19: what is set when the job is made stays.  After any number of
    phases, whatever the outside answers, [job_id], [query], [provider],
    [max_steps], the artifacts directory and the generated credentials are
    those of the state the job started with. *)
Theorem job_identity_kept (envs : nat -> Env) (s0 : AgentState) (n : nat) :
  let s := state (snd (phases envs (start s0) n)) in
  job_id s = job_id s0
  /\ query s = query s0
  /\ provider s = provider s0
  /\ max_steps s = max_steps s0
  /\ job_artifacts_dir s = job_artifacts_dir s0
  /\ generated_credentials s = generated_credentials s0.
Proof.
  cbn zeta. exact (phases_identity envs s0 n).
Qed.

Lemma graph_step_under_ceiling e c :
  under_ceiling c -> under_ceiling (graph_step e c).
Proof.
  destruct c as [n w]. unfold under_ceiling. cbn [fst snd].
  intros [Hmax Hrun].
  assert (Hquiet : forall next r,
             quiet (state w) (state (fst r)) ->
             is_running n = true ->
             step (state (snd (after next r)))
             <= max_steps (state (snd (after next r))) + 1
             /\ (is_running (fst (after next r)) = true ->
                 step (state (snd (after next r)))
                 <= max_steps (state (snd (after next r))))).
  { intros next r (_ & _ & Hs & Hm & _) Hn. rewrite after_world.
    rewrite Hs, Hm. specialize (Hrun Hn). split; [lia | intros _; exact Hrun]. }
  destruct n; cbn [graph_step]; try (split; assumption).
  - apply Hquiet; [apply planning_node_quiet | reflexivity].
  - apply Hquiet; [apply agent_reasoning_node_quiet | reflexivity].
  - specialize (Hrun eq_refl).
    pose proof (execute_action_node_spec e w) as Hexec. cbn zeta in Hexec.
    destruct (execute_action_node e w) as [w1 [u|x]]; cbn [fst snd].
    + destruct Hexec as (outcome & msg & Hshape & Ho & _ & Hs & _ & _ & _ & Hm
                         & _).
      pose proof (route_spec w1) as Hroute. cbn zeta in Hroute.
      destruct Hroute as (Rs & Rm & _).
      destruct (route_decision w1) as [Hdecision _].
      destruct (route w1) as [w2 [d|x]]; cbn [fst snd] in *;
        rewrite Rs, Rm, Hs, Hm.
      * destruct Hshape as [[Hsuccess _] | Hfailed]; subst outcome;
          cbn [String.eqb Ascii.eqb Bool.eqb].
        -- split; [lia|]. destruct d; cbn; try discriminate.
           ++ intros _. symmetry in Hdecision.
              apply router_continue_within in Hdecision.
              rewrite Hs, Hm in Hdecision. exact Hdecision.
           ++ intros _. symmetry in Hdecision.
              apply router_retry_failed in Hdecision.
              rewrite Ho in Hdecision. discriminate.
        -- split; [lia | intros _; exact Hrun].
      * split; [|discriminate].
        destruct (String.eqb outcome "Success"); lia.
    + destruct Hexec as [Hsame _]. rewrite Hsame. cbn.
      split; [lia | discriminate].
  - apply Hquiet; [apply researcher_node_quiet | reflexivity].
  - apply Hquiet; [apply plan_updater_node_quiet | reflexivity].
Qed.

(** X20: [max_steps] is a ceiling for [step].  In a job that starts with
    [step] not beyond [max_steps], [step] is never more than one beyond
    [max_steps], and it is not beyond [max_steps] in any phase that still
    runs: the Reasoner and the Executor never work on a step past the
    ceiling. *)
Theorem step_under_ceiling (envs : nat -> Env) (s0 : AgentState) (n : nat) :
  step s0 <= max_steps s0 ->
  let c := phases envs (start s0) n in
  step (state (snd c)) <= max_steps s0 + 1
  /\ (is_running (fst c) = true -> step (state (snd c)) <= max_steps s0).
Proof.
  intros Hstart. cbn zeta.
  assert (Hceiling : under_ceiling (phases envs (start s0) n)).
  { induction n as [|n IH]; cbn [phases].
    - unfold under_ceiling. cbn. split; [lia | intros _; exact Hstart].
    - apply graph_step_under_ceiling. exact IH. }
  destruct (phases_identity envs s0 n) as (_ & _ & _ & Hmax & _).
  unfold under_ceiling in Hceiling. cbn zeta in Hceiling.
  rewrite Hmax in Hceiling. exact Hceiling.
Qed.

(** ** The job as [main.py] runs it *)

Lemma invoke_from_final limit envs :
  forall n c, is_final (invoke_from limit envs n c) = true.
Proof.
  induction limit as [|limit IH]; intros n c; cbn [invoke_from];
    destruct (is_final c) eqn:Hfinal; auto.
Qed.

Lemma invoke_ends envs s :
  let c := invoke envs s in
  fst c = Finished \/ exists x, fst c = Crashed x.
Proof.
  cbn zeta. pose proof (invoke_from_final recursion_limit envs 0 (start s))
    as Hfinal.
  fold (invoke envs s) in Hfinal. unfold is_final in Hfinal.
  destruct (fst (invoke envs s)); try discriminate; eauto.
Qed.

(** X21: what a job reports.  The first event of a job is [job_initiated]
    and the last is [job_done] or [job_failed], the latter exactly when the
    record has an error.  Without an error the graph has finished and the
    record carries the results, the screenshots and the narrative of its
    last state.  With an error, the launch, the making of the directory or
    a phase of the graph has raised or the recursion limit was hit, and
    whatever the job had collected is dropped: the record has no result, no
    screenshot and the narrative [Job did not complete.], and [job_failed]
    is pushed twice, first with the message and the trace. *)
Theorem run_job_outcome job query_text llm_provider artifacts stealth_enabled
        setup mkdir envs :
  let r := run_job job query_text llm_provider artifacts stealth_enabled
             setup mkdir envs in
  let record := fst r in
  rd_job_id record = job
  /\ (exists pushed,
         snd r
         = (mk_event job "job_initiated" None
              :: pushed
              ++ [mk_event job
                    (match rd_error record with
                     | Some _ => "job_failed"
                     | None => "job_done"
                     end) None])%list)
  /\ (rd_error record = None ->
      exists start_url w,
        setup = Returned start_url
        /\ mkdir = None
        /\ invoke envs
             (initial_state job query_text start_url llm_provider artifacts)
           = (Finished, w)
        /\ rd_results record = results (state w)
        /\ rd_screenshots record = screenshots (state w)
        /\ rd_execution_summary record = execution_summary (state w))
  /\ (forall message,
         rd_error record = Some message ->
         rd_results record = []
         /\ rd_screenshots record = []
         /\ rd_execution_summary record = ["Job did not complete."]
         /\ exists x,
             message = "An unexpected error occurred: " ++ exn_text x
             /\ (setup = Raised x
                 \/ mkdir = Some x
                 \/ exists start_url,
                     setup = Returned start_url
                     /\ fst (invoke envs
                               (initial_state job query_text start_url
                                  llm_provider artifacts))
                        = Crashed x)
             /\ exists before,
                 snd r
                 = (before
                      ++ [mk_event job "job_failed"
                            (Some (JObj [("error", JStr message);
                                         ("trace", JStr (format_exc x))]));
                          mk_event job "job_failed" None])%list).
Proof.
  cbn zeta. unfold run_job.
  destruct setup as [start_url|x]; [destruct mkdir as [x|]|].
  - cbn. split; [reflexivity|].
    split; [eexists [_; _]; reflexivity|].
    split; [discriminate|].
    intros message Hmessage. inversion Hmessage; subst message.
    repeat split; try reflexivity.
    exists x. split; [reflexivity|]. split; [right; left; reflexivity|].
    eexists [_; _]. reflexivity.
  - destruct (invoke_ends envs
                (initial_state job query_text start_url llm_provider artifacts))
      as [Hfinished | [x Hcrashed]].
    + destruct (invoke envs
                  (initial_state job query_text start_url llm_provider
                     artifacts)) as [n w] eqn:Hinvoke.
      cbn [fst] in Hfinished. subst n. cbn -[invoke].
      split; [reflexivity|]. split; [eexists (_ :: _)%list; reflexivity|].
      split; [|discriminate].
      intros _. exists start_url, w. repeat split; try reflexivity.
      exact Hinvoke.
    + destruct (invoke envs
                  (initial_state job query_text start_url llm_provider
                     artifacts)) as [n w] eqn:Hinvoke.
      cbn [fst] in Hcrashed. subst n. cbn -[invoke].
      split; [reflexivity|].
      split.
      { eexists (_ :: (_ ++ [_]))%list. cbn. rewrite <- app_assoc.
        reflexivity. }
      split; [discriminate|].
      intros message Hmessage. inversion Hmessage; subst message.
      repeat split; try reflexivity.
      exists x. split; [reflexivity|]. split.
      * right. right. exists start_url. rewrite Hinvoke. split; reflexivity.
      * eexists (_ :: _ :: _)%list. cbn. reflexivity.
  - cbn. split; [reflexivity|].
    split; [eexists [_]; reflexivity|].
    split; [discriminate|].
    intros message Hmessage. inversion Hmessage; subst message.
    repeat split; try reflexivity.
    exists x. split; [reflexivity|]. split; [left; reflexivity|].
    exists [mk_event job "job_initiated" None]. reflexivity.
Qed.

Lemma planning_node_raises e w x :
  decoded_response e = Raised x ->
  planning_node e w
  = (mk_world (set_url (page_url e) (state w))
       (if push_status_update
        then (events w ++ [mk_event (job_id (state w)) "planning_started" None])
        else events w)%list,
     Raised x).
Proof.
  intros Hraised. unfold planning_node. run_monad. unfold push_status.
  destruct push_status_update; run_monad; rewrite Hraised; reflexivity.
Qed.

(** X22: a job without a plan is a failed job.  When the reasoning call of
    the Planner raises, or its answer has no opening brace, the exception
    leaves the graph in its first phase and the job ends with
    [job_initiated], [job_started], [planning_started] when status updates
    are on, and the two [job_failed] events; the record has the message of
    the exception and nothing else. *)
Theorem job_without_plan_fails job query_text llm_provider artifacts
        stealth_enabled start_url envs x :
  decoded_response (envs 0%nat) = Raised x ->
  run_job job query_text llm_provider artifacts stealth_enabled
    (Returned start_url) None envs
  = ({| rd_job_id := job;
        rd_results := [];
        rd_screenshots := [];
        rd_execution_summary := ["Job did not complete."];
        rd_error := Some ("An unexpected error occurred: " ++ exn_text x) |},
     ([mk_event job "job_initiated" None;
       mk_event job "job_started"
         (Some (JObj [("provider", JStr llm_provider);
                      ("query", JStr query_text);
                      ("stealth", JBool stealth_enabled)]))]
      ++ (if push_status_update
          then [mk_event job "planning_started" None] else [])
      ++ [mk_event job "job_failed"
            (Some (JObj [("error", JStr ("An unexpected error occurred: "
                                         ++ exn_text x)%string);
                         ("trace", JStr (format_exc x))]));
          mk_event job "job_failed" None])%list).
Proof.
  intros Hraised.
  set (s0 := initial_state job query_text start_url llm_provider artifacts).
  assert (Hinvoke : invoke envs s0
                    = (Crashed x,
                       mk_world (set_url (page_url (envs 0%nat)) s0)
                         (if push_status_update
                          then [mk_event job "planning_started" None]
                          else []))).
  { unfold invoke.
    change (invoke_from recursion_limit envs 0 (start s0))
      with (invoke_from recursion_limit envs 0 (phases envs (start s0) 0)).
    rewrite (invoke_from_phases envs (start s0) 1 0 recursion_limit).
    - cbn [Nat.add phases start graph_step].
      rewrite (planning_node_raises _ _ x Hraised). cbn [after state events].
      destruct push_status_update; reflexivity.
    - unfold recursion_limit. lia.
    - intros j Hj. replace j with 0%nat by lia. reflexivity.
    - cbn [Nat.add phases start graph_step].
      rewrite (planning_node_raises _ _ x Hraised). reflexivity. }
  unfold run_job. fold s0. rewrite Hinvoke. cbn [fst snd events state].
  destruct push_status_update; reflexivity.
Qed.

(** ** Three failures in a row *)

(** An Executor pass that records FAILED and does not raise. *)
Lemma failed_pass e w :
  let c := graph_step e (Executor, w) in
  (forall x, fst c <> Crashed x) ->
  last_action_outcome (state (snd c)) = "FAILED" ->
  fst c = (if retry_count (state w) <? 2 then Researcher else Finished)
  /\ retry_count (state (snd c))
     = (if branch_shares_state
        then (if retry_count (state w) <? 2 then retry_count (state w) + 1
              else retry_count (state w))
        else retry_count (state w))
  /\ step (state (snd c)) = step (state w)
  /\ (2 <= retry_count (state w) ->
      exists entries,
        execution_summary (state (snd c)) = (entries ++ [halt_entry])%list).
Proof.
  cbn zeta. intros Hruns Hfailed.
  pose proof (execute_action_node_spec e w) as Hexec. cbn zeta in Hexec.
  cbn [graph_step] in *.
  destruct (execute_action_node e w) as [w1 [[]|x]] eqn:Hrun;
    [|exfalso; apply (Hruns x); reflexivity].
  destruct Hexec as (outcome & msg & _ & Ho & _ & Hs & _ & _ & Hcount & _).
  assert (Hfailed1 : last_action_outcome (state w1) = "FAILED").
  { pose proof (route_spec w1) as Hroute. cbn zeta in Hroute.
    destruct Hroute as (_ & _ & _ & Ro & _).
    destruct (route w1) as [w2 [d|x]]; cbn [fst snd] in *; congruence. }
  rewrite Hfailed1 in Ho. subst outcome.
  cbn [String.eqb Ascii.eqb Bool.eqb] in Hs.
  unfold route in *. rewrite (router_failed w1 Hfailed1) in *.
  rewrite Hcount in *.
  destruct (retry_count (state w) <? 2) eqn:Hlt;
    destruct branch_shares_state;
    cbn -[Z.add Z.ltb Z.le halt_entry];
    (split; [reflexivity|]);
    (split; [first [reflexivity | exact Hcount]|]);
    (split; [exact Hs|]);
    first [ intros Hge; apply Z.ltb_lt in Hlt; lia
          | intros _; eexists; reflexivity ].
Qed.

Lemma failed_phase envs c0 k w :
  phases envs c0 k = (Executor, w) ->
  (forall x, fst (phases envs c0 (S k)) <> Crashed x) ->
  last_action_outcome (state (snd (phases envs c0 (S k)))) = "FAILED" ->
  exists w',
    phases envs c0 (S k)
    = (if retry_count (state w) <? 2 then Researcher else Finished, w')
    /\ retry_count (state w')
       = (if branch_shares_state
          then (if retry_count (state w) <? 2 then retry_count (state w) + 1
                else retry_count (state w))
          else retry_count (state w))
    /\ step (state w') = step (state w)
    /\ (2 <= retry_count (state w) ->
        exists entries,
          execution_summary (state w') = (entries ++ [halt_entry])%list).
Proof.
  intros Hk Hruns Hfailed. cbn [phases] in *. rewrite Hk in *.
  destruct (failed_pass (envs k) w Hruns Hfailed)
    as (Hnode & Hcount & Hstep & Hhalt).
  destruct (graph_step (envs k) (Executor, w)) as [n' w'].
  cbn [fst snd] in *. subst n'. exists w'. repeat split; assumption.
Qed.

(** When the router's assignment does not reach the graph's state, no
    phase changes [retry_count]. *)
Lemma graph_step_retry_count_lost e c :
  branch_shares_state = false ->
  retry_count (state (snd (graph_step e c))) = retry_count (state (snd c)).
Proof.
  intros Hlost. destruct c as [n w]. cbn [snd].
  assert (Hquiet : forall next r,
             quiet (state w) (state (fst r)) ->
             retry_count (state (snd (after next r))) = retry_count (state w)).
  { intros next r (_ & Hcount & _). rewrite after_world. exact Hcount. }
  destruct n; cbn [graph_step]; try reflexivity.
  - apply Hquiet. apply planning_node_quiet.
  - apply Hquiet. apply agent_reasoning_node_quiet.
  - pose proof (execute_action_node_spec e w) as Hexec. cbn zeta in Hexec.
    destruct (execute_action_node e w) as [w1 [u|x]]; cbn [snd].
    + destruct Hexec as (outcome & msg & _ & _ & _ & _ & _ & _ & Hcount & _).
      pose proof (route_spec w1) as Hroute. cbn zeta in Hroute.
      destruct Hroute as (_ & _ & _ & _ & _ & _ & _ & _ & _ & Rcount).
      rewrite Hlost in Rcount.
      destruct (route w1) as [w2 [d|x]]; cbn [fst snd] in *; congruence.
    + destruct Hexec as [Hsame _]. rewrite Hsame. reflexivity.
  - apply Hquiet. apply researcher_node_quiet.
  - apply Hquiet. apply plan_updater_node_quiet.
Qed.

(** A pass of the Researcher, the PlanUpdater or the Reasoner that does not
    raise. *)
Lemma quiet_pass e n w :
  n = Researcher \/ n = PlanUpdater \/ n = Reasoner ->
  let c := graph_step e (n, w) in
  (forall x, fst c <> Crashed x) ->
  fst c = match n with
          | Researcher => PlanUpdater
          | PlanUpdater => Reasoner
          | _ => Executor
          end
  /\ quiet (state w) (state (snd c)).
Proof.
  cbn zeta. intros [Hn|[Hn|Hn]] Hruns; subst n; cbn [graph_step] in *;
    apply after_not_crashed in Hruns; destruct Hruns as [Hafter _];
      rewrite Hafter; cbn [fst snd]; split; try reflexivity.
  - apply researcher_node_quiet.
  - apply plan_updater_node_quiet.
  - apply agent_reasoning_node_quiet.
Qed.

(** From the Researcher back to the Executor. *)
Lemma recovery_passes envs c0 k w :
  phases envs c0 k = (Researcher, w) ->
  (forall j x, (k < j <= k + 3)%nat -> fst (phases envs c0 j) <> Crashed x) ->
  exists w',
    phases envs c0 (k + 3) = (Executor, w')
    /\ retry_count (state w') = retry_count (state w)
    /\ step (state w') = step (state w)
    /\ extends (execution_summary (state w)) (execution_summary (state w')).
Proof.
  intros Hk Hruns.
  assert (H1 := fun x => Hruns (S k) x ltac:(lia)).
  assert (H2 := fun x => Hruns (S (S k)) x ltac:(lia)).
  assert (H3 := fun x => Hruns (S (S (S k))) x ltac:(lia)).
  replace (k + 3)%nat with (S (S (S k))) by lia.
  cbn [phases] in *. rewrite Hk in *.
  destruct (quiet_pass (envs k) Researcher w (or_introl eq_refl) H1)
    as [N1 Q1].
  destruct (graph_step (envs k) (Researcher, w)) as [n1 w1].
  cbn [fst snd] in N1, Q1. subst n1.
  destruct (quiet_pass (envs (S k)) PlanUpdater w1
              (or_intror (or_introl eq_refl)) H2) as [N2 Q2].
  destruct (graph_step (envs (S k)) (PlanUpdater, w1)) as [n2 w2].
  cbn [fst snd] in N2, Q2. subst n2.
  destruct (quiet_pass (envs (S (S k))) Reasoner w2
              (or_intror (or_intror eq_refl)) H3) as [N3 Q3].
  destruct (graph_step (envs (S (S k))) (Reasoner, w2)) as [n3 w3].
  cbn [fst snd] in N3, Q3. subst n3.
  exists w3. split; [reflexivity|].
  pose proof (quiet_trans _ _ _ (quiet_trans _ _ _ Q1 Q2) Q3)
    as (_ & Hcount & Hstep & _ & _ & _ & Hsummary).
  repeat split; assumption.
Qed.

(** X23: three failures in a row.  An Executor pass that starts with no
    retry used and records FAILED is followed by the Researcher.  What
    comes after depends on whether the retry count the router assigns
    reaches the graph's state.  When it does not, [retry_count] is 0 in
    every phase and every later Executor pass that records FAILED without
    raising is followed by the Researcher again: the job never halts
    through its retries.  When it does, two more rounds of Researcher,
    PlanUpdater, Reasoner and Executor that record FAILED, none of them
    raising, end the job in its ninth phase with [retry_count] at 2, [step]
    where it was and the halt entry last in the narrative. *)
Theorem three_failures_in_a_row (envs : nat -> Env) (w : World) :
  retry_count (state w) = 0 ->
  (branch_shares_state = false ->
   forall k,
     retry_count (state (snd (phases envs (Executor, w) k))) = 0
     /\ (fst (phases envs (Executor, w) k) = Executor ->
         (forall x, fst (phases envs (Executor, w) (S k)) <> Crashed x) ->
         last_action_outcome (state (snd (phases envs (Executor, w) (S k))))
         = "FAILED" ->
         fst (phases envs (Executor, w) (S k)) = Researcher))
  /\ (branch_shares_state = true ->
      (forall k x, (k <= 9)%nat ->
                   fst (phases envs (Executor, w) k) <> Crashed x) ->
      (forall k, (k = 1 \/ k = 5 \/ k = 9)%nat ->
                 last_action_outcome (state (snd (phases envs (Executor, w) k)))
                 = "FAILED") ->
      fst (phases envs (Executor, w) 1) = Researcher
      /\ fst (phases envs (Executor, w) 5) = Researcher
      /\ fst (phases envs (Executor, w) 9) = Finished
      /\ retry_count (state (snd (phases envs (Executor, w) 9))) = 2
      /\ step (state (snd (phases envs (Executor, w) 9))) = step (state w)
      /\ exists entries,
          execution_summary (state (snd (phases envs (Executor, w) 9)))
          = (entries ++ [halt_entry])%list).
Proof.
  intros Hzero. split.
  - intros Hlost k.
    assert (Hcount : forall j,
               retry_count (state (snd (phases envs (Executor, w) j))) = 0).
    { induction j as [|j IH]; cbn [phases]; [exact Hzero|].
      rewrite (graph_step_retry_count_lost _ _ Hlost). exact IH. }
    split; [apply Hcount|].
    intros Hnode Hruns Hfailed.
    destruct (phases envs (Executor, w) k) as [n wk] eqn:Hk.
    cbn [fst] in Hnode. subst n.
    destruct (failed_phase envs (Executor, w) k wk Hk Hruns Hfailed)
      as (w' & Hnext & _).
    rewrite Hnext. cbn [fst].
    specialize (Hcount k). rewrite Hk in Hcount. cbn [snd] in Hcount.
    rewrite Hcount. reflexivity.
  - intros Hshared Hruns Hfailed.
    (* the first failure *)
    destruct (failed_phase envs (Executor, w) 0 w eq_refl
                (fun x => Hruns 1%nat x ltac:(lia))
                (Hfailed 1%nat (or_introl eq_refl)))
      as (w1 & E1 & C1 & S1 & _).
    rewrite Hshared, Hzero in C1. rewrite Hzero in E1.
    change (0 <? 2) with true in E1, C1. cbv iota in E1, C1.
    destruct (recovery_passes envs (Executor, w) 1 w1 E1)
      as (w4 & E4 & C4 & S4 & _).
    { intros j x Hj. apply Hruns. lia. }
    change (1 + 3)%nat with 4%nat in E4.
    (* the second *)
    destruct (failed_phase envs (Executor, w) 4 w4 E4
                (fun x => Hruns 5%nat x ltac:(lia))
                (Hfailed 5%nat (or_intror (or_introl eq_refl))))
      as (w5 & E5 & C5 & S5 & _).
    rewrite Hshared in C5. rewrite C4, C1 in E5, C5.
    change (0 + 1 <? 2) with true in E5, C5. cbv iota in E5, C5.
    destruct (recovery_passes envs (Executor, w) 5 w5 E5)
      as (w8 & E8 & C8 & S8 & _).
    { intros j x Hj. apply Hruns. lia. }
    change (5 + 3)%nat with 8%nat in E8.
    (* the third *)
    destruct (failed_phase envs (Executor, w) 8 w8 E8
                (fun x => Hruns 9%nat x ltac:(lia))
                (Hfailed 9%nat (or_intror (or_intror eq_refl))))
      as (w9 & E9 & C9 & S9 & H9).
    rewrite Hshared in C9. rewrite C8, C5 in E9, C9, H9.
    change (0 + 1 + 1 <? 2) with false in E9, C9. cbv iota in E9, C9.
    rewrite E1, E5, E9. cbn [fst snd].
    split; [reflexivity|]. split; [reflexivity|]. split; [reflexivity|].
    split; [rewrite C9; reflexivity|]. split; [congruence|].
    apply H9. lia.
Qed.

(** ** The status log *)

Lemma pushed_refl j w : job_id (state w) = j -> pushed j w w.
Proof.
  intros Hj. split; [exact Hj|]. exists []. rewrite app_nil_r.
  split; [reflexivity|]. split; [constructor | intros _; reflexivity].
Qed.

Lemma pushed_trans j a b c : pushed j a b -> pushed j b c -> pushed j a c.
Proof.
  intros (_ & t & Ht & Tt & Nt) (Hj & u & Hu & Tu & Nu).
  split; [exact Hj|]. exists (t ++ u)%list.
  split; [rewrite Hu, Ht; symmetry; apply app_assoc|].
  split; [apply Forall_app; split; assumption|].
  intros Hoff. rewrite (Nt Hoff), (Nu Hoff). reflexivity.
Qed.

Lemma logs_ret j {A} (a : A) : logs j (ret a).
Proof. intros w Hj. apply pushed_refl. exact Hj. Qed.

Lemma logs_lift j {A} (r : result A) : logs j (lift r).
Proof. intros w Hj. apply pushed_refl. exact Hj. Qed.

Lemma logs_call j (r : option exn) : logs j (call r).
Proof. intros w Hj. apply pushed_refl. exact Hj. Qed.

Lemma logs_modify j (f : AgentState -> AgentState) :
  (forall s, job_id (f s) = job_id s) -> logs j (modify f).
Proof.
  intros Hf w Hj. unfold modify. cbn [fst].
  split; [cbn [state]; rewrite Hf; exact Hj|].
  exists []. cbn [events]. rewrite app_nil_r.
  split; [reflexivity|]. split; [constructor | intros _; reflexivity].
Qed.

Lemma logs_push_status j msg details : logs j (push_status j msg details).
Proof.
  intros w Hj. unfold push_status.
  destruct push_status_update eqn:Hon; cbn [fst].
  - split; [exact Hj|]. exists [mk_event j msg details].
    split; [reflexivity|]. split; [|intros Hoff; congruence].
    constructor; [reflexivity | constructor].
  - apply pushed_refl. exact Hj.
Qed.

Lemma logs_bind j {A B} (m : M A) (k : A -> M B) :
  logs j m -> (forall a, logs j (k a)) -> logs j (bind m k).
Proof.
  intros Hm Hk w Hj. unfold bind. specialize (Hm w Hj).
  destruct (m w) as [w' [a|x]]; cbn [fst] in *.
  - eapply pushed_trans; [exact Hm|]. apply Hk. apply Hm.
  - exact Hm.
Qed.

Lemma logs_bind_get j {B} (k : AgentState -> M B) :
  (forall s, job_id s = j -> logs j (k s)) -> logs j (bind get k).
Proof. intros Hk w Hj. unfold bind, get. apply (Hk (state w) Hj w Hj). Qed.

Lemma logs_try_except j {A} (body : M A) (handler : exn -> M A) :
  logs j body -> (forall x, logs j (handler x)) ->
  logs j (try_except body handler).
Proof.
  intros Hb Hh w Hj. unfold try_except. specialize (Hb w Hj).
  destruct (body w) as [w' [a|x]]; cbn [fst] in *.
  - exact Hb.
  - eapply pushed_trans; [exact Hb|]. apply Hh. apply Hb.
Qed.

Lemma logs_when j (b : bool) (m : M unit) : logs j m -> logs j (when b m).
Proof. intros Hm. destruct b; [exact Hm | apply logs_ret]. Qed.

(** Walks down a phase, leaving one goal per assignment to the state. *)
Ltac log_frame :=
  repeat
    match goal with
    | |- logs _ (bind get _) => apply logs_bind_get; intros ? ?
    | |- logs _ (bind _ _) => apply logs_bind; [|intros ?]
    | |- logs _ (ret _) => apply logs_ret
    | |- logs _ (lift _) => apply logs_lift
    | |- logs _ (call _) => apply logs_call
    | H : job_id ?s = ?j |- logs ?j (push_status (job_id ?s) _ _) =>
        rewrite H; apply logs_push_status
    | |- logs ?j (push_status ?j _ _) => apply logs_push_status
    | |- logs _ (when _ _) => apply logs_when
    | |- logs _ (try_except _ _) => apply logs_try_except; [|intros ?]
    | |- logs _ (append_summary _) => unfold append_summary
    | |- logs _ (modify _) => apply logs_modify; intros ?; reflexivity
    | |- logs _ (if ?b then _ else _) => destruct b
    | |- logs _ (match ?x with _ => _ end) => destruct x
    | |- logs _ (let _ := _ in _) => cbv zeta
    end.

Lemma planning_node_logs j e : logs j (planning_node e).
Proof. unfold planning_node. log_frame. Qed.

Lemma agent_reasoning_node_logs j e : logs j (agent_reasoning_node e).
Proof.
  unfold agent_reasoning_node, resolve_current_task, observe_and_decide.
  log_frame.
Qed.

Lemma execute_action_node_logs j e : logs j (execute_action_node e).
Proof.
  unfold execute_action_node, classify_action, perform_action, record_outcome.
  log_frame.
Qed.

Lemma researcher_node_logs j e : logs j (researcher_node e).
Proof. unfold researcher_node, research. log_frame. Qed.

Lemma plan_updater_node_logs j e : logs j (plan_updater_node e).
Proof. unfold plan_updater_node. log_frame. Qed.

Lemma validator_and_router_node_logs j : logs j validator_and_router_node.
Proof. unfold validator_and_router_node, reason. log_frame. Qed.

Lemma route_logs j w : job_id (state w) = j -> pushed j w (fst (route w)).
Proof.
  intros Hj. unfold route.
  pose proof (validator_and_router_node_logs j w Hj) as Hrouter.
  destruct (validator_and_router_node w) as [w' d]. cbn [fst] in *.
  destruct branch_shares_state; [exact Hrouter|].
  destruct Hrouter as (Hj' & t & Ht & Tt & Nt).
  split; [exact Hj'|]. exists t. repeat split; assumption.
Qed.

Lemma graph_step_logs j e c :
  job_id (state (snd c)) = j -> pushed j (snd c) (snd (graph_step e c)).
Proof.
  destruct c as [n w]. cbn [snd]. intros Hj.
  destruct n; cbn [graph_step]; cbn [snd];
    try (apply pushed_refl; exact Hj); try rewrite after_world.
  - apply planning_node_logs. exact Hj.
  - apply agent_reasoning_node_logs. exact Hj.
  - pose proof (execute_action_node_logs j e w Hj) as Hexec.
    destruct (execute_action_node e w) as [w1 [u|x]]; cbn [fst snd] in *;
      [|exact Hexec].
    pose proof (route_logs j w1 (proj1 Hexec)) as Hroute.
    destruct (route w1) as [w2 [d|x]]; cbn [fst snd] in *;
      eapply pushed_trans; eassumption.
  - apply researcher_node_logs. exact Hj.
  - apply plan_updater_node_logs. exact Hj.
Qed.

Lemma phases_logs envs c n :
  pushed (job_id (state (snd c))) (snd c) (snd (phases envs c n)).
Proof.
  induction n as [|n IH]; cbn [phases].
  - apply pushed_refl. reflexivity.
  - eapply pushed_trans; [exact IH|]. apply graph_step_logs. apply IH.
Qed.

(** X24: the status log of a job.  Whatever the outside answers, the
    graph only appends to the events pushed so far, every event it pushes
    carries the [job_id] the job was made with, and when no sink for status
    updates is set it pushes nothing at all. *)
Theorem status_log_append_only (envs : nat -> Env) (s0 : AgentState) (n : nat) :
  let log k := events (snd (phases envs (start s0) k)) in
  extends (log n) (log (S n))
  /\ Forall (fun ev => ev_job ev = job_id s0) (log n)
  /\ (push_status_update = false -> log n = []).
Proof.
  cbn zeta. split; [|split].
  - cbn [phases].
    destruct (phases_logs envs (start s0) n) as [Hj _].
    destruct (graph_step_logs _ (envs n) (phases envs (start s0) n) Hj)
      as (_ & t & Ht & _).
    exists t. exact Ht.
  - destruct (phases_logs envs (start s0) n) as (_ & t & Ht & Tt & _).
    cbn [start snd state events app] in Ht, Tt. rewrite Ht. exact Tt.
  - intros Hoff.
    destruct (phases_logs envs (start s0) n) as (_ & t & Ht & _ & Nt).
    cbn [start snd events app] in Ht. rewrite Ht. apply Nt. exact Hoff.
Qed.

(** ** The plan *)

(** X25: the plan is stored before its steps are read.  The Planner and
    the PlanUpdater put the object the model answered in [plan_details] as
    it is, replacing the old plan altogether.  When its [plan] entry is a
    number, a boolean or [null], listing the steps raises and the phase ends
    the job with the new plan stored and nothing added to the narrative;
    otherwise the phase returns with one entry added, which lists the
    steps. *)
Theorem plan_stored_before_read e w fields :
  decoded_response e = Returned (JObj fields) ->
  let entry key :=
    match assoc key fields with Some v => v | None => JStr "Not specified" end in
  let plan := match assoc "plan" fields with Some p => p | None => JArr [] end in
  let p := planning_node e w in
  let u := plan_updater_node e w in
  plan_details (state (fst p)) = JObj fields
  /\ plan_details (state (fst u)) = JObj fields
  /\ url (state (fst p)) = page_url e
  /\ (forall x, py_iter plan = Raised x ->
                snd p = Raised x
                /\ snd u = Raised x
                /\ execution_summary (state (fst p)) = execution_summary (state w)
                /\ execution_summary (state (fst u)) = execution_summary (state w))
  /\ (forall steps,
         py_iter plan = Returned steps ->
         snd p = Returned tt
         /\ snd u = Returned tt
         /\ execution_summary (state (fst p))
            = (execution_summary (state w)
               ++ [("[Plan Generated]" ++ nl
                    ++ "Objective: " ++ py_str (entry "objective") ++ nl
                    ++ "Intent: " ++ py_str (entry "intent") ++ nl
                    ++ "Plan:" ++ nl ++ plan_lines steps)%string])%list
         /\ execution_summary (state (fst u))
            = (execution_summary (state w)
               ++ [(nl ++ "[Plan Updated after Research]" ++ nl ++ "New Plan:"
                    ++ nl ++ plan_lines steps)%string])%list).
Proof.
  intros Hdecoded. cbn zeta.
  unfold planning_node, plan_updater_node.
  unfold append_summary, bind, get, modify, lift, ret, push_status.
  rewrite Hdecoded. unfold py_get_default, py_get.
  destruct (assoc "objective" fields), (assoc "intent" fields),
    (assoc "plan" fields) as [plan|];
    try destruct (py_iter plan) as [steps|x];
    destruct push_status_update; cbn [fst snd state events py_iter].
  all: split; [reflexivity|]; split; [reflexivity|]; split; [reflexivity|].
  all: split; intros ? Hiter;
    first [discriminate Hiter
          | inversion Hiter; subst; repeat split; reflexivity].
Qed.
End Workflow.

(** ** The theorems at work on sample data *)

(** The plan document of the sample job with a trailing comma and its
    closing brace cut off: the comma goes, the brace is added and the
    decoder reads the plan. *)
Lemma extract_json_from_response_repairs_witness :
  json_candidate "Here is the plan: {plan,}" = "{plan,}"
  /\ json_repaired "{plan,}" = "{plan}"
  /\ extract_json_from_response shop_loads "Here is the plan: {plan,}"
     = Returned (JObj shop_plan_fields)
  /\ extract_json_from_response shop_loads "Here is the plan: {plan"
     = Returned (JObj shop_plan_fields).
Proof.
  destruct (extract_json_from_response_repairs shop_loads
              "Here is the plan: {plan,}")
    as (_ & Hbraced & Hposition & Hrepair & _).
  destruct (Hposition "Here is the plan: " "plan,}" eq_refl eq_refl)
    as (_ & Hlast & _).
  specialize (Hlast "plan," "" eq_refl eq_refl).
  destruct Hbraced as [[v [Hret Hv]] _].
  - reflexivity.
  - intros e He. vm_compute in He. discriminate He.
  - destruct (extract_json_from_response_repairs shop_loads
                "Here is the plan: {plan")
      as (_ & Hopen & _).
    destruct Hopen as [[v' [Hret' Hv']] _].
    + reflexivity.
    + intros e He. vm_compute in He. discriminate He.
    + split; [exact Hlast|]. split; [reflexivity|]. split.
      * rewrite Hret. f_equal. exact Hv.
      * rewrite Hret'. f_equal. exact Hv'.
Defined.

(** A truncated document with two trailing commas. *)
Example json_repaired_sample :
  json_repaired "{a: [1, 2, ], b: {c: 3 , }" = "{a: [1, 2], b: {c: 3 }}".
Proof. reflexivity. Qed.

(** C2 as the specification words it fails on a text without an opening
    brace: the decoder raises instead of giving the default action. *)
Lemma extract_json_from_response_garbage_raises :
  extract_json_from_response reject_all "garbage"
  = Raised (mk_exn ValueError
              "No JSON object found in the model's response: garbage").
Proof. reflexivity. Qed.

(** After the third successful pass of the three-step plan the router ends
    the job with the plan-completed reason. *)
Lemma validator_and_router_node_decision_witness :
  snd (validator_and_router_node brief_repr true third_pass_done) = Returned End_
  /\ events (fst (validator_and_router_node brief_repr true third_pass_done))
     = [mk_event "job-1" "agent_finished"
          (Some (JObj [("reason", JStr "All plan steps completed.")]))].
Proof.
  destruct (validator_and_router_node_decision brief_repr true third_pass_done)
    as (_ & _ & Hok).
  destruct (Hok ltac:(discriminate) float_inf eq_refl) as [_ Hshort].
  destruct (Hshort eq_refl (Some (JStr "fill")) eq_refl) as [_ Hact].
  destruct (Hact eq_refl 3 eq_refl) as [Hdone _].
  apply Hdone. reflexivity.
Defined.

(** An action of type [hover] is recorded as a Success and moves [step]
    from 1 to 2. *)
Lemma execute_action_node_unknown_type_witness :
  let r := execute_action_node brief_dumps brief_repr true
             (answer page_ok "") hovering in
  snd r = Returned tt
  /\ last_action_outcome (state (fst r)) = "Success"
  /\ last_error (state (fst r)) = ""
  /\ step (state (fst r)) = 2.
Proof.
  destruct (execute_action_node_unknown_type brief_dumps brief_repr true
              (answer page_ok "") hovering) as [_ Hunknown].
  exact (Hunknown [("type", JStr "hover"); ("id", JStr "3")] "hover"
           eq_refl eq_refl eq_refl eq_refl).
Defined.

(** Two items are extracted, the settle pause fails: the pass is FAILED and
    the two items are in [results]. *)
Lemma extract_not_atomic_witness :
  let r := execute_action_node brief_dumps brief_repr true
             (answer page_closed "") extracting in
  snd r = Returned tt
  /\ last_action_outcome (state (fst r)) = "FAILED"
  /\ last_error (state (fst r))
     = "Target page, context or browser has been closed"
  /\ step (state (fst r)) = 1
  /\ results (state (fst r))
     = [JObj [("name", JStr "Phone A")]; JObj [("name", JStr "Phone B")]].
Proof.
  exact (extract_not_atomic brief_dumps brief_repr true
           (answer page_closed "") extracting extract_fields
           (JArr [JObj [("name", JStr "Phone A")]; JObj [("name", JStr "Phone B")]])
           [JObj [("name", JStr "Phone A")]; JObj [("name", JStr "Phone B")]]
           (mk_exn OtherException "Target page, context or browser has been closed")
           eq_refl eq_refl eq_refl eq_refl eq_refl ltac:(discriminate)).
Defined.

(** The job on the page where nothing becomes visible: the count is within
    bounds when the job has halted, and the router takes a state that failed
    once to a second retry. *)
Lemma retry_count_bounded_witness :
  (0 <= retry_count
          (state (snd (phases shop_loads brief_dumps brief_repr keep_page true
                         true true stuck_script (start shop_job) 11))) <= 2)
  /\ retry_count
       (state (fst (validator_and_router_node brief_repr true failed_once))) = 2
  /\ snd (validator_and_router_node brief_repr true failed_once) = Returned Retry.
Proof.
  destruct (retry_count_bounded shop_loads brief_dumps brief_repr keep_page
              true true true) as [Hrouter Hjob].
  split.
  - apply Hjob. apply reachable_phases.
  - destruct (Hrouter failed_once) as (Hretry & _).
    apply Hretry; [reflexivity | reflexivity].
Defined.

(** In the job where every action works the history never has more than
    five entries. *)
Lemma history_capped_summary_append_only_witness :
  (List.length
     (history
        (state (snd (phases shop_loads brief_dumps brief_repr keep_page true
                       true true shop_script (start shop_job) 7)))) <= 5)%nat.
Proof.
  destruct (history_capped_summary_append_only shop_loads brief_dumps
              brief_repr keep_page true true true) as (_ & _ & Hjob).
  apply Hjob. apply reachable_phases.
Defined.

(** The sample job with the three-step plan ends after seven phases with
    [step] at 4. *)
Lemma three_step_plan_completes_witness :
  let final := invoke shop_loads brief_dumps brief_repr keep_page true true true
                 shop_script shop_job in
  fst final = Finished
  /\ step (state (snd final)) = 4
  /\ exists evs,
      events (snd final)
      = (evs ++ [mk_event "job-1" "agent_finished"
                   (Some (JObj [("reason", JStr "All plan steps completed.")]))])%list.
Proof.
  cbv zeta.
  destruct (three_step_plan_completes shop_loads brief_dumps brief_repr
              keep_page true true true shop_script
              "job-1" "Find phones" "https://shop.example/" "anthropic"
              "screenshots/job-1" shop_plan_fields
              (JStr "Fill the search bar with 'phones'")
              (JStr "Click the search button")
              (JStr "Extract the top 5 products"))
    as (Hinvoke & Hfinished & Hstep & _ & Hevents & _).
  - vm_compute. reflexivity.
  - reflexivity.
  - reflexivity.
  - intros n e Hn.
    do 8 (destruct n as [|n]; [vm_compute; discriminate|]). lia.
  - intros n Hn Hexec.
    do 7 (destruct n as [|n];
          [first [vm_compute in Hexec; discriminate
                 | split; [vm_compute; reflexivity
                          | intros t Ht; vm_compute in Ht;
                            inversion Ht; reflexivity]]|]).
    lia.
  - fold shop_job in Hinvoke, Hfinished, Hstep, Hevents.
    rewrite Hinvoke. split; [exact Hfinished|]. split; [exact Hstep|].
    exact Hevents.
Defined.

(** ** The further properties at work on sample data *)

(** The comma before the closing brace goes. *)
Lemma strip_trailing_commas_drops_witness :
  strip_trailing_commas "{a: 1, }" = "{a: 1}".
Proof.
  exact (strip_trailing_commas_drops "{a: 1" " " "}" "" eq_refl eq_refl eq_refl).
Defined.

(** With only the groq client the Reasoner's call raises and the Planner's
    call decodes the answer. *)
Lemma get_agent_action_groq_raises_witness :
  get_agent_action shop_loads groq_only groq_job plan_answers
  = Raised (mk_exn ValueError
              "The configured Groq model does not support vision.")
  /\ get_structured_plan shop_loads groq_only "groq" plan_answers
     = Returned (JObj shop_plan_fields).
Proof.
  destruct (get_agent_action_groq_raises shop_loads groq_only groq_job
              plan_answers eq_refl) as (Haction & _ & Hplan).
  split.
  - exact Haction.
  - exact (Hplan eq_refl "{plan}" eq_refl).
Defined.

(** The action [7] makes the Executor raise and the job crash. *)
Lemma execute_action_node_scalar_action_witness :
  snd (execute_action_node brief_dumps brief_repr true (answer page_ok "")
         (acting (JInt 7)))
  = Raised (mk_exn TypeError "argument of type 'int' is not iterable")
  /\ fst (graph_step shop_loads brief_dumps brief_repr keep_page true true true
            (answer page_ok "") (Executor, acting (JInt 7)))
     = Crashed (mk_exn TypeError "argument of type 'int' is not iterable").
Proof.
  destruct (execute_action_node_scalar_action shop_loads brief_dumps brief_repr
              keep_page true true true (answer page_ok "") (acting (JInt 7))
              eq_refl) as (Hrun & _ & Hstep).
  split.
  - rewrite Hrun. reflexivity.
  - exact Hstep.
Defined.

(** A wait on the page whose pause raises without a message. *)
Lemma execute_action_node_empty_message_witness :
  snd (execute_action_node brief_dumps brief_repr true (answer page_mute "")
         (acting (JObj [("type", JStr "wait")])))
  = Raised (mk_exn IndexError "list index out of range").
Proof.
  destruct (execute_action_node_empty_message shop_loads brief_dumps brief_repr
              keep_page true true true (answer page_mute "")
              (acting (JObj [("type", JStr "wait")]))
              [("type", JStr "wait")] (mk_exn OtherException "")
              eq_refl eq_refl eq_refl eq_refl) as (Hrun & _).
  exact Hrun.
Defined.

(** A click without an [id]. *)
Lemma execute_action_node_missing_id_witness :
  let r := execute_action_node brief_dumps brief_repr true (answer page_ok "")
             (acting (JObj [("type", JStr "click")])) in
  snd r = Returned tt
  /\ last_action_outcome (state (fst r)) = "FAILED"
  /\ last_error (state (fst r)) = "'id'"
  /\ step (state (fst r)) = 1
  /\ results (state (fst r)) = [].
Proof.
  exact (execute_action_node_missing_id brief_dumps brief_repr true
           (answer page_ok "") (acting (JObj [("type", JStr "click")]))
           [("type", JStr "click")] "click" eq_refl eq_refl
           (or_introl eq_refl) eq_refl).
Defined.

(** The direction [Down], with a capital, scrolls up. *)
Lemma scroll_direction_witness :
  let r := execute_action_node brief_dumps brief_repr true (answer page_ok "")
             (acting (JObj [("type", JStr "scroll");
                            ("direction", JStr "Down")])) in
  page_do (answer page_ok "")
    (Evaluate "window.scrollBy(0, -window.innerHeight * 0.8)") = None
  /\ snd r = Returned tt
  /\ last_action_outcome (state (fst r)) = "Success"
  /\ step (state (fst r)) = 2.
Proof.
  destruct (scroll_direction brief_dumps brief_repr true (answer page_ok "")
              (acting (JObj [("type", JStr "scroll");
                             ("direction", JStr "Down")]))
              [("type", JStr "scroll"); ("direction", JStr "Down")]
              eq_refl eq_refl) as (_ & _ & Hdone).
  split; [reflexivity|].
  exact (Hdone eq_refl eq_refl eq_refl).
Defined.

(** At step 1 of the sample plan the task is its first entry. *)
Lemma agent_reasoning_node_current_task_witness :
  current_task
    (state (fst (agent_reasoning_node shop_loads brief_repr keep_page true
                   (answer page_ok "{fill}") planned)))
  = JStr "Fill the search bar with 'phones'".
Proof.
  apply (agent_reasoning_node_current_task shop_loads brief_repr keep_page true
           (answer page_ok "{fill}") planned shop_plan_fields
           [JStr "Fill the search bar with 'phones'";
            JStr "Click the search button";
            JStr "Extract the top 5 products"]).
  - reflexivity.
  - reflexivity.
  - vm_compute. discriminate.
  - reflexivity.
Defined.

(** With the decoder that rejects every document the agent waits, and the
    wait counts as a step. *)
Lemma unparsable_answer_waits_witness :
  let r := agent_reasoning_node reject_all brief_repr keep_page true
             (answer page_ok "{oops") planned in
  let r2 := execute_action_node brief_dumps brief_repr true (answer page_ok "")
              (fst r) in
  last_action (state (fst r)) = JObj [("type", JStr "wait")]
  /\ last_action_outcome (state (fst r2)) = "Success"
  /\ step (state (fst r2)) = 2.
Proof.
  destruct (unparsable_answer_waits reject_all brief_dumps brief_repr keep_page
              true (answer page_ok "{oops") planned
              (JArr [JStr "Fill the search bar with 'phones'";
                     JStr "Click the search button";
                     JStr "Extract the top 5 products"])
              3 (JStr "Fill the search bar with 'phones'")
              "<html></html>" "{oops"
              (mk_exn JSONDecodeError "Expecting value: line 1 column 1 (char 0)")
              eq_refl eq_refl eq_refl eq_refl eq_refl (or_intror eq_refl)
              eq_refl eq_refl eq_refl eq_refl)
    as (_ & Haction & Hnext).
  destruct (Hnext (answer page_ok "") eq_refl eq_refl) as (_ & Houtcome & Hstep).
  cbv zeta. split; [exact Haction|]. split; [exact Houtcome | exact Hstep].
Defined.

(** The plan document has no action: the pass after it fails and the
    Researcher is next. *)
Lemma answer_without_action_fails_witness :
  let r := agent_reasoning_node shop_loads brief_repr keep_page true
             (answer page_ok "{plan}") planned in
  last_action (state (fst r)) = JObj []
  /\ last_error
       (state (fst (execute_action_node brief_dumps brief_repr true
                      (answer page_ok "") (fst r))))
     = "Agent produced an invalid or empty action."
  /\ fst (graph_step shop_loads brief_dumps brief_repr keep_page true true true
            (answer page_ok "") (Executor, fst r))
     = Researcher.
Proof.
  destruct (answer_without_action_fails shop_loads brief_dumps brief_repr
              keep_page true true true (answer page_ok "{plan}") planned
              (JArr [JStr "Fill the search bar with 'phones'";
                     JStr "Click the search button";
                     JStr "Extract the top 5 products"])
              3 (JStr "Fill the search bar with 'phones'")
              "<html></html>" shop_plan_fields
              eq_refl eq_refl eq_refl eq_refl eq_refl (or_intror eq_refl)
              eq_refl eq_refl)
    as (_ & Haction & Hnext).
  destruct (Hnext (answer page_ok "")) as (_ & _ & Herror & _ & Hnode).
  cbv zeta. split; [exact Haction|]. split; [exact Herror | exact Hnode].
Defined.

(** The target count ["5"], a string, makes the router raise. *)
Lemma target_count_not_a_number_witness :
  snd (validator_and_router_node brief_repr true counting)
  = Raised (mk_exn TypeError "'>=' not supported between instances of 'int' and 'str'").
Proof.
  destruct (target_count_not_a_number brief_repr true true counting
              [("target_count", JStr "5")] (JStr "5") eq_refl eq_refl I)
    as [Hraises _].
  destruct (Hraises ltac:(discriminate)) as (Hrouter & _).
  exact Hrouter.
Defined.

(** In the sample job [step] never passes 41, and stays within 40 while
    the job runs. *)
Lemma step_under_ceiling_witness :
  let c := phases shop_loads brief_dumps brief_repr keep_page true true true
             shop_script (start shop_job) 7 in
  step (state (snd c)) <= 41
  /\ (is_running (fst c) = true -> step (state (snd c)) <= 40).
Proof.
  apply (step_under_ceiling shop_loads brief_dumps brief_repr keep_page true
           true true shop_script shop_job 7).
  vm_compute. discriminate.
Defined.

(** The job in which the model gives no document. *)
Lemma job_without_plan_fails_witness :
  fst (run_job reject_all brief_dumps brief_repr keep_page true true true
         brief_trace "job-3" "Find phones" "anthropic" "screenshots/job-3"
         false (Returned "https://shop.example/") None mute_script)
  = {| rd_job_id := "job-3";
       rd_results := [];
       rd_screenshots := [];
       rd_execution_summary := ["Job did not complete."];
       rd_error :=
         Some "An unexpected error occurred: No JSON object found in the model's response: no plan today" |}.
Proof.
  rewrite (job_without_plan_fails reject_all brief_dumps brief_repr keep_page
             true true true brief_trace "job-3" "Find phones" "anthropic"
             "screenshots/job-3" false "https://shop.example/" mute_script
             (mk_exn ValueError
                "No JSON object found in the model's response: no plan today")
             eq_refl).
  reflexivity.
Defined.

(** On the page where nothing becomes visible, with the router's count
    lost, the Researcher is next after the third failure as after the
    first, and no retry is counted. *)
Lemma three_failures_in_a_row_witness :
  fst (phases shop_loads brief_dumps brief_repr keep_page true true false
         hidden_script (Executor, acting fill_action) 9) = Researcher
  /\ retry_count
       (state (snd (phases shop_loads brief_dumps brief_repr keep_page true
                      true false hidden_script (Executor, acting fill_action)
                      9)))
     = 0.
Proof.
  destruct (three_failures_in_a_row shop_loads brief_dumps brief_repr
              keep_page true true false hidden_script (acting fill_action)
              eq_refl) as [Hlost _].
  destruct (Hlost eq_refl 8%nat) as [_ Hnext].
  destruct (Hlost eq_refl 9%nat) as [Hcount _].
  split; [|exact Hcount].
  apply Hnext.
  - vm_compute. reflexivity.
  - intros x. vm_compute. discriminate.
  - vm_compute. reflexivity.
Defined.

(** The Planner of the sample job stores the plan and returns. *)
Lemma plan_stored_before_read_witness :
  let p := planning_node shop_loads brief_repr true (answer page_ok "{plan}")
             (mk_world shop_job []) in
  plan_details (state (fst p)) = JObj shop_plan_fields
  /\ snd p = Returned tt.
Proof.
  destruct (plan_stored_before_read shop_loads brief_repr true
              (answer page_ok "{plan}") (mk_world shop_job [])
              shop_plan_fields eq_refl)
    as (Hstored & _ & _ & _ & Hreturns).
  destruct (Hreturns [JStr "Fill the search bar with 'phones'";
                      JStr "Click the search button";
                      JStr "Extract the top 5 products"] eq_refl)
    as (Hplanner & _).
  split; [exact Hstored | exact Hplanner].
Defined.
